(** * Message orchestration of the chatbot backend

    A shallow embedding of the conversation/message flow of the backend:
    - [sendMessage] and [saveMessageToDatabase] (src/functions/sendMessage.ts),
    - [handleMessageForOpenAI] and [processOpenAIMessage] (the OpenAI handler),
    - [processSlackBotMessage], [checkGetContactID] and [checkGetConversation]
      (the event-grid message processor).

    Asynchronous code is modelled by explicit state passing: a computation
    takes the database and the log of calls made to outside services and
    returns a value or a thrown error together with the new state.  What the
    outside world answers (the assistant provider, Slack, the clock, the
    identifier generator, the JSON functions of the runtime) is read from a
    record of oracles, so every theorem holds for whatever these answer. *)

From Stdlib Require Import String Ascii List ZArith Bool Lia Sorted.
Import ListNotations.
Local Open Scope string_scope.
Local Open Scope Z_scope.

Set Implicit Arguments.

(** ** JavaScript values and built-ins used by the code *)

(** A number of the runtime as far as the code produces one: an integer, or
    the [-Infinity] that [Math.max()] returns when called without argument. *)
Inductive JsNumber : Type :=
| Num (z : Z)
| NegInfinity.

(** [Math.max(...xs)] on integers. *)
Definition Math_max (xs : list Z) : JsNumber :=
  fold_left
    (fun acc x => match acc with
                  | NegInfinity => Num x
                  | Num a => Num (Z.max a x)
                  end)
    xs NegInfinity.

(** Values that [JSON.parse] returns.  A number is kept as the text that
    [JSON.stringify] prints for it. *)
#[local] Unset Elimination Schemes.
Inductive JsValue : Type :=
| JNull
| JBool (b : bool)
| JNumber (repr : string)
| JString (s : string)
| JArray (items : list JsValue)
| JObject (members : list (string * JsValue)).
#[local] Set Elimination Schemes.

Inductive JsError : Type :=
| TypeError
| SyntaxError
| ServiceError (what : string)
| ErrorMessage (msg : string).

(** Outcome of an expression that may throw. *)
Inductive Result (A : Type) : Type :=
| Ok (a : A)
| Thrown (e : JsError).
Arguments Ok {A} a.
Arguments Thrown {A} e.

(** First binding of [key], as property lookup on a parsed object. *)
Fixpoint assoc (key : string) (members : list (string * JsValue)) : option JsValue :=
  match members with
  | [] => None
  | (k, v) :: rest => if String.eqb k key then Some v else assoc key rest
  end.

(** [v.key]: reading a property of [null] throws; a missing property, and any
    property of a primitive or array that the code asks for, is [undefined]
    ([None]). *)
Definition getProperty (v : JsValue) (key : string) : Result (option JsValue) :=
  match v with
  | JNull => Thrown TypeError
  | JObject members => Ok (assoc key members)
  | _ => Ok None
  end.

(** [s.includes(pat)] *)
Definition includes (s pat : string) : bool :=
  match String.index 0 pat s with
  | Some _ => true
  | None => false
  end.

(** [s.replace(pat, rep)] for a string pattern: the first occurrence of [pat]
    is replaced.  The replacements used by the code (the empty string and
    [thread_]) hold no [$], so no replacement pattern is involved. *)
Definition js_replace (s pat rep : string) : string :=
  match String.index 0 pat s with
  | None => s
  | Some i =>
      String.substring 0 i s ++ rep
      ++ String.substring (i + String.length pat)
           (String.length s - (i + String.length pat)) s
  end.

(** [xs.findIndex(p)]: the index of the first element satisfying [p], or -1. *)
Fixpoint findIndex {A : Type} (p : A -> bool) (xs : list A) : Z :=
  match xs with
  | [] => -1
  | x :: rest =>
      if p x then 0
      else match findIndex p rest with
           | Zneg _ => -1
           | i => i + 1
           end
  end.

(** [xs.slice(start, stop)] with the negative-index rule of the language. *)
Definition js_slice {A : Type} (start stop : Z) (xs : list A) : list A :=
  let len := Z.of_nat (List.length xs) in
  let k := if start <? 0 then Z.max (len + start) 0 else Z.min start len in
  let fin := if stop <? 0 then Z.max (len + stop) 0 else Z.min stop len in
  firstn (Z.to_nat (fin - k)) (skipn (Z.to_nat k) xs).

(** [xs.join(sep)] *)
Fixpoint join (sep : string) (xs : list string) : string :=
  match xs with
  | [] => ""
  | [x] => x
  | x :: rest => x ++ sep ++ join sep rest
  end.

(** [xs.entries()]: each element with its index. *)
Fixpoint entries_from {A : Type} (i : Z) (xs : list A) : list (Z * A) :=
  match xs with
  | [] => []
  | x :: rest => (i, x) :: entries_from (i + 1) rest
  end.

Definition entries {A : Type} (xs : list A) : list (Z * A) := entries_from 0 xs.

Definition dquote : string := String "034"%char EmptyString.
Definition newline : string := String "010"%char EmptyString.

(** ** Data model *)

Inductive MessageCreatorType : Type := CONTACT | USER | AGENT.

Inductive ConversationStatusType : Type := OPEN | CLOSED | DRAFT.

(** Modelled from the spec: the declaration of the channel enumeration is not
    part of the sources; the code names [SLACK], the spec names the web
    channel. *)
Inductive ConversationChannelType : Type := WEB | SLACK.

Definition creator_eqb (a b : MessageCreatorType) : bool :=
  match a, b with
  | CONTACT, CONTACT | USER, USER | AGENT, AGENT => true
  | _, _ => false
  end.

(** Rows of the tables the flow reads or writes.  A nullable text column
    holds a [JsValue] ([JNull] for SQL NULL).  The branding columns of an
    organisation are neither read nor written here. *)
Record Organisation : Type := {
  org_id : string;
  org_name : string;
  org_assistant_id : option string
}.

Record Contact : Type := {
  cont_id : string;
  cont_organisation_id : string;
  cont_name : JsValue;
  cont_email : JsValue;
  cont_phone : JsValue;
  cont_slack_id : option string
}.

Record Conversation : Type := {
  conv_id : string;
  conv_organisation_id : string;
  conv_contact_id : string;
  conv_created_at : Z;
  conv_last_message_at : JsNumber;
  conv_interrupted : bool;
  conv_status : ConversationStatusType;
  conv_sentiment : Z;
  conv_channel : ConversationChannelType;
  conv_channel_id : option string;
  conv_summary : option string
}.

Record NewMessage : Type := {
  msg_id : string;
  msg_conversation_id : string;
  msg_message : string;
  msg_creator : MessageCreatorType;
  msg_version : option Z;
  msg_created_at : Z
}.

Record Citation : Type := {
  cit_url : option string
}.

(** Modelled from the spec: the class [MessageResponse] is declared in
    models/MessageResponse, which is not part of the sources.  Its fields are
    those its users read and write: [id], [conversation_id], [message],
    [creator], [created_at] and the optional [citations]. *)
Record MessageResponse : Type := {
  mr_id : string;
  mr_conversation_id : string;
  mr_message : string;
  mr_creator : MessageCreatorType;
  mr_created_at : Z;
  mr_citations : option (list Citation)
}.

Record MessageRequest : Type := {
  req_conversation_id : string;
  req_message : string;
  req_creator : MessageCreatorType
}.

Record Database : Type := {
  organisations : list Organisation;
  contacts : list Contact;
  conversations : list Conversation;
  messages : list NewMessage
}.

(** ** The assistant provider's data *)

Inductive RunStatus : Type :=
| queued | in_progress | requires_action | cancelling | cancelled
| failed | completed | incomplete | expired.

Definition status_eqb (a b : RunStatus) : bool :=
  match a, b with
  | queued, queued | in_progress, in_progress
  | requires_action, requires_action | cancelling, cancelling
  | cancelled, cancelled | failed, failed | completed, completed
  | incomplete, incomplete | expired, expired => true
  | _, _ => false
  end.

Record ToolCall : Type := {
  tc_id : string;
  tc_name : string;
  tc_arguments : string
}.

Record ToolOutput : Type := {
  tool_call_id : string;
  output : string
}.

(** [required_action] is [None] when the provider sends null. *)
Record Run : Type := {
  run_id : string;
  run_thread_id : string;
  run_status : RunStatus;
  run_required_action : option (list ToolCall)
}.

Inductive Role : Type := role_user | role_assistant.

Inductive AnnotationType : Type := file_citation | file_path.

Record Annotation : Type := {
  ann_type : AnnotationType;
  ann_text : string;
  ann_quote : option string;
  ann_start_index : Z;
  ann_end_index : Z
}.

Inductive ContentBlock : Type :=
| TextBlock (value : string) (annotations : list Annotation)
| OtherBlock.

Record ThreadMessage : Type := {
  tm_role : Role;
  tm_content : list ContentBlock;
  tm_created_at : Z
}.

Record SlackUser : Type := {
  su_id : string;
  su_real_name : option string;
  su_email : option string;
  su_phone : option string;
  su_is_admin : bool
}.

Record HttpResponseInit : Type := {
  status : Z;
  jsonBody : option (list MessageResponse + string)
}.

(** ** Calls to outside services, and what the outside answers

    The log of a computation lists the requests made to the assistant
    provider and to Slack, the call of [handleSingleMessageForOpenAI] (the
    assistant, for the Slack paths) and the call of
    [saveMessageResponsesToDatabase]. *)

Inductive Call : Type :=
| OpenAI_messages_create (thread_id content : string)
| OpenAI_runs_createAndPoll (thread_id : string) (assistant_id : option string)
| OpenAI_runs_submitToolOutputsAndPoll
    (thread_id run : string) (tool_outputs : list ToolOutput)
| OpenAI_messages_list (thread_id : string) (limit : option Z)
| Assistant_handleSingleMessage (assistant_id : option string) (message : string)
| Slack_users_info (user_id : string)
| Slack_chat_postMessage (channel text thread_ts : string)
| Db_saveMessageResponses (responses : list MessageResponse) (setInterrupted : bool).

(** The answers of the outside world.  [JSON_parse] is [None] where the
    runtime throws a SyntaxError.  [createID n prefix] is the n-th identifier
    drawn, [Date_now n] the n-th reading of the clock.
    [handleSingleMessageForOpenAI] and [saveMessageResponsesToDatabase] are
    functions of the repository whose files are not part of the sources: the
    first is taken by its result, the second by its effect on the tables. *)
Record World : Type := {
  JSON_parse : string -> option JsValue;
  JSON_stringify : JsValue -> string;
  createID : nat -> string -> string;
  Date_now : nat -> Z;
  messages_create : string -> string -> Result unit;
  runs_createAndPoll : string -> option string -> Result Run;
  runs_submitToolOutputsAndPoll :
    string -> string -> list ToolOutput -> Result Run;
  messages_list : string -> option Z -> Result (list ThreadMessage);
  handleSingleMessageForOpenAI :
    option string -> string -> Result (list MessageResponse);
  users_info : string -> Result SlackUser;
  chat_postMessage : string -> string -> string -> Result unit;
  saveMessageResponsesToDatabase :
    list MessageResponse -> bool -> Database -> Database
}.

(** ** Computations: state passing with exceptions

    The state outlives a thrown error: what was written before the throw
    stays written, as there is no transaction around the calls. *)

Record St : Type := {
  db : Database;
  calls : list Call;
  ids_drawn : nat;
  clock_reads : nat
}.

Definition M (A : Type) : Type := St -> Result A * St.

Definition ret {A : Type} (a : A) : M A := fun s => (Ok a, s).

Definition bind {A B : Type} (m : M A) (k : A -> M B) : M B :=
  fun s =>
    match m s with
    | (Ok a, s') => k a s'
    | (Thrown e, s') => (Thrown e, s')
    end.

Definition throw {A : Type} (e : JsError) : M A := fun s => (Thrown e, s).

(** [try { body } catch (error) { handler }] *)
Definition try_catch {A : Type} (body : M A) (handler : JsError -> M A) : M A :=
  fun s =>
    match body s with
    | (Ok a, s') => (Ok a, s')
    | (Thrown e, s') => handler e s'
    end.

Declare Scope m_scope.
Delimit Scope m_scope with m.
Notation "x <- c ;; k" := (bind c (fun x => k))
  (at level 61, c at next level, right associativity) : m_scope.
Notation "c ;;; k" := (bind c (fun _ => k))
  (at level 61, right associativity) : m_scope.
Local Open Scope m_scope.

Definition lift {A : Type} (r : Result A) : M A := fun s => (r, s).

(** Destructuring or reading through [undefined]/[null] throws a TypeError. *)
Definition defined {A : Type} (o : option A) : M A :=
  match o with
  | Some a => ret a
  | None => throw TypeError
  end.

Definition get_db : M Database := fun s => (Ok (db s), s).

Definition modify_db (f : Database -> Database) : M unit :=
  fun s => (Ok tt, {| db := f (db s); calls := calls s;
                      ids_drawn := ids_drawn s; clock_reads := clock_reads s |}).

(** A call to an outside service: logged, then answered. *)
Definition call {A : Type} (c : Call) (answer : Result A) : M A :=
  fun s => (answer, {| db := db s; calls := calls s ++ [c];
                       ids_drawn := ids_drawn s; clock_reads := clock_reads s |}).

Fixpoint mapM {A B : Type} (f : A -> M B) (xs : list A) : M (list B) :=
  match xs with
  | [] => ret []
  | x :: rest => y <- f x ;; ys <- mapM f rest ;; ret (y :: ys)
  end.

Section Flow.

Variable w : World.

Definition draw_id (prefix : string) : M string :=
  fun s => (Ok (createID w (ids_drawn s) prefix),
            {| db := db s; calls := calls s;
               ids_drawn := S (ids_drawn s); clock_reads := clock_reads s |}).

Definition now : M Z :=
  fun s => (Ok (Date_now w (clock_reads s)),
            {| db := db s; calls := calls s;
               ids_drawn := ids_drawn s; clock_reads := S (clock_reads s) |}).

(** Modelled from the spec: the constructor of [MessageResponse], whose class
    is not part of the sources; it draws the message identifier and keeps its
    arguments. *)
Definition new_MessageResponse (conversation_id message : string)
    (creator : MessageCreatorType) (created_at : Z) : M MessageResponse :=
  id <- draw_id "msg" ;;
  ret {| mr_id := id; mr_conversation_id := conversation_id;
         mr_message := message; mr_creator := creator;
         mr_created_at := created_at; mr_citations := None |}.

(** [{ ...r } as NewMessage] *)
Definition as_NewMessage (r : MessageResponse) : NewMessage :=
  {| msg_id := mr_id r; msg_conversation_id := mr_conversation_id r;
     msg_message := mr_message r; msg_creator := mr_creator r;
     msg_version := None; msg_created_at := mr_created_at r |}.

(** *** Queries *)

(** [selectFrom conversations innerJoin organisations where conversations.id = id
    select interrupted, assistant_id, contact_id; executeTakeFirst] *)
Definition selectConversationForMessage (d : Database) (id : string)
  : option (bool * option string * string) :=
  hd_error
    (flat_map
       (fun c =>
          if String.eqb (conv_id c) id then
            map (fun o => (conv_interrupted c, org_assistant_id o, conv_contact_id c))
                (filter (fun o => String.eqb (org_id o) (conv_organisation_id c))
                        (organisations d))
          else [])
       (conversations d)).

Definition insertMessages (rows : list NewMessage) (d : Database) : Database :=
  {| organisations := organisations d; contacts := contacts d;
     conversations := conversations d; messages := messages d ++ rows |}.

(** [updateTable conversations set ... where id = id] *)
Definition updateConversations (id : string) (change : Conversation -> Conversation)
    (d : Database) : Database :=
  {| organisations := organisations d; contacts := contacts d;
     conversations :=
       map (fun c => if String.eqb (conv_id c) id then change c else c)
           (conversations d);
     messages := messages d |}.

Definition set_last_status (last : JsNumber) (c : Conversation) : Conversation :=
  {| conv_id := conv_id c; conv_organisation_id := conv_organisation_id c;
     conv_contact_id := conv_contact_id c; conv_created_at := conv_created_at c;
     conv_last_message_at := last; conv_interrupted := conv_interrupted c;
     conv_status := OPEN; conv_sentiment := conv_sentiment c;
     conv_channel := conv_channel c; conv_channel_id := conv_channel_id c;
     conv_summary := conv_summary c |}.

Definition set_last_status_interrupted (last : JsNumber) (c : Conversation)
  : Conversation :=
  {| conv_id := conv_id c; conv_organisation_id := conv_organisation_id c;
     conv_contact_id := conv_contact_id c; conv_created_at := conv_created_at c;
     conv_last_message_at := last; conv_interrupted := true;
     conv_status := OPEN; conv_sentiment := conv_sentiment c;
     conv_channel := conv_channel c; conv_channel_id := conv_channel_id c;
     conv_summary := conv_summary c |}.

Definition set_interrupted (c : Conversation) : Conversation :=
  {| conv_id := conv_id c; conv_organisation_id := conv_organisation_id c;
     conv_contact_id := conv_contact_id c; conv_created_at := conv_created_at c;
     conv_last_message_at := conv_last_message_at c; conv_interrupted := true;
     conv_status := conv_status c; conv_sentiment := conv_sentiment c;
     conv_channel := conv_channel c; conv_channel_id := conv_channel_id c;
     conv_summary := conv_summary c |}.

(** A column given [undefined] in [set] is left as it is. *)
Definition column (given : option JsValue) (old : JsValue) : JsValue :=
  match given with
  | Some v => v
  | None => old
  end.

(** [updateTable contacts set name, email, phone where id = id] *)
Definition updateContacts (id : string) (name email phone : option JsValue)
    (d : Database) : Database :=
  {| organisations := organisations d;
     contacts :=
       map (fun c =>
              if String.eqb (cont_id c) id then
                {| cont_id := cont_id c;
                   cont_organisation_id := cont_organisation_id c;
                   cont_name := column name (cont_name c);
                   cont_email := column email (cont_email c);
                   cont_phone := column phone (cont_phone c);
                   cont_slack_id := cont_slack_id c |}
              else c)
           (contacts d);
     conversations := conversations d; messages := messages d |}.

(** *** Tool calls (sendMessage.ts, and the same text in the OpenAI handler) *)

Definition cant_parse_details : string := "Can't parse details".

(** [{ "success": "true" }] *)
Definition generic_success : string :=
  "{ " ++ dquote ++ "success" ++ dquote ++ ": "
       ++ dquote ++ "true" ++ dquote ++ " }".

Definition saveContactDetails (contact_id data : string) : M string :=
  try_catch
    (details <- match JSON_parse w data with
                | Some v => ret v
                | None => throw SyntaxError
                end ;;
     name <- lift (getProperty details "name") ;;
     email <- lift (getProperty details "email") ;;
     phone <- lift (getProperty details "phone") ;;
     modify_db (updateContacts contact_id name email phone) ;;;
     ret (JSON_stringify w details))
    (fun _ => ret cant_parse_details).

(** The callback mapped over [tool_calls].  The callbacks are taken in the
    order of the calls. *)
Definition tool_output (contact_id : string) (tc : ToolCall) : M ToolOutput :=
  out <- (if String.eqb (tc_name tc) "save_contact_details"
          then saveContactDetails contact_id (tc_arguments tc)
          else ret generic_success) ;;
  ret {| tool_call_id := tc_id tc; output := out |}.

Definition tool_outputs (contact_id : string) (tool_calls : list ToolCall)
  : M (list ToolOutput) :=
  mapM (tool_output contact_id) tool_calls.

(** [if (run.status === "requires_action") { ... run = submitToolOutputsAndPoll }] *)
Definition resolve_required_action (thread_id contact_id : string) (run : Run)
  : M Run :=
  if status_eqb (run_status run) requires_action then
    tool_calls <- defined (run_required_action run) ;;
    outs <- tool_outputs contact_id tool_calls ;;
    call (OpenAI_runs_submitToolOutputsAndPoll thread_id (run_id run) outs)
         (runs_submitToolOutputsAndPoll w thread_id (run_id run) outs)
  else ret run.

Definition is_user (m : ThreadMessage) : bool :=
  match tm_role m with
  | role_user => true
  | role_assistant => false
  end.

(** [messages.data.slice(0, messages.data.findIndex((m) => m.role === "user"))] *)
Definition since_last_user (data : list ThreadMessage) : list ThreadMessage :=
  js_slice 0 (findIndex is_user data) data.

(** *** sendMessage.ts *)

Definition saveMessageToDatabase (requestToSave : NewMessage)
    (responses : option (list MessageResponse)) (setInterrupted : bool) : M unit :=
  let responsesToSave := option_map (map as_NewMessage) responses in
  let last_message_at :=
    match responsesToSave with
    | Some rs => Math_max (map msg_created_at rs)
    | None => Num (msg_created_at requestToSave)
    end in
  modify_db (insertMessages
               match responsesToSave with
               | Some rs => requestToSave :: rs
               | None => [requestToSave]
               end) ;;;
  modify_db (updateConversations (msg_conversation_id requestToSave)
               (if setInterrupted
                then set_last_status_interrupted last_message_at
                else set_last_status last_message_at)).

Definition failed_to_send : HttpResponseInit :=
  {| status := 500; jsonBody := Some (inr "Failed to send message") |}.

(** The body of the loop over the selected thread messages. *)
Definition push_text_message (conversation_id : string) (message : ThreadMessage)
  : M (list MessageResponse) :=
  first <- defined (hd_error (tm_content message)) ;;
  match first with
  | TextBlock value _ =>
      r <- new_MessageResponse conversation_id value AGENT
             (tm_created_at message * 1000) ;;
      ret [r]
  | OtherBlock => ret []
  end.

(** The inbound row is [{ ...new MessageResponse(conversation_id, message,
    creator), created_at: Date.now() }]: the identifier drawn by the
    constructor, the fields of the request, and the reading of the clock.
    Building the provider's client and reading the request's JSON come
    first and make no request to the provider. *)
Definition sendMessage (messageRequest : MessageRequest) : M HttpResponseInit :=
  try_catch
    (d <- get_db ;;
     row <- defined (selectConversationForMessage d
                       (req_conversation_id messageRequest)) ;;
     let '(interrupted, assistant_id, contact_id) := row in
     id <- draw_id "msg" ;;
     created_at <- now ;;
     let newMessageRequest :=
       {| msg_id := id;
          msg_conversation_id := req_conversation_id messageRequest;
          msg_message := req_message messageRequest;
          msg_creator := req_creator messageRequest;
          msg_version := None;
          msg_created_at := created_at |} in
     if interrupted || creator_eqb (req_creator messageRequest) USER then
       saveMessageToDatabase newMessageRequest None true ;;;
       ret {| status := 200; jsonBody := None |}
     else
       let thread_id :=
         js_replace (req_conversation_id messageRequest) "conv_" "thread_" in
       call (OpenAI_messages_create thread_id (req_message messageRequest))
            (messages_create w thread_id (req_message messageRequest)) ;;;
       run <- call (OpenAI_runs_createAndPoll thread_id assistant_id)
                   (runs_createAndPoll w thread_id assistant_id) ;;
       run <- resolve_required_action thread_id contact_id run ;;
       if status_eqb (run_status run) completed then
         data <- call (OpenAI_messages_list (run_thread_id run) None)
                      (messages_list w (run_thread_id run) None) ;;
         pushed <- mapM (push_text_message (req_conversation_id messageRequest))
                        (since_last_user data) ;;
         let messageResponse := concat pushed in
         saveMessageToDatabase newMessageRequest (Some messageResponse) false ;;;
         ret {| status := 200; jsonBody := Some (inl messageResponse) |}
       else ret failed_to_send)
    (fun _ => ret failed_to_send).

(** *** The OpenAI handler *)

(** The loop over the annotations in [processOpenAIMessage]: each annotation
    removes the first occurrence of its text. *)
Definition strip_annotations (value : string) (annotations : list Annotation)
  : string :=
  fold_left (fun messageTextContent annotation =>
               js_replace messageTextContent (ann_text annotation) "")
            annotations value.

(** [None] is the [undefined] the function returns when the first content
    block is not a text. *)
Definition processOpenAIMessage (message : ThreadMessage) (conversation_id : string)
  : M (option MessageResponse) :=
  first <- defined (hd_error (tm_content message)) ;;
  match first with
  | TextBlock value annotations =>
      r <- new_MessageResponse conversation_id
             (strip_annotations value annotations) AGENT
             (tm_created_at message * 1000) ;;
      ret (Some r)
  | OtherBlock => ret None
  end.

(** The body of the loop of [handleMessageForOpenAI]; the guard makes
    [processOpenAIMessage] return a message. *)
Definition push_processed_message (conversation_id : string)
    (message : ThreadMessage) : M (list MessageResponse) :=
  first <- defined (hd_error (tm_content message)) ;;
  match first with
  | TextBlock _ _ =>
      r <- processOpenAIMessage message conversation_id ;;
      ret match r with
          | Some m => [m]
          | None => []
          end
  | OtherBlock => ret []
  end.

Definition handleMessageForOpenAI (messageRequest : MessageRequest)
    (assistant_id contact_id : string) : M (list MessageResponse) :=
  let thread_id :=
    js_replace (req_conversation_id messageRequest) "conv_" "thread_" in
  call (OpenAI_messages_create thread_id (req_message messageRequest))
       (messages_create w thread_id (req_message messageRequest)) ;;;
  run <- call (OpenAI_runs_createAndPoll thread_id (Some assistant_id))
              (runs_createAndPoll w thread_id (Some assistant_id)) ;;
  run <- resolve_required_action thread_id contact_id run ;;
  if status_eqb (run_status run) completed then
    data <- call (OpenAI_messages_list (run_thread_id run) (Some 5))
                 (messages_list w (run_thread_id run) (Some 5)) ;;
    pushed <- mapM (push_processed_message (req_conversation_id messageRequest))
                   (since_last_user data) ;;
    ret (concat pushed)
  else throw (ErrorMessage "OpenAI request failed").

(** *** The Slack bot event *)

Record SlackBotMessageEvent : Type := {
  ev_organisation_id : string;
  ev_message : string;
  ev_user_id : string;
  ev_channel_id : string;
  ev_thread_ts : string
}.

Definition text_column (o : option string) : JsValue :=
  match o with
  | Some v => JString v
  | None => JNull
  end.

Definition truthy (id : string) : bool := negb (String.eqb id "").

Definition slack_id_is (slack_id : string) (c : Contact) : bool :=
  match cont_slack_id c with
  | Some v => String.eqb v slack_id
  | None => false
  end.

Definition channel_id_is (thread_ts : string) (c : Conversation) : bool :=
  match conv_channel_id c with
  | Some v => String.eqb v thread_ts
  | None => false
  end.

Definition insertContact (c : Contact) (d : Database) : Database :=
  {| organisations := organisations d; contacts := contacts d ++ [c];
     conversations := conversations d; messages := messages d |}.

Definition insertConversation (c : Conversation) (d : Database) : Database :=
  {| organisations := organisations d; contacts := contacts d;
     conversations := conversations d ++ [c]; messages := messages d |}.

Definition getUserFromSlack (user_id : string) : M SlackUser :=
  call (Slack_users_info user_id) (users_info w user_id).

Definition postBotResponseToSlack (channel text thread_ts : string) : M unit :=
  call (Slack_chat_postMessage channel text thread_ts)
       (chat_postMessage w channel text thread_ts).

Definition checkGetContactID (slack_id : string)
    (slack_name slack_email slack_phone : option string)
    (organisation_id : string) : M string :=
  contact_id <- draw_id "cont" ;;
  d <- get_db ;;
  let create :=
    modify_db (insertContact
                 {| cont_id := contact_id;
                    cont_organisation_id := organisation_id;
                    cont_name := text_column slack_name;
                    cont_email := text_column slack_email;
                    cont_phone := text_column slack_phone;
                    cont_slack_id := Some slack_id |}) ;;;
    ret contact_id in
  match find (slack_id_is slack_id) (contacts d) with
  | Some contact =>
      if truthy (cont_id contact) then ret (cont_id contact) else create
  | None => create
  end.

(** [None] is the [undefined] returned for an admin's message in a thread
    that has no conversation. *)
Definition checkGetConversation (thread_ts organisation_id : string)
    (messageIsFromAdmin : bool) (contact_id : string) : M (option string) :=
  conversation_id <- draw_id "conv" ;;
  d <- get_db ;;
  let otherwise :=
    if negb messageIsFromAdmin then
      created_at <- now ;;
      last_message_at <- now ;;
      modify_db (insertConversation
                   {| conv_id := conversation_id;
                      conv_organisation_id := organisation_id;
                      conv_contact_id := contact_id;
                      conv_created_at := created_at;
                      conv_last_message_at := Num last_message_at;
                      conv_interrupted := false;
                      conv_status := OPEN;
                      conv_sentiment := 0;
                      conv_channel := SLACK;
                      conv_channel_id := Some thread_ts;
                      conv_summary := None |}) ;;;
      ret (Some conversation_id)
    else ret None in
  match find (channel_id_is thread_ts) (conversations d) with
  | Some conversation =>
      if truthy (conv_id conversation) then
        (if messageIsFromAdmin
         then modify_db (updateConversations (conv_id conversation) set_interrupted)
         else ret tt) ;;;
        ret (Some (conv_id conversation))
      else otherwise
  | None => otherwise
  end.

(** [messageResponse.flatMap((m) => m.citations && m.citations.map((c) => c.url))
      .filter((c) => c !== undefined && c !== "")] *)
Definition citationsWithURLs (messageResponse : list MessageResponse)
  : list string :=
  flat_map
    (fun u => match u with
              | Some url => if String.eqb url "" then [] else [url]
              | None => []
              end)
    (flat_map (fun m => match mr_citations m with
                        | Some cs => map cit_url cs
                        | None => [None]
                        end)
              messageResponse).

Definition bot_response_text (messageResponse : list MessageResponse) : string :=
  let response := join newline (map mr_message messageResponse) in
  let urls := citationsWithURLs messageResponse in
  let response :=
    match urls with
    | [] => response
    | _ => response ++ newline ++ newline ++ "These links might help you:"
                    ++ newline ++ join newline urls
    end in
  response ++ newline
    ++ "If this solved your question give the message a :white_check_mark:".

(** The loop that stamps the responses before they are saved. *)
Definition stamp_responses (conversation_id : string) (inbound_created_at : Z)
    (messageResponse : list MessageResponse) : list MessageResponse :=
  map (fun '(index, mr) =>
         {| mr_id := mr_id mr; mr_conversation_id := conversation_id;
            mr_message := mr_message mr; mr_creator := mr_creator mr;
            mr_created_at := inbound_created_at + index + 1;
            mr_citations := mr_citations mr |})
      (entries messageResponse).

Definition save_responses (responses : list MessageResponse)
    (setInterrupted : bool) : M unit :=
  fun s =>
    (Ok tt,
     {| db := saveMessageResponsesToDatabase w responses setInterrupted (db s);
        calls := calls s ++ [Db_saveMessageResponses responses setInterrupted];
        ids_drawn := ids_drawn s; clock_reads := clock_reads s |}).

Definition apology : string :=
  "An error occured wth this message, please contact your adminstrator.".

Definition processSlackBotMessage (data : SlackBotMessageEvent) : M unit :=
  try_catch
    (d <- get_db ;;
     org <- defined (find (fun o => String.eqb (org_id o) (ev_organisation_id data))
                          (organisations d)) ;;
     let assistant_id := org_assistant_id org in
     slackUser <- getUserFromSlack (ev_user_id data) ;;
     contact_id <- checkGetContactID (su_id slackUser) (su_real_name slackUser)
                     (su_email slackUser) (su_phone slackUser)
                     (ev_organisation_id data) ;;
     conversation <- checkGetConversation (ev_thread_ts data)
                       (ev_organisation_id data) (su_is_admin slackUser)
                       contact_id ;;
     messageResponse <-
       (if negb (su_is_admin slackUser) then
          rs <- call (Assistant_handleSingleMessage assistant_id (ev_message data))
                     (handleSingleMessageForOpenAI w assistant_id (ev_message data)) ;;
          postBotResponseToSlack (ev_channel_id data) (bot_response_text rs)
                                 (ev_thread_ts data) ;;;
          ret (Some rs)
        else ret None) ;;
     match conversation with
     | Some conversation_id =>
         id <- draw_id "msg" ;;
         created_at <- now ;;
         let inboundMessage :=
           {| msg_id := id; msg_conversation_id := conversation_id;
              msg_message := ev_message data;
              msg_creator := if su_is_admin slackUser then USER else CONTACT;
              msg_version := Some 1; msg_created_at := created_at |} in
         modify_db (insertMessages [inboundMessage]) ;;;
         match messageResponse with
         | Some rs =>
             save_responses (stamp_responses conversation_id created_at rs) false
         | None => ret tt
         end
     | None => ret tt
     end)
    (fun _ =>
       postBotResponseToSlack (ev_channel_id data) apology (ev_thread_ts data)).

(** The inbound row that [sendMessage] builds in state [s]. *)
Definition inbound_of (messageRequest : MessageRequest) (s : St) : NewMessage :=
  {| msg_id := createID w (ids_drawn s) "msg";
     msg_conversation_id := req_conversation_id messageRequest;
     msg_message := req_message messageRequest;
     msg_creator := req_creator messageRequest;
     msg_version := None;
     msg_created_at := Date_now w (clock_reads s) |}.

End Flow.

(** ** Concrete scenarios

    A world whose assistant answers with given runs and thread messages, and
    small databases around one conversation [conv_1] of organisation [org_1]
    and contact [cont_1].  They are the inputs at which the theorems below
    are exercised. *)

(** [{"email":"a@b.com"}] *)
Definition email_payload : string :=
  "{" ++ dquote ++ "email" ++ dquote ++ ":"
      ++ dquote ++ "a@b.com" ++ dquote ++ "}".

Definition email_details : JsValue := JObject [("email", JString "a@b.com")].

(** The answers of [JSON.parse] and [JSON.stringify] on the texts and values
    that occur in the scenarios: the payload above is the text of the object
    [{email: "a@b.com"}], and [not json] is no JSON text. *)
Definition scenario_parse (text : string) : option JsValue :=
  if String.eqb text email_payload then Some email_details else None.

Definition scenario_stringify (v : JsValue) : string :=
  match v with
  | JObject [(k, JString e)] =>
      "{" ++ dquote ++ k ++ dquote ++ ":" ++ dquote ++ e ++ dquote ++ "}"
  | _ => "null"
  end.

Definition scenario_world (first_run : Run)
    (second_run : Result Run) (data : list ThreadMessage)
    (user : SlackUser) (single : Result (list MessageResponse)) : World :=
  {| JSON_parse := scenario_parse;
     JSON_stringify := scenario_stringify;
     createID := fun n prefix => prefix ++ "_" ++ String (ascii_of_nat (97 + n)) "";
     Date_now := fun n => 1700000000900 + Z.of_nat n;
     messages_create := fun _ _ => Ok tt;
     runs_createAndPoll := fun _ _ => Ok first_run;
     runs_submitToolOutputsAndPoll := fun _ _ _ => second_run;
     messages_list := fun _ _ => Ok data;
     handleSingleMessageForOpenAI := fun _ _ => single;
     users_info := fun _ => Ok user;
     chat_postMessage := fun _ _ _ => Ok tt;
     saveMessageResponsesToDatabase :=
       fun responses _ d => insertMessages (map as_NewMessage responses) d |}.

Definition run_with (st : RunStatus) (tool_calls : option (list ToolCall)) : Run :=
  {| run_id := "run_1"; run_thread_id := "thread_1"; run_status := st;
     run_required_action := tool_calls |}.

Definition text_message (r : Role) (text : string) (created_at : Z)
  : ThreadMessage :=
  {| tm_role := r; tm_content := [TextBlock text []];
     tm_created_at := created_at |}.

Definition some_user (admin : bool) : SlackUser :=
  {| su_id := "U1"; su_real_name := Some "Ann"; su_email := None;
     su_phone := None; su_is_admin := admin |}.

Definition org_1 : Organisation :=
  {| org_id := "org_1"; org_name := "Acme"; org_assistant_id := Some "asst_1" |}.

Definition cont_1 : Contact :=
  {| cont_id := "cont_1"; cont_organisation_id := "org_1";
     cont_name := JNull; cont_email := JNull; cont_phone := JNull;
     cont_slack_id := Some "U1" |}.

Definition conv_1 (interrupted : bool) (st : ConversationStatusType)
  : Conversation :=
  {| conv_id := "conv_1"; conv_organisation_id := "org_1";
     conv_contact_id := "cont_1"; conv_created_at := 1699999990000;
     conv_last_message_at := Num 1699999995000;
     conv_interrupted := interrupted; conv_status := st;
     conv_sentiment := 0; conv_channel := SLACK;
     conv_channel_id := Some "171.001"; conv_summary := None |}.

Definition db_1 (interrupted : bool) (st : ConversationStatusType) : Database :=
  {| organisations := [org_1]; contacts := [cont_1];
     conversations := [conv_1 interrupted st]; messages := [] |}.

Definition empty_db : Database :=
  {| organisations := []; contacts := []; conversations := []; messages := [] |}.

Definition start (d : Database) : St :=
  {| db := d; calls := []; ids_drawn := 0; clock_reads := 0 |}.

Definition hi (creator : MessageCreatorType) : MessageRequest :=
  {| req_conversation_id := "conv_1"; req_message := "hi";
     req_creator := creator |}.

(** The assistant answers [Hello!] within the second of the inbound message. *)
Definition world_hello : World :=
  scenario_world (run_with completed None) (Thrown (ServiceError "unused"))
    [text_message role_assistant "Hello!" 1700000000;
     text_message role_user "hi" 1700000000]
    (some_user false) (Ok []).

(** The assistant asks to save an e-mail address, then the run fails. *)
Definition world_tool_then_failed : World :=
  scenario_world
    (run_with requires_action
       (Some [{| tc_id := "call_1"; tc_name := "save_contact_details";
                 tc_arguments := email_payload |};
              {| tc_id := "call_2"; tc_name := "save_contact_details";
                 tc_arguments := "not json" |};
              {| tc_id := "call_3"; tc_name := "lookup_order";
                 tc_arguments := "{}" |}]))
    (Ok (run_with failed None)) [] (some_user false) (Ok []).

(** The assistant asks to save an e-mail address and, in a second call,
    details that are no JSON.  The provider ends the run as failed when one of
    the outputs it is given says that details could not be parsed, and as
    completed otherwise. *)
Definition picky_tool_calls : list ToolCall :=
  [{| tc_id := "call_1"; tc_name := "save_contact_details";
      tc_arguments := email_payload |};
   {| tc_id := "call_2"; tc_name := "save_contact_details";
      tc_arguments := "not json" |}].

Definition world_picky : World :=
  {| JSON_parse := scenario_parse;
     JSON_stringify := scenario_stringify;
     createID := fun n prefix => prefix ++ "_" ++ String (ascii_of_nat (97 + n)) "";
     Date_now := fun n => 1700000000900 + Z.of_nat n;
     messages_create := fun _ _ => Ok tt;
     runs_createAndPoll :=
       fun _ _ => Ok (run_with requires_action (Some picky_tool_calls));
     runs_submitToolOutputsAndPoll :=
       fun _ _ outs =>
         if existsb (fun o => String.eqb (output o) cant_parse_details) outs
         then Ok (run_with failed None)
         else Ok (run_with completed None);
     messages_list :=
       fun _ _ => Ok [text_message role_assistant "Saved." 1700000001;
                      text_message role_user "hi" 1700000000];
     handleSingleMessageForOpenAI := fun _ _ => Ok [];
     users_info := fun _ => Ok (some_user false);
     chat_postMessage := fun _ _ _ => Ok tt;
     saveMessageResponsesToDatabase :=
       fun responses _ d => insertMessages (map as_NewMessage responses) d |}.

(** The thread holds two assistant messages and no user message. *)
Definition world_no_user_message : World :=
  scenario_world (run_with completed None) (Thrown (ServiceError "unused"))
    [text_message role_assistant "second" 1700000002;
     text_message role_assistant "first" 1700000001]
    (some_user false) (Ok []).

(** The thread holds the user's message only: the run completed without a
    new assistant message. *)
Definition world_no_reply : World :=
  scenario_world (run_with completed None) (Thrown (ServiceError "unused"))
    [text_message role_user "hi" 1700000000]
    (some_user false) (Ok []).

(** A file citation whose marker in the text is [marker]. *)
Definition cite (marker : string) : Annotation :=
  {| ann_type := file_citation; ann_text := marker;
     ann_quote := Some "opening hours"; ann_start_index := 4;
     ann_end_index := 7 |}.

Definition reply (text : string) : MessageResponse :=
  {| mr_id := "msg_x"; mr_conversation_id := ""; mr_message := text;
     mr_creator := AGENT; mr_created_at := 1700000000000;
     mr_citations := None |}.

(** Slack: a sender who is no admin, and an assistant with two replies. *)
Definition world_slack : World :=
  scenario_world (run_with completed None) (Thrown (ServiceError "unused")) []
    (some_user false) (Ok [reply "Hello!"; reply "How can I help?"]).

Definition bot_event : SlackBotMessageEvent :=
  {| ev_organisation_id := "org_1"; ev_message := "hi"; ev_user_id := "U1";
     ev_channel_id := "C1"; ev_thread_ts := "171.001" |}.

(** ** Predicates used in the statements *)

(** The tables of the organisations, conversations and messages agree. *)
Definition same_exchange (d d' : Database) : Prop :=
  messages d' = messages d /\
  conversations d' = conversations d /\
  organisations d' = organisations d.

(** [c'] is [c] except, possibly, for [last_message_at], [status] and
    [interrupted]. *)
Definition same_but_last_status_interrupted (c c' : Conversation) : Prop :=
  conv_id c' = conv_id c /\
  conv_organisation_id c' = conv_organisation_id c /\
  conv_contact_id c' = conv_contact_id c /\
  conv_created_at c' = conv_created_at c /\
  conv_sentiment c' = conv_sentiment c /\
  conv_channel c' = conv_channel c /\
  conv_channel_id c' = conv_channel_id c /\
  conv_summary c' = conv_summary c.

(** From [s] to [s'] nothing but the contacts table may have changed. *)
Definition only_contacts_changed (s s' : St) : Prop :=
  same_exchange (db s) (db s') /\
  calls s' = calls s /\
  ids_drawn s' = ids_drawn s /\
  clock_reads s' = clock_reads s.

(** What the code answers to one tool call. *)
Definition answers (w : World) (tc : ToolCall) (out : ToolOutput) : Prop :=
  tool_call_id out = tc_id tc /\
  (tc_name tc <> "save_contact_details" -> output out = generic_success) /\
  (tc_name tc = "save_contact_details" ->
   match JSON_parse w (tc_arguments tc) with
   | None => output out = cant_parse_details
   | Some JNull => output out = cant_parse_details
   | Some details => output out = JSON_stringify w details
   end).

(** [message.content[0].type === "text"] for a message that has content. *)
Definition first_is_text (m : ThreadMessage) : bool :=
  match tm_content m with
  | TextBlock _ _ :: _ => true
  | _ => false
  end.

(** [r] is the outbound message that [sendMessage] makes of the thread
    message [m] for conversation [conversation_id]. *)
Definition made_from (conversation_id : string) (m : ThreadMessage)
    (r : MessageResponse) : Prop :=
  mr_conversation_id r = conversation_id /\
  mr_creator r = AGENT /\
  mr_created_at r = tm_created_at m * 1000 /\
  exists annotations rest,
    tm_content m = TextBlock (mr_message r) annotations :: rest.

(** The state after [saveMessageToDatabase request (Some responses) false]. *)
Definition saved (request : NewMessage) (responses : list MessageResponse)
    (s : St) : St :=
  {| db :=
       updateConversations (msg_conversation_id request)
         (set_last_status
            (Math_max (map msg_created_at (map as_NewMessage responses))))
         (insertMessages (request :: map as_NewMessage responses) (db s));
     calls := calls s; ids_drawn := ids_drawn s;
     clock_reads := clock_reads s |}.

(** [run] is the run the assistant phase ends in for that thread and
    assistant: the first run when it does not require action, else the run
    that answers a resubmission. *)
Definition run_ends_in (w : World) (thread_id : string)
    (assistant_id : option string) (run : Run) : Prop :=
  exists first_run,
    runs_createAndPoll w thread_id assistant_id = Ok first_run /\
    ((run_status first_run <> requires_action /\ run = first_run) \/
     (run_status first_run = requires_action /\
      exists outs,
        runs_submitToolOutputsAndPoll w thread_id (run_id first_run) outs
          = Ok run)).

(** [r] is the outbound message that [handleMessageForOpenAI] makes of the
    thread message [m]: its text is the stripped text of the first block. *)
Definition processed_from (conversation_id : string) (m : ThreadMessage)
    (r : MessageResponse) : Prop :=
  mr_conversation_id r = conversation_id /\
  mr_creator r = AGENT /\
  mr_created_at r = tm_created_at m * 1000 /\
  exists value annotations rest,
    tm_content m = TextBlock value annotations :: rest /\
    mr_message r = strip_annotations value annotations.

(** The database after the tool call [tc] was answered: a
    [save_contact_details] call whose arguments parse to a value other than
    [null] writes the name, e-mail and phone it gives to the contact; any
    other call writes nothing. *)
Definition after_tool_call (w : World) (contact_id : string) (d : Database)
    (tc : ToolCall) : Database :=
  if String.eqb (tc_name tc) "save_contact_details" then
    match JSON_parse w (tc_arguments tc) with
    | Some details =>
        match getProperty details "name", getProperty details "email",
              getProperty details "phone" with
        | Ok name, Ok email, Ok phone =>
            updateContacts contact_id name email phone d
        | _, _, _ => d
        end
    | None => d
    end
  else d.

(** The database after the tool calls were answered, in their order. *)
Definition after_tool_calls (w : World) (contact_id : string)
    (tool_calls : list ToolCall) (d : Database) : Database :=
  fold_left (after_tool_call w contact_id) tool_calls d.

(** ** Predicates used in the further statements *)

(** [c'] is the contact [c], possibly with other contact details when its
    id is [contact_id]. *)
Definition same_contact_but_details (contact_id : string) (c c' : Contact)
  : Prop :=
  cont_id c' = cont_id c /\
  cont_organisation_id c' = cont_organisation_id c /\
  cont_slack_id c' = cont_slack_id c /\
  (cont_id c <> contact_id -> c' = c).

(** [c'] is the contact [c] after a payload with these members was saved
    for [contact_id]: a member that is given replaces the column, a member
    that is missing leaves it. *)
Definition details_saved (contact_id : string)
    (members : list (string * JsValue)) (c c' : Contact) : Prop :=
  cont_id c = contact_id ->
  cont_name c' = column (assoc "name" members) (cont_name c) /\
  cont_email c' = column (assoc "email" members) (cont_email c) /\
  cont_phone c' = column (assoc "phone" members) (cont_phone c).

(** ** The database controller *)

Record ContactResponse : Type := {
  cr_id : string;
  cr_name : JsValue;
  cr_email : JsValue;
  cr_phone : JsValue
}.

(** [messages] is optional for the readers that guard it with [?.]. *)
Record ConversationResponse : Type := {
  cvr_id : string;
  cvr_contact : ContactResponse;
  cvr_messages : option (list MessageResponse);
  cvr_created_at : Z;
  cvr_last_message_at : JsNumber;
  cvr_status : ConversationStatusType;
  cvr_summary : option string;
  cvr_sentiment : Z
}.

(** The object made of a row in [getMessagesForConversation]. *)
Definition response_of_row (id : string) (m : NewMessage) : MessageResponse :=
  {| mr_id := msg_id m; mr_conversation_id := id;
     mr_message := msg_message m; mr_creator := msg_creator m;
     mr_created_at := msg_created_at m; mr_citations := None |}.

(** [selectFrom messages where conversation_id = conv_id selectAll]; the rows
    come in the order of the table. *)
Definition getMessagesForConversation (id : string)
  : M (list MessageResponse) :=
  d <- get_db ;;
  ret (map (response_of_row id)
           (filter (fun m => String.eqb (msg_conversation_id m) id)
                   (messages d))).

(** [selectFrom conversations leftJoin contacts on contacts.id =
    conversations.contact_id where conversations.id = conv_id;
    executeTakeFirst]: a conversation without contact row still gives a
    row, with null contact columns. *)
Definition selectConversationWithContact (d : Database) (id : string)
  : option (Conversation * option Contact) :=
  hd_error
    (flat_map
       (fun c =>
          if String.eqb (conv_id c) id then
            match filter (fun k => String.eqb (cont_id k) (conv_contact_id c))
                         (contacts d) with
            | [] => [(c, None)]
            | ks => map (fun k => (c, Some k)) ks
            end
          else [])
       (conversations d)).

Definition cant_find_conversation : string := "Can't find coversation".

Definition getFullConversation (id : string) : M ConversationResponse :=
  d <- get_db ;;
  match selectConversationWithContact d id with
  | Some (c, k) =>
      found <- getMessagesForConversation id ;;
      ret {| cvr_id := conv_id c;
             cvr_contact :=
               {| cr_id := conv_contact_id c;
                  cr_name := match k with Some k => cont_name k | None => JNull end;
                  cr_email := match k with Some k => cont_email k | None => JNull end;
                  cr_phone := match k with Some k => cont_phone k | None => JNull end |};
             cvr_messages := Some found;
             cvr_created_at := conv_created_at c;
             cvr_last_message_at := conv_last_message_at c;
             cvr_status := conv_status c;
             cvr_summary := conv_summary c;
             cvr_sentiment := conv_sentiment c |}
  | None => throw (ErrorMessage cant_find_conversation)
  end.

(** ** Further scenarios *)

(** Slack: the sender is an admin. *)
Definition world_admin : World :=
  scenario_world (run_with completed None) (Thrown (ServiceError "unused")) []
    (some_user true) (Ok []).

(** Slack: the assistant cannot be reached. *)
Definition world_assistant_down : World :=
  scenario_world (run_with completed None) (Thrown (ServiceError "unused")) []
    (some_user false) (Thrown (ServiceError "assistant down")).

(** ** Listing the conversations of an organisation (getConversations) *)

Record ConversationsResponse : Type := {
  csr_id : string;
  csr_organisation_id : string;
  csr_contact_name : JsValue;
  csr_created_at : Z;
  csr_last_message_at : JsNumber;
  csr_status : ConversationStatusType;
  csr_summary : option string;
  csr_sentiment : Z
}.

(** What the handler reads of the request: the [org_id] of the route, and
    what the authentication looks at. *)
Record HttpRequest : Type := {
  params_org_id : option string;
  authorization : option string
}.

Record ConversationsHttpResponse : Type := {
  cs_status : Z;
  cs_jsonBody : option (list ConversationsResponse + string)
}.

Definition conversation_status_eqb (a b : ConversationStatusType) : bool :=
  match a, b with
  | OPEN, OPEN | CLOSED, CLOSED | DRAFT, DRAFT => true
  | _, _ => false
  end.

(** The row that the query and the mapping of [getConversations] make of a
    conversation and its contact. *)
Definition conversation_line (c : Conversation) (k : Contact)
  : ConversationsResponse :=
  {| csr_id := conv_id c;
     csr_organisation_id := conv_organisation_id c;
     csr_contact_name := cont_name k;
     csr_created_at := conv_created_at c;
     csr_last_message_at := conv_last_message_at c;
     csr_status := conv_status c;
     csr_summary := conv_summary c;
     csr_sentiment := conv_sentiment c |}.

(** [selectFrom conversations innerJoin contacts on conversations.contact_id =
    contacts.id where conversations.organisation_id = org_id
    where status != DRAFT]; the rows are taken conversation by
    conversation. *)
Definition selectConversationsOf (d : Database) (org_id : string)
  : list ConversationsResponse :=
  flat_map
    (fun c =>
       if String.eqb (conv_organisation_id c) org_id
          && negb (conversation_status_eqb (conv_status c) DRAFT)
       then map (conversation_line c)
                (filter (fun k => String.eqb (conv_contact_id c) (cont_id k))
                        (contacts d))
       else [])
    (conversations d).

Section Conversations.

(** [authenticateRequest] and [checkUserIsAdmin] are functions of the
    repository whose files are not part of the sources: the first is taken
    by the e-mail it resolves the request to, or the error it rejects
    with, the second by its answer, or the error it throws. *)
Variable authenticateRequest : HttpRequest -> Result string.
Variable checkUserIsAdmin : string -> string -> Result bool.

(** [Some] is the response of an early [return]. *)
Definition authorise (request : HttpRequest) (org_id : string)
  : M (option ConversationsHttpResponse) :=
  try_catch
    (email <- lift (authenticateRequest request) ;;
     admin <- lift (checkUserIsAdmin org_id email) ;;
     if negb admin
     then ret (Some {| cs_status := 403; cs_jsonBody := None |})
     else ret None)
    (fun _ => ret (Some {| cs_status := 401; cs_jsonBody := None |})).

Definition getConversations (request : HttpRequest)
  : M ConversationsHttpResponse :=
  match params_org_id request with
  | Some org_id =>
      if String.eqb org_id "" then
        ret {| cs_status := 400;
               cs_jsonBody := Some (inr "Must supply a valid organisation ID") |}
      else
        early <- authorise request org_id ;;
        match early with
        | Some response => ret response
        | None =>
            d <- get_db ;;
            ret {| cs_status := 200;
                   cs_jsonBody := Some (inl (selectConversationsOf d org_id)) |}
        end
  | None =>
      ret {| cs_status := 400;
             cs_jsonBody := Some (inr "Must supply a valid organisation ID") |}
  end.

End Conversations.

(** * Properties *)

Local Open Scope m_scope.

(** ** The escalation gate of [sendMessage] *)

Section Gate.

Variable w : World.

Lemma gate_test (interrupted : bool) (creator : MessageCreatorType) :
  interrupted = true \/ creator = USER ->
  interrupted || creator_eqb creator USER = true.
Proof.
  intros [-> | ->]; [reflexivity | apply orb_true_r].
Qed.

Lemma sendMessage_gate_run (messageRequest : MessageRequest) (s : St)
    (interrupted : bool) (assistant_id : option string) (contact_id : string) :
  selectConversationForMessage (db s) (req_conversation_id messageRequest)
    = Some (interrupted, assistant_id, contact_id) ->
  interrupted = true \/ req_creator messageRequest = USER ->
  sendMessage w messageRequest s =
    (Ok {| status := 200; jsonBody := None |},
     {| db :=
          updateConversations (req_conversation_id messageRequest)
            (set_last_status_interrupted (Num (Date_now w (clock_reads s))))
            (insertMessages [inbound_of w messageRequest s] (db s));
        calls := calls s;
        ids_drawn := S (ids_drawn s);
        clock_reads := S (clock_reads s) |}).
Proof.
  intros Hsel Hgate.
  unfold sendMessage, try_catch, bind, get_db, defined.
  rewrite Hsel. cbn.
  rewrite (gate_test Hgate). reflexivity.
Qed.

Lemma sendMessage_unknown_run (messageRequest : MessageRequest) (s : St) :
  selectConversationForMessage (db s) (req_conversation_id messageRequest)
    = None ->
  sendMessage w messageRequest s = (Ok failed_to_send, s).
Proof.
  intros Hsel.
  unfold sendMessage, try_catch, bind, get_db, defined.
  rewrite Hsel. cbn. destruct s; reflexivity.
Qed.

(** A row returned by the lookup comes from a conversation with that id. *)
Lemma selected_conversation_exists (d : Database) (id : string)
    (row : bool * option string * string) :
  selectConversationForMessage d id = Some row ->
  exists c, In c (conversations d) /\ conv_id c = id.
Proof.
  unfold selectConversationForMessage.
  induction (conversations d) as [| c cs IH]; cbn; [discriminate |].
  destruct (String.eqb (conv_id c) id) eqn:E.
  - intros _. exists c. split; [now left | now apply String.eqb_eq].
  - cbn. intros H. destruct (IH H) as (c' & Hin & Hid).
    exists c'. split; [now right | exact Hid].
Qed.

Lemma updated_conversations_at (id : string)
    (change : Conversation -> Conversation) (cs : list Conversation)
    (P : Conversation -> Prop) :
  (forall c, conv_id (change c) = conv_id c) ->
  (forall c, P (change c)) ->
  forall c', In c' (map (fun c => if String.eqb (conv_id c) id
                                  then change c else c) cs) ->
             conv_id c' = id -> P c'.
Proof.
  intros Hid HP c' Hin Hc'.
  apply in_map_iff in Hin. destruct Hin as (c & <- & _).
  destruct (String.eqb (conv_id c) id) eqn:E; [apply HP |].
  apply String.eqb_neq in E. contradiction.
Qed.

Lemma updated_conversations_keep (id : string)
    (change : Conversation -> Conversation) (cs : list Conversation) :
  (forall c, conv_id (change c) = conv_id c) ->
  forall c, In c cs -> conv_id c = id ->
  exists c', In c' (map (fun c => if String.eqb (conv_id c) id
                                  then change c else c) cs)
             /\ conv_id c' = id.
Proof.
  intros Hid c Hin Hc. exists (change c). split.
  - apply in_map_iff. exists c. split; [| exact Hin].
    apply String.eqb_eq in Hc. now rewrite Hc.
  - now rewrite Hid.
Qed.

(** C1, as the code has it.  When the conversation found for the request is
    interrupted, or the request's creator is USER, [sendMessage] makes no
    call to the assistant (it makes no outside call at all), appends the
    inbound message and nothing else to the messages, leaves contacts and
    organisations alone, and answers 200 without any outbound message.  In
    both cases, whoever the creator is, the conversation is written: every
    row with the request's id gets the inbound timestamp as
    [last_message_at], status OPEN and [interrupted] true, and keeps its
    other fields; all other conversation rows are unchanged. *)
Theorem sendMessage_escalation_gate (messageRequest : MessageRequest) (s : St)
    (interrupted : bool) (assistant_id : option string) (contact_id : string) :
  selectConversationForMessage (db s) (req_conversation_id messageRequest)
    = Some (interrupted, assistant_id, contact_id) ->
  interrupted = true \/ req_creator messageRequest = USER ->
  exists s',
    sendMessage w messageRequest s
      = (Ok {| status := 200; jsonBody := None |}, s') /\
    calls s' = calls s /\
    messages (db s') = (messages (db s) ++ [inbound_of w messageRequest s])%list /\
    contacts (db s') = contacts (db s) /\
    organisations (db s') = organisations (db s) /\
    (exists c, In c (conversations (db s')) /\
               conv_id c = req_conversation_id messageRequest) /\
    Forall2
      (fun c c' =>
         (conv_id c <> req_conversation_id messageRequest -> c' = c) /\
         (conv_id c = req_conversation_id messageRequest ->
            same_but_last_status_interrupted c c' /\
            conv_last_message_at c'
              = Num (msg_created_at (inbound_of w messageRequest s)) /\
            conv_status c' = OPEN /\
            conv_interrupted c' = true))
      (conversations (db s)) (conversations (db s')).
Proof.
  intros Hsel Hgate.
  eexists. split; [exact (sendMessage_gate_run messageRequest s Hsel Hgate) |].
  cbn. do 4 (split; [reflexivity |]). split.
  - destruct (selected_conversation_exists _ _ Hsel) as (c & Hin & Hid).
    now apply updated_conversations_keep with (c := c).
  - induction (conversations (db s)) as [| c cs IH]; cbn; constructor;
      [| exact IH].
    destruct (String.eqb (conv_id c) (req_conversation_id messageRequest)) eqn:E.
    + split; [apply String.eqb_eq in E; contradiction |].
      intros _. unfold same_but_last_status_interrupted. cbn. repeat split.
    + split; [reflexivity |]. apply String.eqb_neq in E. contradiction.
Qed.

(** C6, as the code has it.  On an interrupted conversation [sendMessage]
    answers without outbound message and appends the inbound message; every
    conversation row with the request's id gets the inbound timestamp as
    [last_message_at], status OPEN and [interrupted] true, and keeps its
    other fields; all other conversation rows are unchanged. *)
Theorem sendMessage_on_interrupted_conversation (messageRequest : MessageRequest)
    (s : St) (assistant_id : option string) (contact_id : string) :
  selectConversationForMessage (db s) (req_conversation_id messageRequest)
    = Some (true, assistant_id, contact_id) ->
  exists s',
    sendMessage w messageRequest s
      = (Ok {| status := 200; jsonBody := None |}, s') /\
    messages (db s') = (messages (db s) ++ [inbound_of w messageRequest s])%list /\
    Forall2
      (fun c c' =>
         (conv_id c <> req_conversation_id messageRequest -> c' = c) /\
         (conv_id c = req_conversation_id messageRequest ->
            same_but_last_status_interrupted c c' /\
            conv_last_message_at c'
              = Num (msg_created_at (inbound_of w messageRequest s)) /\
            conv_status c' = OPEN /\
            conv_interrupted c' = true))
      (conversations (db s)) (conversations (db s')).
Proof.
  intros Hsel.
  eexists. split.
  { apply (sendMessage_gate_run messageRequest s Hsel). now left. }
  cbn. split; [reflexivity |].
  induction (conversations (db s)) as [| c cs IH]; cbn; constructor; [| exact IH].
  destruct (String.eqb (conv_id c) (req_conversation_id messageRequest)) eqn:E.
  - split; [apply String.eqb_eq in E; contradiction |].
    intros _. unfold same_but_last_status_interrupted. cbn. repeat split.
  - split; [reflexivity |]. apply String.eqb_neq in E. contradiction.
Qed.

(** C7, as the code has it.  When no conversation is found for the request,
    the destructuring of the missing row throws, the handler of [sendMessage]
    catches it, and the answer is the generic 500; nothing is written and no
    outside call is made. *)
Theorem sendMessage_unknown_conversation (messageRequest : MessageRequest)
    (s : St) :
  selectConversationForMessage (db s) (req_conversation_id messageRequest)
    = None ->
  sendMessage w messageRequest s = (Ok failed_to_send, s) /\
  status failed_to_send = 500.
Proof.
  intros Hsel. split; [| reflexivity].
  now apply sendMessage_unknown_run.
Qed.

End Gate.

Lemma sendMessage_escalation_gate_witness :
  exists s',
    sendMessage world_hello (hi USER) (start (db_1 false CLOSED))
      = (Ok {| status := 200; jsonBody := None |}, s') /\
    calls s' = [] /\
    messages (db s')
      = [inbound_of world_hello (hi USER) (start (db_1 false CLOSED))] /\
    map conv_status (conversations (db s')) = [OPEN] /\
    map conv_interrupted (conversations (db s')) = [true] /\
    map conv_last_message_at (conversations (db s')) = [Num 1700000000900].
Proof.
  destruct (@sendMessage_escalation_gate world_hello (hi USER)
              (start (db_1 false CLOSED)) false (Some "asst_1") "cont_1")
    as (s' & Hrun & Hcalls & Hmsgs & _ & _ & _ & Hall).
  - reflexivity.
  - right. reflexivity.
  - exists s'. do 3 (split; [assumption |]).
    inversion Hall as [| c c' cs cs' (_ & Hc) Hrest Hcs Hcs']; subst.
    inversion Hrest; subst.
    destruct (Hc eq_refl) as (_ & Hlast & Hst & Hint).
    cbn. now rewrite Hlast, Hst, Hint.
Defined.

(** C1 as stated fails: the gate writes the conversation also when the
    creator is not USER.  A message of the contact on an interrupted, closed
    conversation makes no assistant call, and yet the conversation is
    reopened and its [last_message_at] moved. *)
Lemma gate_reopens_for_contact_message :
  req_creator (hi CONTACT) <> USER /\
  calls (snd (sendMessage world_no_reply (hi CONTACT) (start (db_1 true CLOSED))))
    = [] /\
  conversations (db (start (db_1 true CLOSED))) = [conv_1 true CLOSED] /\
  conversations
    (db (snd (sendMessage world_no_reply (hi CONTACT) (start (db_1 true CLOSED)))))
    = [set_last_status_interrupted (Num 1700000000900) (conv_1 true CLOSED)] /\
  conv_status (conv_1 true CLOSED) = CLOSED /\
  conv_status (set_last_status_interrupted (Num 1700000000900)
                 (conv_1 true CLOSED)) = OPEN /\
  conv_last_message_at (conv_1 true CLOSED) = Num 1699999995000 /\
  conv_last_message_at (set_last_status_interrupted (Num 1700000000900)
                          (conv_1 true CLOSED)) = Num 1700000000900.
Proof.
  repeat split. discriminate.
Qed.

Lemma sendMessage_on_interrupted_conversation_witness :
  exists s',
    sendMessage world_hello (hi CONTACT) (start (db_1 true CLOSED))
      = (Ok {| status := 200; jsonBody := None |}, s') /\
    messages (db s')
      = [inbound_of world_hello (hi CONTACT) (start (db_1 true CLOSED))].
Proof.
  destruct (@sendMessage_on_interrupted_conversation world_hello (hi CONTACT)
              (start (db_1 true CLOSED)) (Some "asst_1") "cont_1")
    as (s' & Hrun & Hmsgs & _).
  - reflexivity.
  - exists s'. split; assumption.
Defined.

(** C6 as stated fails: an interrupted, closed conversation is reopened and
    its [last_message_at] moves to the inbound timestamp. *)
Lemma interrupted_conversation_is_changed :
  map conv_status
      (conversations
         (db (snd (sendMessage world_hello (hi CONTACT)
                     (start (db_1 true CLOSED))))))
    = [OPEN] /\
  map conv_status (conversations (db (start (db_1 true CLOSED)))) = [CLOSED] /\
  map conv_last_message_at
      (conversations
         (db (snd (sendMessage world_hello (hi CONTACT)
                     (start (db_1 true CLOSED))))))
    = [Num 1700000000900] /\
  map conv_last_message_at (conversations (db (start (db_1 true CLOSED))))
    = [Num 1699999995000] /\
  conversations
    (db (snd (sendMessage world_hello (hi CONTACT) (start (db_1 true CLOSED)))))
    <> conversations (db (start (db_1 true CLOSED))).
Proof.
  repeat split; try reflexivity.
  vm_compute. discriminate.
Qed.

Lemma sendMessage_unknown_conversation_witness :
  sendMessage world_hello (hi CONTACT) (start empty_db)
    = (Ok failed_to_send, start empty_db) /\
  status failed_to_send = 500.
Proof.
  apply (@sendMessage_unknown_conversation world_hello (hi CONTACT)
           (start empty_db)).
  reflexivity.
Defined.

(** C7 as stated fails: for a conversation that does not exist the status is
    500, which is no 4xx. *)
Lemma unknown_conversation_is_not_4xx :
  fst (sendMessage world_hello (hi CONTACT) (start empty_db))
    = Ok failed_to_send /\
  ~ (400 <= status failed_to_send < 500).
Proof.
  split; [reflexivity |]. cbn. lia.
Qed.

(** ** The tool-call round trip *)

Section Tools.

Variable w : World.

Lemma only_contacts_changed_refl (s : St) : only_contacts_changed s s.
Proof. repeat split. Qed.

Lemma only_contacts_changed_trans (s1 s2 s3 : St) :
  only_contacts_changed s1 s2 -> only_contacts_changed s2 s3 ->
  only_contacts_changed s1 s3.
Proof.
  intros ((M1 & C1 & O1) & K1 & I1 & T1) ((M2 & C2 & O2) & K2 & I2 & T2).
  repeat split; congruence.
Qed.

(** [saveContactDetails] always returns a string: a parse failure and the
    property read on [null] end in the handler. *)
Lemma saveContactDetails_returns (contact_id data : string) (s : St) :
  exists out s',
    saveContactDetails w contact_id data s = (Ok out, s') /\
    only_contacts_changed s s' /\
    match JSON_parse w data with
    | None => out = cant_parse_details
    | Some JNull => out = cant_parse_details
    | Some details => out = JSON_stringify w details
    end.
Proof.
  unfold saveContactDetails, try_catch, bind, lift.
  destruct (JSON_parse w data) as [details |]; cbn.
  - destruct details; cbn;
      (eexists; eexists; split; [reflexivity |]);
      (split; [repeat split | reflexivity]).
  - exists cant_parse_details, s. repeat split.
Qed.

Lemma tool_output_returns (contact_id : string) (tc : ToolCall) (s : St) :
  exists out s',
    tool_output w contact_id tc s = (Ok out, s') /\
    only_contacts_changed s s' /\
    answers w tc out.
Proof.
  unfold tool_output, bind, answers.
  destruct (String.eqb (tc_name tc) "save_contact_details") eqn:E.
  - destruct (saveContactDetails_returns contact_id (tc_arguments tc) s)
      as (out & s' & -> & Hs & Hout).
    eexists; eexists. split; [reflexivity |]. split; [exact Hs |]. cbn.
    apply String.eqb_eq in E.
    split; [reflexivity |]. split; [intros Hn; contradiction |].
    intros _. exact Hout.
  - cbn. eexists; eexists. split; [reflexivity |].
    split; [apply only_contacts_changed_refl |]. cbn.
    apply String.eqb_neq in E.
    split; [reflexivity |]. split; [reflexivity |].
    intros Hn. contradiction.
Qed.

Lemma tool_outputs_returns (contact_id : string) (tool_calls : list ToolCall) :
  forall s,
  exists outs s',
    tool_outputs w contact_id tool_calls s = (Ok outs, s') /\
    only_contacts_changed s s' /\
    Forall2 (answers w) tool_calls outs.
Proof.
  unfold tool_outputs.
  induction tool_calls as [| tc rest IH]; intros s; cbn.
  - exists [], s. split; [reflexivity |].
    split; [apply only_contacts_changed_refl | constructor].
  - unfold bind at 1.
    destruct (tool_output_returns contact_id tc s) as (out & s1 & -> & H1 & Ha).
    unfold bind at 1.
    destruct (IH s1) as (outs & s2 & -> & H2 & Hs).
    exists (out :: outs), s2. split; [reflexivity |].
    split; [eapply only_contacts_changed_trans; eassumption |].
    now constructor.
Qed.

Lemma answers_ids (tool_calls : list ToolCall) (outs : list ToolOutput) :
  Forall2 (answers w) tool_calls outs ->
  map tool_call_id outs = map tc_id tool_calls.
Proof.
  induction 1 as [| tc out tcs outs (Hid & _) _ IH]; cbn; [reflexivity |].
  now rewrite Hid, IH.
Qed.

(** C5. For a run that requires action, the resubmission is made once and
    carries one output per tool call, in the order of the calls and under
    their ids: the generic acknowledgement for a tool that is not
    [save_contact_details]; for [save_contact_details] the string
    [Can't parse details] when the payload does not parse (or parses to
    [null]) and the re-serialised payload otherwise.  No tool call makes
    the computation throw before the resubmission. *)
Theorem tool_calls_get_one_output_each (thread_id contact_id : string)
    (run : Run) (tool_calls : list ToolCall) (s : St) :
  run_status run = requires_action ->
  run_required_action run = Some tool_calls ->
  exists outs s',
    resolve_required_action w thread_id contact_id run s
      = (runs_submitToolOutputsAndPoll w thread_id (run_id run) outs, s') /\
    calls s'
      = (calls s
           ++ [OpenAI_runs_submitToolOutputsAndPoll thread_id (run_id run) outs])%list /\
    List.length outs = List.length tool_calls /\
    map tool_call_id outs = map tc_id tool_calls /\
    Forall2 (answers w) tool_calls outs.
Proof.
  intros Hst Hreq.
  unfold resolve_required_action. rewrite Hst, Hreq. cbn.
  unfold bind at 1.
  destruct (tool_outputs_returns contact_id tool_calls s)
    as (outs & s1 & -> & (_ & Hcalls & _) & Hans).
  exists outs. eexists. split; [reflexivity |]. cbn.
  rewrite Hcalls. split; [reflexivity |].
  pose proof (answers_ids Hans) as Hids.
  split; [| split; assumption].
  apply (f_equal (@List.length _)) in Hids. now rewrite !length_map in Hids.
Qed.

End Tools.

Lemma tool_calls_get_one_output_each_witness :
  exists outs s',
    resolve_required_action world_tool_then_failed "thread_1" "cont_1"
      (run_with requires_action
         (Some [{| tc_id := "call_1"; tc_name := "save_contact_details";
                   tc_arguments := email_payload |};
                {| tc_id := "call_2"; tc_name := "save_contact_details";
                   tc_arguments := "not json" |};
                {| tc_id := "call_3"; tc_name := "lookup_order";
                   tc_arguments := "{}" |}]))
      (start (db_1 false OPEN))
      = (Ok (run_with failed None), s') /\
    map tool_call_id outs = ["call_1"; "call_2"; "call_3"] /\
    map output outs = [email_payload; cant_parse_details; generic_success].
Proof.
  destruct (@tool_calls_get_one_output_each world_tool_then_failed
              "thread_1" "cont_1"
              (run_with requires_action
                 (Some [{| tc_id := "call_1"; tc_name := "save_contact_details";
                           tc_arguments := email_payload |};
                        {| tc_id := "call_2"; tc_name := "save_contact_details";
                           tc_arguments := "not json" |};
                        {| tc_id := "call_3"; tc_name := "lookup_order";
                           tc_arguments := "{}" |}]))
              _ (start (db_1 false OPEN)) eq_refl eq_refl)
    as (outs & s' & Hrun & _ & _ & Hids & Hans).
  exists outs, s'. split; [exact Hrun |]. split; [exact Hids |].
  inversion Hans as [| ? o1 ? r1 (_ & _ & A1) H1]; subst.
  inversion H1 as [| ? o2 ? r2 (_ & _ & A2) H2]; subst.
  inversion H2 as [| ? o3 ? r3 (_ & A3 & _) H3]; subst.
  inversion H3; subst. cbn.
  rewrite (A1 eq_refl), (A2 eq_refl), A3; [reflexivity |].
  cbn. discriminate.
Defined.

(** ** [sendMessage] past the gate *)

Section Orchestration.

Variable w : World.

Lemma bind_ok {A B : Type} (m : M A) (k : A -> M B) (s s1 : St) (a : A) :
  m s = (Ok a, s1) -> bind m k s = k a s1.
Proof. intros H. unfold bind. now rewrite H. Qed.

Lemma bind_thrown {A B : Type} (m : M A) (k : A -> M B) (s s1 : St)
    (e : JsError) :
  m s = (Thrown e, s1) -> bind m k s = (Thrown e, s1).
Proof. intros H. unfold bind. now rewrite H. Qed.

Lemma same_exchange_refl (d : Database) : same_exchange d d.
Proof. repeat split. Qed.

Lemma resolve_required_action_frame (thread_id contact_id : string) (run : Run)
    (s : St) :
  forall r s',
    resolve_required_action w thread_id contact_id run s = (r, s') ->
    same_exchange (db s) (db s') /\
    (status_eqb (run_status run) requires_action = false -> db s' = db s).
Proof.
  intros r s'. unfold resolve_required_action.
  destruct (status_eqb (run_status run) requires_action).
  - destruct (run_required_action run) as [tool_calls |]; cbn.
    + unfold bind at 1.
      destruct (tool_outputs_returns w contact_id tool_calls s)
        as (outs & s1 & -> & (Hx & _) & _).
      unfold call. intros [= _ <-]. cbn. split; [exact Hx | discriminate].
    + unfold bind, throw. cbn. intros [= _ <-].
      split; [apply same_exchange_refl | discriminate].
  - unfold ret. intros [= _ <-]. split; [apply same_exchange_refl | reflexivity].
Qed.

(** The loop over the selected thread messages writes nothing, makes no
    outside call, and turns the messages that start with a text into
    outbound messages, in order. *)
Lemma push_text_messages (conversation_id : string) (xs : list ThreadMessage) :
  forall s r s',
    mapM (push_text_message w conversation_id) xs s = (r, s') ->
    db s' = db s /\ calls s' = calls s /\ clock_reads s' = clock_reads s /\
    forall pushed, r = Ok pushed ->
      Forall2 (made_from conversation_id) (filter first_is_text xs)
              (concat pushed).
Proof.
  induction xs as [| m rest IH]; intros s r s'; cbn.
  - unfold ret. intros [= <- <-]. do 3 (split; [reflexivity |]).
    intros pushed [= <-]. constructor.
  - unfold bind at 1, push_text_message at 1, bind at 1, defined, first_is_text.
    destruct (tm_content m) as [| [value annotations |] more] eqn:Hc; cbn.
    + unfold throw. intros [= <- <-]. do 3 (split; [reflexivity |]).
      discriminate.
    + unfold bind at 1.
      destruct (mapM (push_text_message w conversation_id) rest _)
        as [[pushed |e] s2] eqn:Hrest;
        apply IH in Hrest; destruct Hrest as (Hd & Hk & Ht & Hall); cbn in *.
      * unfold ret. intros [= <- <-]. do 3 (split; [assumption |]).
        intros ? [= <-]. cbn. constructor.
        -- unfold made_from. cbn. do 3 (split; [reflexivity |]).
           now exists annotations, more.
        -- now apply Hall.
      * intros [= <- <-]. do 3 (split; [assumption |]). discriminate.
    + unfold bind at 1.
      destruct (mapM (push_text_message w conversation_id) rest _)
        as [[pushed |e] s2] eqn:Hrest;
        apply IH in Hrest; destruct Hrest as (Hd & Hk & Ht & Hall); cbn in *.
      * unfold ret. intros [= <- <-]. do 3 (split; [assumption |]).
        intros ? [= <-]. cbn. now apply Hall.
      * intros [= <- <-]. do 3 (split; [assumption |]). discriminate.
Qed.

Lemma status_eqb_eq (a b : RunStatus) : status_eqb a b = true <-> a = b.
Proof. destruct a, b; cbn; split; congruence. Qed.

Lemma resolve_required_action_result (thread_id contact_id : string)
    (first_run run : Run) (s s' : St) :
  resolve_required_action w thread_id contact_id first_run s = (Ok run, s') ->
  (run_status first_run <> requires_action /\ run = first_run /\ s' = s) \/
  (run_status first_run = requires_action /\
   exists outs,
     runs_submitToolOutputsAndPoll w thread_id (run_id first_run) outs = Ok run).
Proof.
  unfold resolve_required_action.
  destruct (status_eqb (run_status first_run) requires_action) eqn:E.
  - apply status_eqb_eq in E. intros H. right. split; [exact E |].
    destruct (run_required_action first_run) as [tool_calls |]; cbn in H.
    + unfold bind at 1 in H.
      destruct (tool_outputs_returns w contact_id tool_calls s)
        as (outs & s1 & Heq & _). rewrite Heq in H.
      unfold call in H. injection H as H _. now exists outs.
    + discriminate H.
  - unfold ret. intros [= <- <-]. left. split; [| split; reflexivity].
    intros Hst. apply status_eqb_eq in Hst. congruence.
Qed.

(** The branches of [sendMessage] that end in the generic failure: the
    state reached is the witness, and what is left to show is that the
    exchange tables are as before. *)
Ltac answers_failure :=
  intros [= <- <-]; eexists;
  refine (conj _ (conj _ (or_introl (conj eq_refl eq_refl)))).

(** What [sendMessage] does once the conversation is found and the gate is
    not taken: up to the save nothing but contacts can change; then either
    the generic failure is answered and nothing more is written, or the run
    ended completed and the outbound messages made from the selected thread
    messages are saved with the inbound one. *)
Lemma sendMessage_past_gate (messageRequest : MessageRequest) (s : St)
    (assistant_id : option string) (contact_id : string)
    (r : Result HttpResponseInit) (s' : St) :
  selectConversationForMessage (db s) (req_conversation_id messageRequest)
    = Some (false, assistant_id, contact_id) ->
  req_creator messageRequest <> USER ->
  sendMessage w messageRequest s = (r, s') ->
  exists s1,
    same_exchange (db s) (db s1) /\
    (db s1 = db s \/
     exists first_run,
       runs_createAndPoll w
         (js_replace (req_conversation_id messageRequest) "conv_" "thread_")
         assistant_id = Ok first_run /\
       run_status first_run = requires_action) /\
    ((r = Ok failed_to_send /\ s' = s1) \/
     exists run data outbound,
       run_ends_in w
         (js_replace (req_conversation_id messageRequest) "conv_" "thread_")
         assistant_id run /\
       run_status run = completed /\
       messages_list w (run_thread_id run) None = Ok data /\
       Forall2 (made_from (req_conversation_id messageRequest))
               (filter first_is_text (since_last_user data)) outbound /\
       r = Ok {| status := 200; jsonBody := Some (inl outbound) |} /\
       s' = saved (inbound_of w messageRequest s) outbound s1).
Proof.
  intros Hsel Hcreator.
  assert (Hgate : creator_eqb (req_creator messageRequest) USER = false)
    by (destruct (req_creator messageRequest);
        [reflexivity | contradiction | reflexivity]).
  unfold sendMessage, try_catch.
  unfold bind at 1, get_db. unfold bind at 1, defined. rewrite Hsel. cbn.
  rewrite Hgate. cbn.
  destruct (messages_create w _ _) as [[] | e1].
  2: { answers_failure; [apply same_exchange_refl | left; reflexivity]. }
  destruct (runs_createAndPoll w _ _) as [first_run | e2] eqn:Hfirst.
  2: { answers_failure; [apply same_exchange_refl | left; reflexivity]. }
  unfold bind at 1.
  destruct (resolve_required_action w _ contact_id first_run _)
    as [[run | e3] s3] eqn:Hres.
  all: pose proof (resolve_required_action_frame _ _ _ _ Hres) as (Hx & Hsame);
    cbn in Hx, Hsame.
  all: assert (Htool : db s3 = db s \/
     exists first_run0,
       Ok first_run = Ok first_run0 /\ run_status first_run0 = requires_action)
    by (destruct (status_eqb (run_status first_run) requires_action) eqn:E;
        [right; exists first_run; split;
           [reflexivity | now apply status_eqb_eq]
        | left; now apply Hsame]).
  2: { answers_failure; [exact Hx | exact Htool]. }
  destruct (status_eqb (run_status run) completed) eqn:Hst.
  2: { unfold ret. answers_failure; [exact Hx | exact Htool]. }
  unfold bind at 1, call at 1.
  destruct (messages_list w (run_thread_id run) None) as [data | e4] eqn:Hlist.
  2: { answers_failure; [exact Hx | exact Htool]. }
  unfold bind at 1.
  destruct (mapM (push_text_message w _) (since_last_user data) _)
    as [[pushed | e5] s5] eqn:Hpush;
    apply push_text_messages in Hpush; cbn in Hpush;
    destruct Hpush as (Hd & Hk & Ht & Hall).
  2: { intros [= <- <-]. exists s5.
       split; [unfold same_exchange; rewrite Hd; exact Hx |].
       split; [rewrite Hd; exact Htool | left; split; reflexivity]. }
  cbn. intros [= <- <-]. exists s5.
  split; [unfold same_exchange; rewrite Hd; exact Hx |].
  split; [rewrite Hd; exact Htool |].
  right. exists run, data, (concat pushed).
  split.
  { exists first_run. split; [exact Hfirst |].
    apply resolve_required_action_result in Hres.
    destruct Hres as [(Hn & -> & _) | (Hr & outs & Hout)].
    - left. split; [exact Hn | reflexivity].
    - right. split; [exact Hr | now exists outs]. }
  split; [now apply status_eqb_eq |].
  split; [exact Hlist |].
  split; [now apply Hall |].
  split; reflexivity.
Qed.

(** A 200 with outbound messages is only answered past the gate. *)
Lemma sendMessage_success (messageRequest : MessageRequest) (s s' : St)
    (outbound : list MessageResponse) :
  sendMessage w messageRequest s
    = (Ok {| status := 200; jsonBody := Some (inl outbound) |}, s') ->
  exists assistant_id contact_id,
    selectConversationForMessage (db s) (req_conversation_id messageRequest)
      = Some (false, assistant_id, contact_id) /\
    req_creator messageRequest <> USER.
Proof.
  intros Hrun.
  destruct (selectConversationForMessage (db s)
              (req_conversation_id messageRequest))
    as [[[interrupted assistant_id] contact_id] |] eqn:Hsel.
  - destruct interrupted.
    + rewrite (sendMessage_gate_run w messageRequest s Hsel) in Hrun
        by now left.
      discriminate Hrun.
    + exists assistant_id, contact_id. split; [reflexivity |].
      intros Hu.
      rewrite (sendMessage_gate_run w messageRequest s Hsel) in Hrun
        by now right.
      discriminate Hrun.
  - rewrite (sendMessage_unknown_run w messageRequest s Hsel) in Hrun.
    discriminate Hrun.
Qed.

Lemma state_as_record (s : St) :
  {| db := db s; calls := calls s; ids_drawn := ids_drawn s;
     clock_reads := clock_reads s |} = s.
Proof. destruct s; reflexivity. Qed.

(** What one tool call leaves: its output, and the database written. *)
Lemma tool_output_run (contact_id : string) (tc : ToolCall) (s : St) :
  exists out,
    answers w tc out /\
    tool_output w contact_id tc s
      = (Ok out,
         {| db := after_tool_call w contact_id (db s) tc; calls := calls s;
            ids_drawn := ids_drawn s; clock_reads := clock_reads s |}).
Proof.
  unfold tool_output, after_tool_call, answers, bind.
  destruct (String.eqb (tc_name tc) "save_contact_details") eqn:E.
  - apply String.eqb_eq in E.
    unfold saveContactDetails, try_catch, bind, lift.
    destruct (JSON_parse w (tc_arguments tc)) as [details |]; cbn.
    + destruct details; cbn; rewrite ?state_as_record;
        (eexists; split; [| reflexivity]); cbn;
        (split; [reflexivity |]); (split; [intros Hn; contradiction |]);
        intros _; reflexivity.
    + rewrite state_as_record. eexists. split; [| reflexivity]. cbn.
      split; [reflexivity |]. split; [intros Hn; contradiction |].
      intros _; reflexivity.
  - apply String.eqb_neq in E. cbn. rewrite state_as_record.
    eexists. split; [| reflexivity]. cbn.
    split; [reflexivity |]. split; [reflexivity |].
    intros Hn. contradiction.
Qed.

Lemma tool_outputs_run (contact_id : string) (tool_calls : list ToolCall) :
  forall s,
  exists outs,
    Forall2 (answers w) tool_calls outs /\
    tool_outputs w contact_id tool_calls s
      = (Ok outs,
         {| db := after_tool_calls w contact_id tool_calls (db s);
            calls := calls s; ids_drawn := ids_drawn s;
            clock_reads := clock_reads s |}).
Proof.
  unfold tool_outputs, after_tool_calls.
  induction tool_calls as [| tc rest IH]; intros s; cbn.
  - exists []. split; [constructor |]. unfold ret. now rewrite state_as_record.
  - unfold bind at 1.
    destruct (tool_output_run contact_id tc s) as (out & Ha & ->).
    unfold bind at 1.
    destruct (IH {| db := after_tool_call w contact_id (db s) tc;
                    calls := calls s; ids_drawn := ids_drawn s;
                    clock_reads := clock_reads s |}) as (outs & Hs & ->).
    exists (out :: outs). split; [now constructor | reflexivity].
Qed.

(** The outputs answered to given tool calls are determined by the calls. *)
Lemma answers_unique (tool_calls : list ToolCall) (outs outs' : list ToolOutput) :
  Forall2 (answers w) tool_calls outs ->
  Forall2 (answers w) tool_calls outs' ->
  outs = outs'.
Proof.
  intros H. revert outs'.
  induction H as [| tc out tcs outs Ha _ IH]; intros outs' H';
    inversion H' as [| ? out' ? outs2 Ha' Hrest]; subst; [reflexivity |].
  f_equal; [| now apply IH].
  destruct out as [i o], out' as [i' o'].
  destruct Ha as (Hi & Hn & Hs), Ha' as (Hi' & Hn' & Hs'). cbn in *.
  subst i i'. f_equal.
  destruct (String.eqb (tc_name tc) "save_contact_details") eqn:E.
  - apply String.eqb_eq in E. specialize (Hs E). specialize (Hs' E).
    destruct (JSON_parse w (tc_arguments tc)) as [[] |]; congruence.
  - apply String.eqb_neq in E. rewrite (Hn E), (Hn' E). reflexivity.
Qed.

Lemma after_tool_calls_same_exchange (contact_id : string)
    (tool_calls : list ToolCall) :
  forall d, same_exchange d (after_tool_calls w contact_id tool_calls d).
Proof.
  unfold after_tool_calls.
  induction tool_calls as [| tc rest IH]; intros d; cbn;
    [apply same_exchange_refl |].
  destruct (IH (after_tool_call w contact_id d tc)) as (Hm & Hc & Ho).
  assert (H1 : same_exchange d (after_tool_call w contact_id d tc)).
  { unfold after_tool_call.
    destruct (String.eqb (tc_name tc) "save_contact_details");
      [| apply same_exchange_refl].
    destruct (JSON_parse w (tc_arguments tc)) as [[] |]; cbn;
      repeat split. }
  destruct H1 as (Hm1 & Hc1 & Ho1).
  repeat split; congruence.
Qed.

(** C3, as the code has it.  When the run the assistant phase ends in is
    not completed (the first run when it does not require action, else the
    run that answers the resubmission of the outputs that the code gives to
    the tool calls, which it submits once), [sendMessage] answers the generic 500 and leaves the
    messages, the conversations and the organisations as they were: neither
    the inbound message nor an outbound one is saved.  When no tool round
    took place the whole database is as it was.  After a tool round the
    database is the one that the tool calls left, and nothing is undone: a
    contact changed by a [save_contact_details] call of that run stays
    changed. *)
Theorem sendMessage_run_not_completed (messageRequest : MessageRequest)
    (s : St) (assistant_id : option string) (contact_id : string)
    (first_run : Run) :
  selectConversationForMessage (db s) (req_conversation_id messageRequest)
    = Some (false, assistant_id, contact_id) ->
  req_creator messageRequest <> USER ->
  messages_create w
    (js_replace (req_conversation_id messageRequest) "conv_" "thread_")
    (req_message messageRequest) = Ok tt ->
  runs_createAndPoll w
    (js_replace (req_conversation_id messageRequest) "conv_" "thread_")
    assistant_id = Ok first_run ->
  (run_status first_run <> requires_action ->
   run_status first_run <> completed) ->
  (forall tool_calls outs run,
     run_status first_run = requires_action ->
     run_required_action first_run = Some tool_calls ->
     Forall2 (answers w) tool_calls outs ->
     runs_submitToolOutputsAndPoll w
       (js_replace (req_conversation_id messageRequest) "conv_" "thread_")
       (run_id first_run) outs = Ok run ->
     run_status run <> completed) ->
  exists s',
    sendMessage w messageRequest s = (Ok failed_to_send, s') /\
    status failed_to_send = 500 /\
    same_exchange (db s) (db s') /\
    (run_status first_run <> requires_action -> db s' = db s) /\
    (run_required_action first_run = None -> db s' = db s) /\
    (forall tool_calls,
       run_status first_run = requires_action ->
       run_required_action first_run = Some tool_calls ->
       db s' = after_tool_calls w contact_id tool_calls (db s) /\
       exists outs,
         Forall2 (answers w) tool_calls outs /\
         calls s'
           = (calls s
                ++ [OpenAI_messages_create
                      (js_replace (req_conversation_id messageRequest)
                         "conv_" "thread_")
                      (req_message messageRequest);
                    OpenAI_runs_createAndPoll
                      (js_replace (req_conversation_id messageRequest)
                         "conv_" "thread_")
                      assistant_id;
                    OpenAI_runs_submitToolOutputsAndPoll
                      (js_replace (req_conversation_id messageRequest)
                         "conv_" "thread_")
                      (run_id first_run) outs])%list).
Proof.
  intros Hsel Hcreator Hcreate Hfirst Hplain Htools.
  assert (Hgate : creator_eqb (req_creator messageRequest) USER = false)
    by (destruct (req_creator messageRequest);
        [reflexivity | contradiction | reflexivity]).
  unfold sendMessage, try_catch.
  unfold bind at 1, get_db. unfold bind at 1, defined. rewrite Hsel. cbn.
  rewrite Hgate. cbn. rewrite Hcreate, Hfirst.
  unfold bind at 1, resolve_required_action.
  destruct (status_eqb (run_status first_run) requires_action) eqn:E.
  - apply status_eqb_eq in E.
    destruct (run_required_action first_run) as [tool_calls |] eqn:Hreq; cbn.
    + unfold bind at 1.
      match goal with
      | |- context [tool_outputs w contact_id tool_calls ?s0] =>
          destruct (tool_outputs_run contact_id tool_calls s0)
            as (outs & Hans & ->)
      end.
      unfold call at 1. cbn.
      pose proof (after_tool_calls_same_exchange contact_id tool_calls (db s))
        as Hx.
      destruct (runs_submitToolOutputsAndPoll w _ (run_id first_run) outs)
        as [run | e] eqn:Hsub.
      * pose proof (Htools tool_calls outs run E eq_refl Hans Hsub) as Hnot.
        assert (Hst : status_eqb (run_status run) completed = false).
        { destruct (status_eqb (run_status run) completed) eqn:Hst;
            [| reflexivity].
          apply status_eqb_eq in Hst. contradiction. }
        rewrite Hst. cbn. eexists. split; [reflexivity |].
        split; [reflexivity |]. cbn. split; [exact Hx |].
        split; [intros Hn; contradiction |]. split; [discriminate |].
        intros ? _ [= <-]. split; [reflexivity |].
        exists outs. split; [exact Hans |]. cbn.
        rewrite <- !app_assoc. reflexivity.
      * eexists. split; [reflexivity |].
        split; [reflexivity |]. cbn. split; [exact Hx |].
        split; [intros Hn; contradiction |]. split; [discriminate |].
        intros ? _ [= <-]. split; [reflexivity |].
        exists outs. split; [exact Hans |]. cbn.
        rewrite <- !app_assoc. reflexivity.
    + eexists. split; [reflexivity |]. split; [reflexivity |]. cbn.
      split; [apply same_exchange_refl |]. split; [reflexivity |].
      split; [reflexivity |]. discriminate.
  - assert (Hn : run_status first_run <> requires_action).
    { intros Hst. apply status_eqb_eq in Hst. congruence. }
    assert (Hst : status_eqb (run_status first_run) completed = false).
    { destruct (status_eqb (run_status first_run) completed) eqn:Hst;
        [| reflexivity].
      apply status_eqb_eq in Hst. now apply Hplain in Hn. }
    cbn. rewrite Hst. cbn. eexists. split; [reflexivity |].
    split; [reflexivity |]. cbn.
    split; [apply same_exchange_refl |]. split; [reflexivity |].
    split; [reflexivity |]. intros ? Hr. contradiction.
Qed.

Lemma Math_max_from (xs : list Z) (a : Z) :
  fold_left (fun acc x => match acc with
                          | NegInfinity => Num x
                          | Num b => Num (Z.max b x)
                          end) xs (Num a)
    = Num (fold_left Z.max xs a).
Proof.
  revert a. induction xs as [| x xs IH]; intros a; cbn; [reflexivity |].
  apply IH.
Qed.

Lemma fold_max_bounds (xs : list Z) (a : Z) :
  In (fold_left Z.max xs a) (a :: xs) /\
  Forall (fun t => t <= fold_left Z.max xs a) (a :: xs).
Proof.
  revert a. induction xs as [| x xs IH]; intros a; cbn.
  - split; [now left |]. constructor; [lia | constructor].
  - destruct (IH (Z.max a x)) as (Hin & Hall).
    inversion Hall as [| ? ? Hm Hrest]; subst. split.
    + destruct Hin as [<- | Hin]; [| right; now right].
      destruct (Z.max_spec a x) as [(_ & ->) | (_ & ->)];
        [right; now left | now left].
    + constructor; [lia |]. constructor; [lia | exact Hrest].
Qed.

(** [Math.max] of a non-empty list is its greatest element. *)
Lemma Math_max_nonempty (xs : list Z) :
  xs <> [] ->
  exists latest,
    Math_max xs = Num latest /\ In latest xs /\
    Forall (fun t => t <= latest) xs.
Proof.
  destruct xs as [| x xs]; [congruence |]. intros _.
  exists (fold_left Z.max xs x). unfold Math_max. cbn.
  split; [apply Math_max_from | apply fold_max_bounds].
Qed.

(** C4, as the code has it.  After a 200 with at least one outbound
    message, the inbound message and the outbound messages are appended to
    the messages, and the conversation of the request has status OPEN and,
    as [last_message_at], the greatest timestamp among the outbound
    messages; the timestamp of the inbound message does not enter. *)
Theorem sendMessage_success_last_message_at (messageRequest : MessageRequest)
    (s s' : St) (outbound : list MessageResponse) :
  sendMessage w messageRequest s
    = (Ok {| status := 200; jsonBody := Some (inl outbound) |}, s') ->
  outbound <> [] ->
  exists latest,
    In latest (map mr_created_at outbound) /\
    Forall (fun t => t <= latest) (map mr_created_at outbound) /\
    messages (db s')
      = (messages (db s)
           ++ inbound_of w messageRequest s :: map as_NewMessage outbound)%list /\
    (exists c, In c (conversations (db s')) /\
               conv_id c = req_conversation_id messageRequest) /\
    (forall c, In c (conversations (db s')) ->
               conv_id c = req_conversation_id messageRequest ->
               conv_last_message_at c = Num latest /\ conv_status c = OPEN).
Proof.
  intros Hrun Hne.
  destruct (sendMessage_success _ _ Hrun) as (aid & cid & Hsel & Hcreator).
  destruct (sendMessage_past_gate messageRequest s Hsel Hcreator Hrun)
    as (s1 & (Hm & Hc & _) & _ & [(Hr & _) | Hok]); [discriminate Hr |].
  destruct Hok as (_ & _ & out' & _ & _ & _ & _ & Hr & ->).
  injection Hr as <-.
  destruct (@Math_max_nonempty (map mr_created_at outbound))
    as (latest & Hmax & Hin & Hall).
  { destruct outbound; [congruence | discriminate]. }
  exists latest. split; [exact Hin |]. split; [exact Hall |].
  assert (Hstamp : map msg_created_at (map as_NewMessage outbound)
                   = map mr_created_at outbound)
    by (rewrite map_map; reflexivity).
  cbn. rewrite Hstamp, Hmax, Hm, Hc.
  split; [reflexivity |]. split.
  - destruct (selected_conversation_exists _ _ Hsel) as (c & Hc1 & Hc2).
    now apply updated_conversations_keep with (c := c).
  - intros c Hc1 Hc2. split; revert c Hc1 Hc2.
    + apply updated_conversations_at with
        (P := fun c => conv_last_message_at c = Num latest); reflexivity.
    + apply updated_conversations_at with
        (P := fun c => conv_status c = OPEN); reflexivity.
Qed.

(** Whenever [sendMessage] answers 200 with an empty list, the conversation
    of the request gets [-Infinity] as [last_message_at]. *)
Lemma sendMessage_success_without_outbound (messageRequest : MessageRequest)
    (s s' : St) :
  sendMessage w messageRequest s
    = (Ok {| status := 200; jsonBody := Some (inl []) |}, s') ->
  messages (db s') = (messages (db s) ++ [inbound_of w messageRequest s])%list /\
  (exists c, In c (conversations (db s')) /\
             conv_id c = req_conversation_id messageRequest) /\
  (forall c, In c (conversations (db s')) ->
             conv_id c = req_conversation_id messageRequest ->
             conv_last_message_at c = NegInfinity /\ conv_status c = OPEN).
Proof.
  intros Hrun.
  destruct (sendMessage_success _ _ Hrun) as (aid & cid & Hsel & Hcreator).
  destruct (sendMessage_past_gate messageRequest s Hsel Hcreator Hrun)
    as (s1 & (Hm & Hc & _) & _ & [(Hr & _) | Hok]); [discriminate Hr |].
  destruct Hok as (_ & _ & out' & _ & _ & _ & _ & Hr & ->).
  injection Hr as <-. cbn. rewrite Hm, Hc.
  split; [reflexivity |]. split.
  - destruct (selected_conversation_exists _ _ Hsel) as (c & Hc1 & Hc2).
    now apply updated_conversations_keep with (c := c).
  - intros c Hc1 Hc2. split; revert c Hc1 Hc2.
    + apply updated_conversations_at with
        (P := fun c => conv_last_message_at c = NegInfinity); reflexivity.
    + apply updated_conversations_at with
        (P := fun c => conv_status c = OPEN); reflexivity.
Qed.

(** The loop of [handleMessageForOpenAI]: as in [sendMessage], with the
    annotations stripped from the text. *)
Lemma push_processed_messages (conversation_id : string)
    (xs : list ThreadMessage) :
  forall s r s',
    mapM (push_processed_message w conversation_id) xs s = (r, s') ->
    db s' = db s /\ calls s' = calls s /\
    forall pushed, r = Ok pushed ->
      Forall2 (processed_from conversation_id) (filter first_is_text xs)
              (concat pushed).
Proof.
  induction xs as [| m rest IH]; intros s r s'; cbn.
  - unfold ret. intros [= <- <-]. do 2 (split; [reflexivity |]).
    intros pushed [= <-]. constructor.
  - unfold bind at 1, push_processed_message at 1, bind at 1, defined,
      first_is_text.
    destruct (tm_content m) as [| [value annotations |] more] eqn:Hc; cbn.
    + unfold throw. intros [= <- <-]. do 2 (split; [reflexivity |]).
      discriminate.
    + unfold processOpenAIMessage, bind at 1, bind at 1, defined.
      rewrite Hc. cbn. unfold bind at 1.
      destruct (mapM (push_processed_message w conversation_id) rest _)
        as [[pushed |e] s2] eqn:Hrest;
        apply IH in Hrest; destruct Hrest as (Hd & Hk & Hall); cbn in *.
      * unfold ret. intros [= <- <-]. do 2 (split; [assumption |]).
        intros ? [= <-]. cbn. constructor.
        -- unfold processed_from. cbn. do 3 (split; [reflexivity |]).
           now exists value, annotations, more.
        -- now apply Hall.
      * intros [= <- <-]. do 2 (split; [assumption |]). discriminate.
    + unfold bind at 1.
      destruct (mapM (push_processed_message w conversation_id) rest _)
        as [[pushed |e] s2] eqn:Hrest;
        apply IH in Hrest; destruct Hrest as (Hd & Hk & Hall); cbn in *.
      * unfold ret. intros [= <- <-]. do 2 (split; [assumption |]).
        intros ? [= <-]. cbn. now apply Hall.
      * intros [= <- <-]. do 2 (split; [assumption |]). discriminate.
Qed.

(** What [handleMessageForOpenAI] returns: the messages made from the
    selection among the five most recent thread messages, once the run ended
    completed; nothing but contacts is written. *)
Lemma handleMessageForOpenAI_returns (messageRequest : MessageRequest)
    (assistant_id contact_id : string) (s s' : St)
    (out : list MessageResponse) :
  handleMessageForOpenAI w messageRequest assistant_id contact_id s
    = (Ok out, s') ->
  same_exchange (db s) (db s') /\
  exists run data,
    run_status run = completed /\
    messages_list w (run_thread_id run) (Some 5) = Ok data /\
    Forall2 (processed_from (req_conversation_id messageRequest))
            (filter first_is_text (since_last_user data)) out.
Proof.
  unfold handleMessageForOpenAI.
  unfold bind at 1, call at 1.
  destruct (messages_create w _ _) as [[] | e1]; [| discriminate].
  unfold bind at 1, call at 1.
  destruct (runs_createAndPoll w _ _) as [first_run | e2]; [| discriminate].
  unfold bind at 1.
  destruct (resolve_required_action w _ contact_id first_run _)
    as [[run | e3] s3] eqn:Hres; [| discriminate].
  apply resolve_required_action_frame in Hres. destruct Hres as (Hx & _).
  cbn in Hx.
  destruct (status_eqb (run_status run) completed) eqn:Hst; [| discriminate].
  unfold bind at 1, call at 1.
  destruct (messages_list w (run_thread_id run) (Some 5)) as [data | e4] eqn:Hl;
    [| discriminate].
  unfold bind at 1.
  destruct (mapM (push_processed_message w _) (since_last_user data) _)
    as [[pushed | e5] s5] eqn:Hpush; [| discriminate].
  apply push_processed_messages in Hpush. cbn in Hpush.
  destruct Hpush as (Hd & _ & Hall).
  unfold ret. intros [= <- <-]. split.
  - unfold same_exchange. rewrite Hd. exact Hx.
  - exists run, data. split; [now apply status_eqb_eq |].
    split; [exact Hl | now apply Hall].
Qed.

End Orchestration.

Lemma sendMessage_run_not_completed_witness :
  exists s',
    sendMessage world_picky (hi CONTACT) (start (db_1 false OPEN))
      = (Ok failed_to_send, s') /\
    messages (db s') = [] /\
    conversations (db s') = [conv_1 false OPEN] /\
    map cont_email (contacts (db s')) = [JString "a@b.com"].
Proof.
  destruct (@sendMessage_run_not_completed world_picky
              (hi CONTACT) (start (db_1 false OPEN)) (Some "asst_1") "cont_1"
              (run_with requires_action (Some picky_tool_calls)))
    as (s' & Hrun & _ & (Hm & Hc & _) & _ & _ & Hdb).
  - reflexivity.
  - discriminate.
  - reflexivity.
  - reflexivity.
  - intros Hn. cbn in Hn. congruence.
  - intros tool_calls outs run _ [= <-] Hans Hsub.
    assert (Houts : outs = [{| tool_call_id := "call_1"; output := email_payload |};
                            {| tool_call_id := "call_2";
                               output := cant_parse_details |}]).
    { apply (answers_unique Hans).
      repeat constructor; cbn; try reflexivity; intros Hn; now elim Hn. }
    subst outs. injection Hsub as <-. discriminate.
  - exists s'. split; [exact Hrun |]. split; [exact Hm |]. split; [exact Hc |].
    destruct (Hdb picky_tool_calls eq_refl eq_refl) as (-> & _). reflexivity.
Defined.

(** C3 as stated fails on its last part: the run asked to save an e-mail
    address and then failed; the answer is the generic 500 and no message is
    saved, yet the contact keeps the address, so the database is not as it
    was. *)
Lemma failed_run_keeps_contact_change :
  fst (sendMessage world_tool_then_failed (hi CONTACT)
         (start (db_1 false OPEN)))
    = Ok failed_to_send /\
  map cont_email
      (contacts (db (snd (sendMessage world_tool_then_failed (hi CONTACT)
                            (start (db_1 false OPEN))))))
    = [JString "a@b.com"] /\
  map cont_email (contacts (db (start (db_1 false OPEN)))) = [JNull] /\
  db (snd (sendMessage world_tool_then_failed (hi CONTACT)
             (start (db_1 false OPEN))))
    <> db (start (db_1 false OPEN)).
Proof.
  repeat split; try reflexivity.
  vm_compute. discriminate.
Qed.

Lemma sendMessage_success_last_message_at_witness :
  exists latest,
    In latest [1700000000000] /\
    map conv_last_message_at
        (conversations
           (db (snd (sendMessage world_hello (hi CONTACT)
                       (start (db_1 false OPEN))))))
      = [Num latest].
Proof.
  destruct (@sendMessage_success_last_message_at world_hello (hi CONTACT)
              (start (db_1 false OPEN))
              (snd (sendMessage world_hello (hi CONTACT)
                      (start (db_1 false OPEN))))
              [{| mr_id := "msg_b"; mr_conversation_id := "conv_1";
                  mr_message := "Hello!"; mr_creator := AGENT;
                  mr_created_at := 1700000000000; mr_citations := None |}])
    as (latest & Hin & _ & _ & _ & Hconv).
  - reflexivity.
  - discriminate.
  - exists latest. split; [exact Hin |].
    destruct (Hconv (set_last_status (Num 1700000000000) (conv_1 false OPEN)))
      as (Hlast & _).
    + left. reflexivity.
    + reflexivity.
    + cbn in Hlast. injection Hlast as <-. reflexivity.
Defined.

(** C4 as stated fails: the assistant's message carries the provider's
    timestamp, here within the second of the inbound message and so below
    the inbound timestamp; [last_message_at] becomes that timestamp and not
    the greatest timestamp of the saved batch. *)
Lemma last_message_at_is_not_batch_maximum :
  messages (db (start (db_1 false OPEN))) = [] /\
  map msg_created_at
      (messages (db (snd (sendMessage world_hello (hi CONTACT)
                            (start (db_1 false OPEN))))))
    = [1700000000900; 1700000000000] /\
  map conv_last_message_at
      (conversations (db (snd (sendMessage world_hello (hi CONTACT)
                                 (start (db_1 false OPEN))))))
    = [Num 1700000000000] /\
  Math_max [1700000000900; 1700000000000] = Num 1700000000900 /\
  Num 1700000000000 <> Num 1700000000900.
Proof.
  repeat split; try reflexivity. discriminate.
Qed.

(** Without outbound message: the run completed and the thread holds no new
    assistant message.  The answer is 200 with an empty list, the batch saved
    is the inbound message alone, and the value written as [last_message_at]
    is the [-Infinity] of [Math.max()]. *)
Remark last_message_at_without_outbound :
  fst (sendMessage world_no_reply (hi CONTACT) (start (db_1 false OPEN)))
    = Ok {| status := 200; jsonBody := Some (inl []) |} /\
  messages (db (snd (sendMessage world_no_reply (hi CONTACT)
                       (start (db_1 false OPEN)))))
    = [inbound_of world_no_reply (hi CONTACT) (start (db_1 false OPEN))] /\
  map conv_last_message_at
      (conversations (db (snd (sendMessage world_no_reply (hi CONTACT)
                                 (start (db_1 false OPEN))))))
    = [NegInfinity].
Proof. repeat split. Qed.

(** ** The Slack bot event *)

Section Slack.

Variable w : World.

Lemma checkGetContactID_returns (slack_id : string)
    (slack_name slack_email slack_phone : option string)
    (organisation_id : string) (s : St) :
  exists contact_id s1,
    checkGetContactID w slack_id slack_name slack_email slack_phone
      organisation_id s = (Ok contact_id, s1) /\
    calls s1 = calls s /\
    organisations (db s1) = organisations (db s) /\
    conversations (db s1) = conversations (db s) /\
    messages (db s1) = messages (db s).
Proof.
  unfold checkGetContactID, bind, draw_id, get_db. cbn.
  destruct (find (slack_id_is slack_id) (contacts (db s))) as [contact |].
  - destruct (truthy (cont_id contact)); cbn;
      eexists; eexists; (split; [reflexivity |]); cbn; repeat split.
  - cbn. eexists; eexists. split; [reflexivity |]. cbn. repeat split.
Qed.

(** The lookup of the conversation of a thread reads the channel id and the
    id of the rows, never their [interrupted] flag; for a sender who is no
    admin it always yields a conversation. *)
Lemma checkGetConversation_not_admin (thread_ts organisation_id : string)
    (contact_id : string) (s : St) :
  exists conversation_id s1,
    checkGetConversation w thread_ts organisation_id false contact_id s
      = (Ok (Some conversation_id), s1) /\
    calls s1 = calls s /\
    organisations (db s1) = organisations (db s).
Proof.
  unfold checkGetConversation, bind, draw_id, get_db. cbn.
  destruct (find (channel_id_is thread_ts) (conversations (db s)))
    as [conversation |].
  - destruct (truthy (conv_id conversation)); cbn;
      eexists; eexists; (split; [reflexivity |]); cbn; repeat split.
  - cbn. eexists; eexists. split; [reflexivity |]. cbn. repeat split.
Qed.

Lemma checkGetConversation_admin (thread_ts organisation_id : string)
    (contact_id : string) (s : St) :
  exists conversation s1,
    checkGetConversation w thread_ts organisation_id true contact_id s
      = (Ok conversation, s1) /\
    calls s1 = calls s.
Proof.
  unfold checkGetConversation, bind, draw_id, get_db. cbn.
  destruct (find (channel_id_is thread_ts) (conversations (db s)))
    as [conversation |].
  - destruct (truthy (conv_id conversation)); cbn;
      eexists; eexists; (split; [reflexivity |]); cbn; repeat split.
  - cbn. eexists; eexists. split; [reflexivity |]. cbn. repeat split.
Qed.

Lemma stamped_from (conversation_id : string) (t : Z)
    (rs : list MessageResponse) :
  forall k i r,
    nth_error
      (map (fun '(index, mr) =>
              {| mr_id := mr_id mr; mr_conversation_id := conversation_id;
                 mr_message := mr_message mr; mr_creator := mr_creator mr;
                 mr_created_at := t + index + 1;
                 mr_citations := mr_citations mr |})
           (entries_from k rs)) i = Some r ->
    mr_created_at r = t + 1 + (k + Z.of_nat i) /\
    exists mr, nth_error rs i = Some mr /\ mr_message r = mr_message mr.
Proof.
  induction rs as [| m rest IH]; intros k i r; cbn.
  - destruct i; discriminate.
  - destruct i as [| i]; cbn.
    + intros [= <-]. cbn. split; [lia |]. now exists m.
    + intros H. destruct (IH _ _ _ H) as (Ht & Hm). split; [lia | exact Hm].
Qed.

Lemma stamp_responses_length (conversation_id : string) (t : Z)
    (rs : list MessageResponse) :
  List.length (stamp_responses conversation_id t rs) = List.length rs.
Proof.
  unfold stamp_responses, entries. rewrite length_map.
  generalize 0. induction rs as [| m rest IH]; intros k; cbn;
    [reflexivity | now rewrite IH].
Qed.

Lemma stamp_responses_messages (conversation_id : string) (t : Z)
    (rs : list MessageResponse) :
  map mr_message (stamp_responses conversation_id t rs) = map mr_message rs.
Proof.
  unfold stamp_responses, entries.
  generalize 0. induction rs as [| m rest IH]; intros k; cbn;
    [reflexivity | now rewrite IH].
Qed.

Lemma stamp_responses_nth (conversation_id : string) (t : Z)
    (rs : list MessageResponse) (i : nat) (r : MessageResponse) :
  nth_error (stamp_responses conversation_id t rs) i = Some r ->
  mr_created_at r = t + 1 + Z.of_nat i.
Proof.
  unfold stamp_responses, entries. intros H.
  destruct (stamped_from _ _ _ _ _ H) as (Ht & _). lia.
Qed.

(** Timestamps that follow [t + 1 + i] increase strictly, from above [t]. *)
Lemma stamps_increase (t : Z) (xs : list Z) :
  (forall i x, nth_error xs i = Some x -> x = t + 1 + Z.of_nat i) ->
  StronglySorted Z.lt (t :: xs).
Proof.
  revert t. induction xs as [| x xs IH]; intros t H.
  - constructor; constructor.
  - assert (Hx : x = t + 1) by (rewrite (H 0%nat x eq_refl); lia).
    assert (Hrest : StronglySorted Z.lt (x :: xs)).
    { apply IH. intros i y Hy. rewrite (H (S i) y Hy). lia. }
    constructor; [exact Hrest |].
    constructor; [lia |].
    apply StronglySorted_inv in Hrest. destruct Hrest as (_ & Hall).
    eapply Forall_impl; [| exact Hall]. cbn. intros; lia.
Qed.

(** For a sender who is no admin the event comes down to: ask the
    assistant, post its reply, save the inbound message and the stamped
    responses; any throw ends in the apology. *)
Lemma bot_not_admin (data : SlackBotMessageEvent) (s : St)
    (org : Organisation) (user : SlackUser) :
  find (fun o => String.eqb (org_id o) (ev_organisation_id data))
       (organisations (db s)) = Some org ->
  users_info w (ev_user_id data) = Ok user ->
  su_is_admin user = false ->
  exists conversation_id s2,
    calls s2 = (calls s ++ [Slack_users_info (ev_user_id data)])%list /\
    processSlackBotMessage w data s
      = try_catch
          (rs <- call (Assistant_handleSingleMessage (org_assistant_id org)
                         (ev_message data))
                      (handleSingleMessageForOpenAI w (org_assistant_id org)
                         (ev_message data)) ;;
           postBotResponseToSlack w (ev_channel_id data) (bot_response_text rs)
                                  (ev_thread_ts data) ;;;
           id <- draw_id w "msg" ;;
           created_at <- now w ;;
           modify_db (insertMessages
                        [{| msg_id := id;
                            msg_conversation_id := conversation_id;
                            msg_message := ev_message data;
                            msg_creator := CONTACT;
                            msg_version := Some 1;
                            msg_created_at := created_at |}]) ;;;
           save_responses w (stamp_responses conversation_id created_at rs)
                          false)
          (fun _ => postBotResponseToSlack w (ev_channel_id data) apology
                      (ev_thread_ts data))
          s2.
Proof.
  intros Horg Huser Hadmin.
  unfold processSlackBotMessage, try_catch.
  unfold bind at 1, get_db. unfold bind at 1, defined. rewrite Horg. cbn.
  rewrite Huser.
  unfold bind at 1.
  destruct (checkGetContactID_returns (su_id user) (su_real_name user)
              (su_email user) (su_phone user) (ev_organisation_id data)
              {| db := db s;
                 calls := calls s ++ [Slack_users_info (ev_user_id data)];
                 ids_drawn := ids_drawn s;
                 clock_reads := clock_reads s |})
    as (contact_id & s1 & -> & Hk1 & _).
  cbn in Hk1.
  unfold bind at 1. rewrite Hadmin.
  destruct (checkGetConversation_not_admin (ev_thread_ts data)
              (ev_organisation_id data) contact_id s1)
    as (cid & s2 & -> & Hk2 & _).
  exists cid, s2. split; [congruence |].
  cbn [negb].
  unfold bind, call, postBotResponseToSlack.
  destruct (handleSingleMessageForOpenAI w _ _) as [rs | e]; [| reflexivity].
  destruct (chat_postMessage w _ _ _) as [[] | e]; reflexivity.
Qed.

Lemma bot_admin (data : SlackBotMessageEvent) (s : St)
    (org : Organisation) (user : SlackUser) :
  find (fun o => String.eqb (org_id o) (ev_organisation_id data))
       (organisations (db s)) = Some org ->
  users_info w (ev_user_id data) = Ok user ->
  su_is_admin user = true ->
  exists s',
    processSlackBotMessage w data s = (Ok tt, s') /\
    calls s' = (calls s ++ [Slack_users_info (ev_user_id data)])%list.
Proof.
  intros Horg Huser Hadmin.
  unfold processSlackBotMessage, try_catch.
  unfold bind at 1, get_db. unfold bind at 1, defined. rewrite Horg. cbn.
  rewrite Huser.
  unfold bind at 1.
  destruct (checkGetContactID_returns (su_id user) (su_real_name user)
              (su_email user) (su_phone user) (ev_organisation_id data)
              {| db := db s;
                 calls := calls s ++ [Slack_users_info (ev_user_id data)];
                 ids_drawn := ids_drawn s;
                 clock_reads := clock_reads s |})
    as (contact_id & s1 & -> & Hk1 & _).
  cbn in Hk1.
  unfold bind at 1. rewrite Hadmin.
  destruct (checkGetConversation_admin (ev_thread_ts data)
              (ev_organisation_id data) contact_id s1)
    as (conversation & s2 & -> & Hk2).
  cbn. destruct conversation as [conversation_id |]; cbn;
    (eexists; split; [reflexivity |]); cbn; congruence.
Qed.

(** C10. In the Slack bot event, with the organisation found and the Slack
    user fetched, what is done depends on the sender being an admin and not
    on the database: for an admin no assistant is asked and nothing is
    posted; for any other sender, whatever the [interrupted] flag of the
    thread's conversation, the assistant is asked, and the reply it returns
    is posted to the thread. *)
Theorem bot_reply_does_not_read_interrupted (data : SlackBotMessageEvent)
    (s : St) (org : Organisation) (user : SlackUser) :
  find (fun o => String.eqb (org_id o) (ev_organisation_id data))
       (organisations (db s)) = Some org ->
  users_info w (ev_user_id data) = Ok user ->
  exists r s',
    processSlackBotMessage w data s = (r, s') /\
    (su_is_admin user = true ->
     calls s' = (calls s ++ [Slack_users_info (ev_user_id data)])%list) /\
    (su_is_admin user = false ->
     exists rest,
       calls s'
         = (calls s
              ++ Slack_users_info (ev_user_id data)
              :: Assistant_handleSingleMessage (org_assistant_id org)
                   (ev_message data)
              :: rest)%list /\
       forall rs,
         handleSingleMessageForOpenAI w (org_assistant_id org) (ev_message data)
           = Ok rs ->
         exists rest',
           rest = Slack_chat_postMessage (ev_channel_id data)
                    (bot_response_text rs) (ev_thread_ts data) :: rest').
Proof.
  intros Horg Huser.
  destruct (su_is_admin user) eqn:Hadmin.
  - destruct (bot_admin data s Horg Huser Hadmin) as (s' & Hrun & Hcalls).
    exists (Ok tt), s'. split; [exact Hrun |].
    split; [intros _; exact Hcalls | discriminate].
  - destruct (bot_not_admin data s Horg Huser Hadmin)
      as (cid & s2 & Hcalls & Hrun).
    rewrite Hrun. clear Hrun.
    unfold try_catch, bind, call, postBotResponseToSlack.
    destruct (handleSingleMessageForOpenAI w _ _) as [rs | e].
    + destruct (chat_postMessage w _ _ _) as [[] | e].
      * cbn. eexists; eexists. split; [reflexivity |].
        split; [discriminate |]. intros _. cbn. rewrite Hcalls.
        eexists. split.
        -- rewrite <- !app_assoc. cbn. reflexivity.
        -- intros rs' [= <-]. eexists. reflexivity.
      * cbn. eexists; eexists. split; [reflexivity |].
        split; [discriminate |]. intros _. cbn. rewrite Hcalls.
        eexists. split.
        -- rewrite <- !app_assoc. cbn. reflexivity.
        -- intros rs' [= <-]. eexists. reflexivity.
    + cbn. eexists; eexists. split; [reflexivity |].
      split; [discriminate |]. intros _. cbn. rewrite Hcalls.
      eexists. split.
      -- rewrite <- !app_assoc. cbn. reflexivity.
      -- intros rs' Hrs. discriminate Hrs.
Qed.

(** The Slack half of C2: the responses are saved with the timestamps
    [inbound + 1 + i]. *)
Lemma bot_stamps_responses (data : SlackBotMessageEvent) (s : St)
    (org : Organisation) (user : SlackUser) (rs : list MessageResponse) :
  find (fun o => String.eqb (org_id o) (ev_organisation_id data))
       (organisations (db s)) = Some org ->
  users_info w (ev_user_id data) = Ok user ->
  su_is_admin user = false ->
  handleSingleMessageForOpenAI w (org_assistant_id org) (ev_message data)
    = Ok rs ->
  chat_postMessage w (ev_channel_id data) (bot_response_text rs)
    (ev_thread_ts data) = Ok tt ->
  exists inbound batch d s',
    processSlackBotMessage w data s = (Ok tt, s') /\
    db s' = saveMessageResponsesToDatabase w batch false
              (insertMessages [inbound] d) /\
    In (Db_saveMessageResponses batch false) (calls s') /\
    msg_message inbound = ev_message data /\
    map mr_message batch = map mr_message rs /\
    (forall i r, nth_error batch i = Some r ->
                 mr_created_at r = msg_created_at inbound + 1 + Z.of_nat i) /\
    StronglySorted Z.lt (msg_created_at inbound :: map mr_created_at batch).
Proof.
  intros Horg Huser Hadmin Hrs Hpost.
  destruct (bot_not_admin data s Horg Huser Hadmin)
    as (cid & s2 & Hcalls & Hrun).
  rewrite Hrun. clear Hrun.
  unfold try_catch, bind, call, postBotResponseToSlack.
  rewrite Hrs, Hpost. cbn.
  eexists; eexists; eexists; eexists.
  split; [reflexivity |]. cbn.
  split; [reflexivity |].
  split; [apply in_or_app; right; now left |].
  split; [reflexivity |].
  assert (Hnth : forall i r,
             nth_error (stamp_responses cid (Date_now w (clock_reads s2)) rs) i
               = Some r ->
             mr_created_at r
               = Date_now w (clock_reads s2) + 1 + Z.of_nat i)
    by (intros i r; apply stamp_responses_nth).
  split; [| split; [exact Hnth |]].
  - apply stamp_responses_messages.
  - apply stamps_increase. intros i x Hx.
    rewrite nth_error_map in Hx.
    destruct (nth_error _ i) as [r |] eqn:Hr; [| discriminate].
    injection Hx as <-. now apply Hnth.
Qed.

End Slack.

Lemma bot_reply_does_not_read_interrupted_witness :
  exists r s' rest,
    processSlackBotMessage world_slack bot_event (start (db_1 true OPEN))
      = (r, s') /\
    map conv_interrupted (conversations (db_1 true OPEN)) = [true] /\
    calls s'
      = Slack_users_info "U1"
        :: Assistant_handleSingleMessage (Some "asst_1") "hi"
        :: Slack_chat_postMessage "C1"
             (bot_response_text [reply "Hello!"; reply "How can I help?"])
             "171.001"
        :: rest.
Proof.
  destruct (@bot_reply_does_not_read_interrupted world_slack bot_event
              (start (db_1 true OPEN)) org_1 (some_user false)
              eq_refl eq_refl)
    as (r & s' & Hrun & _ & Hnot).
  destruct (Hnot eq_refl) as (rest & Hcalls & Hpost).
  destruct (Hpost _ eq_refl) as (rest' & ->).
  exists r, s', rest'. split; [exact Hrun |]. split; [reflexivity |].
  exact Hcalls.
Defined.

(** ** Timestamps of the outbound messages *)

(** C2, as the code has it.  In the Slack bot event the i-th response is
    saved with the timestamp of the inbound message plus 1 plus i, so these
    timestamps increase strictly from above the inbound one.  In
    [sendMessage] an outbound message carries the provider's creation time
    of the thread message it is made from, times 1000. *)
Theorem outbound_timestamps (w : World) :
  (forall (data : SlackBotMessageEvent) (s : St) (org : Organisation)
          (user : SlackUser) (rs : list MessageResponse),
     find (fun o => String.eqb (org_id o) (ev_organisation_id data))
          (organisations (db s)) = Some org ->
     users_info w (ev_user_id data) = Ok user ->
     su_is_admin user = false ->
     handleSingleMessageForOpenAI w (org_assistant_id org) (ev_message data)
       = Ok rs ->
     chat_postMessage w (ev_channel_id data) (bot_response_text rs)
       (ev_thread_ts data) = Ok tt ->
     exists inbound batch d s',
       processSlackBotMessage w data s = (Ok tt, s') /\
       db s' = saveMessageResponsesToDatabase w batch false
                 (insertMessages [inbound] d) /\
       In (Db_saveMessageResponses batch false) (calls s') /\
       msg_message inbound = ev_message data /\
       map mr_message batch = map mr_message rs /\
       (forall i r, nth_error batch i = Some r ->
                    mr_created_at r = msg_created_at inbound + 1 + Z.of_nat i) /\
       StronglySorted Z.lt (msg_created_at inbound :: map mr_created_at batch))
  /\
  (forall (messageRequest : MessageRequest) (s s' : St)
          (outbound : list MessageResponse),
     sendMessage w messageRequest s
       = (Ok {| status := 200; jsonBody := Some (inl outbound) |}, s') ->
     exists run data,
       messages_list w (run_thread_id run) None = Ok data /\
       Forall2 (made_from (req_conversation_id messageRequest))
               (filter first_is_text (since_last_user data)) outbound).
Proof.
  split.
  - intros data s org user rs. apply bot_stamps_responses.
  - intros messageRequest s s' outbound Hrun.
    destruct (sendMessage_success _ _ _ Hrun) as (aid & cid & Hsel & Hcreator).
    destruct (sendMessage_past_gate w messageRequest s Hsel Hcreator Hrun)
      as (s1 & _ & _ & [(Hr & _) | Hok]); [discriminate Hr |].
    destruct Hok as (run & data & out' & _ & _ & Hlist & Hall & Hr & _).
    injection Hr as <-. now exists run, data.
Qed.

Lemma outbound_timestamps_witness :
  (exists inbound batch,
     map mr_message batch = ["Hello!"; "How can I help?"] /\
     StronglySorted Z.lt (msg_created_at inbound :: map mr_created_at batch))
  /\
  (exists data,
     Forall2 (made_from "conv_1") (filter first_is_text (since_last_user data))
       [{| mr_id := "msg_b"; mr_conversation_id := "conv_1";
           mr_message := "Hello!"; mr_creator := AGENT;
           mr_created_at := 1700000000000; mr_citations := None |}]).
Proof.
  split.
  - destruct (proj1 (outbound_timestamps world_slack) bot_event
                (start (db_1 true OPEN)) org_1 (some_user false)
                [reply "Hello!"; reply "How can I help?"]
                eq_refl eq_refl eq_refl eq_refl eq_refl)
      as (inbound & batch & _ & _ & _ & _ & _ & _ & Hm & _ & Hs).
    now exists inbound, batch.
  - destruct (proj2 (outbound_timestamps world_hello) (hi CONTACT)
                (start (db_1 false OPEN))
                (snd (sendMessage world_hello (hi CONTACT)
                        (start (db_1 false OPEN))))
                [{| mr_id := "msg_b"; mr_conversation_id := "conv_1";
                    mr_message := "Hello!"; mr_creator := AGENT;
                    mr_created_at := 1700000000000; mr_citations := None |}]
                eq_refl)
      as (_ & data & _ & Hall).
    now exists data.
Defined.

(** C2 as stated fails in [sendMessage]: the single outbound message has the
    provider's timestamp, which is neither the inbound timestamp plus one
    nor above the inbound timestamp. *)
Lemma sendMessage_outbound_timestamp_is_the_providers :
  fst (sendMessage world_hello (hi CONTACT) (start (db_1 false OPEN)))
    = Ok {| status := 200;
            jsonBody :=
              Some (inl [{| mr_id := "msg_b"; mr_conversation_id := "conv_1";
                            mr_message := "Hello!"; mr_creator := AGENT;
                            mr_created_at := 1700000000000;
                            mr_citations := None |}]) |} /\
  msg_created_at
    (inbound_of world_hello (hi CONTACT) (start (db_1 false OPEN)))
    = 1700000000900 /\
  1700000000000 <> 1700000000900 + 1 + 0 /\
  ~ (1700000000900 < 1700000000000).
Proof.
  repeat split; try reflexivity; lia.
Qed.

(** ** Selection of the replies *)

Lemma findIndex_none {A : Type} (p : A -> bool) (xs : list A) :
  Forall (fun x => p x = false) xs -> findIndex p xs = -1.
Proof.
  induction 1 as [| x xs Hx _ IH]; cbn; [reflexivity |].
  now rewrite Hx, IH.
Qed.

Lemma since_last_user_without_user (data : list ThreadMessage) :
  Forall (fun m => is_user m = false) data ->
  since_last_user data = removelast data.
Proof.
  intros H. unfold since_last_user. rewrite (@findIndex_none _ is_user data H).
  unfold js_slice. cbn [Z.ltb Z.compare].
  rewrite removelast_firstn_len.
  replace (Z.min 0 (Z.of_nat (List.length data))) with 0 by lia.
  cbn [Z.to_nat skipn]. f_equal. lia.
Qed.

(** C9, as the code has it.  When the fetched list holds no user message,
    [findIndex] is -1 and the slice drops the last element of the list, the
    oldest message fetched: the outbound messages of [sendMessage] and of
    [handleMessageForOpenAI] are made from all the others, the most recent
    one included. *)
Theorem replies_when_no_user_message (w : World) :
  (forall data,
     Forall (fun m => is_user m = false) data ->
     findIndex is_user data = -1 /\
     since_last_user data = removelast data) /\
  (forall (messageRequest : MessageRequest) (s s' : St)
          (outbound : list MessageResponse),
     (forall thread_id limit data,
        messages_list w thread_id limit = Ok data ->
        Forall (fun m => is_user m = false) data) ->
     sendMessage w messageRequest s
       = (Ok {| status := 200; jsonBody := Some (inl outbound) |}, s') ->
     exists run data,
       messages_list w (run_thread_id run) None = Ok data /\
       Forall2 (made_from (req_conversation_id messageRequest))
               (filter first_is_text (removelast data)) outbound) /\
  (forall (messageRequest : MessageRequest) (assistant_id contact_id : string)
          (s s' : St) (out : list MessageResponse),
     (forall thread_id limit data,
        messages_list w thread_id limit = Ok data ->
        Forall (fun m => is_user m = false) data) ->
     handleMessageForOpenAI w messageRequest assistant_id contact_id s
       = (Ok out, s') ->
     exists run data,
       messages_list w (run_thread_id run) (Some 5) = Ok data /\
       Forall2 (processed_from (req_conversation_id messageRequest))
               (filter first_is_text (removelast data)) out).
Proof.
  split; [| split].
  - intros data H. split;
      [now apply findIndex_none | now apply since_last_user_without_user].
  - intros messageRequest s s' outbound Hnone Hrun.
    destruct (sendMessage_success _ _ _ Hrun) as (aid & cid & Hsel & Hcreator).
    destruct (sendMessage_past_gate w messageRequest s Hsel Hcreator Hrun)
      as (s1 & _ & _ & [(Hr & _) | Hok]); [discriminate Hr |].
    destruct Hok as (run & data & out' & _ & _ & Hlist & Hall & Hr & _).
    injection Hr as <-. exists run, data. split; [exact Hlist |].
    rewrite <- (since_last_user_without_user (Hnone _ _ _ Hlist)).
    exact Hall.
  - intros messageRequest assistant_id contact_id s s' out Hnone Hrun.
    destruct (handleMessageForOpenAI_returns _ _ _ _ _ Hrun)
      as (_ & run & data & _ & Hlist & Hall).
    exists run, data. split; [exact Hlist |].
    rewrite <- (since_last_user_without_user (Hnone _ _ _ Hlist)).
    exact Hall.
Qed.

Lemma replies_when_no_user_message_witness :
  exists data,
    Forall2 (made_from "conv_1") (filter first_is_text (removelast data))
      [{| mr_id := "msg_b"; mr_conversation_id := "conv_1";
          mr_message := "second"; mr_creator := AGENT;
          mr_created_at := 1700000002000; mr_citations := None |}].
Proof.
  destruct (proj1 (proj2 (replies_when_no_user_message world_no_user_message))
              (hi CONTACT) (start (db_1 false OPEN))
              (snd (sendMessage world_no_user_message (hi CONTACT)
                      (start (db_1 false OPEN))))
              [{| mr_id := "msg_b"; mr_conversation_id := "conv_1";
                  mr_message := "second"; mr_creator := AGENT;
                  mr_created_at := 1700000002000; mr_citations := None |}])
    as (_ & data & _ & Hall).
  - intros thread_id limit data [= <-].
    repeat constructor.
  - reflexivity.
  - now exists data.
Defined.

(** C9 as stated fails: of two assistant messages and no user message, the
    most recent one is the one sent out, and the older one is left out. *)
Lemma most_recent_reply_is_sent :
  since_last_user
    [text_message role_assistant "second" 1700000002;
     text_message role_assistant "first" 1700000001]
    = [text_message role_assistant "second" 1700000002] /\
  fst (sendMessage world_no_user_message (hi CONTACT) (start (db_1 false OPEN)))
    = Ok {| status := 200;
            jsonBody :=
              Some (inl [{| mr_id := "msg_b"; mr_conversation_id := "conv_1";
                            mr_message := "second"; mr_creator := AGENT;
                            mr_created_at := 1700000002000;
                            mr_citations := None |}]) |}.
Proof. split; reflexivity. Qed.

(** ** Stripping of the citation markers *)

Lemma substring_whole (s : string) :
  String.substring 0 (String.length s) s = s.
Proof.
  induction s as [| c s IH]; cbn; [reflexivity | now rewrite IH].
Qed.

Lemma js_replace_absent (s pat : string) :
  includes s pat = false -> js_replace s pat "" = s.
Proof.
  unfold includes, js_replace.
  destruct (String.index 0 pat s); [discriminate | reflexivity].
Qed.

Lemma js_replace_empty_pattern (s : string) : js_replace s "" "" = s.
Proof.
  unfold js_replace.
  assert (H : String.index 0 "" s = Some 0%nat) by (destruct s; reflexivity).
  rewrite H. cbn [String.length Nat.add].
  rewrite Nat.sub_0_r, substring_whole.
  destruct s; reflexivity.
Qed.

(** A pass over markers that do not occur in the text leaves it as it is. *)
Lemma strip_annotations_nothing (annotations : list Annotation) (text : string) :
  Forall (fun a => ann_text a = "" \/ includes text (ann_text a) = false)
         annotations ->
  strip_annotations text annotations = text.
Proof.
  unfold strip_annotations.
  induction 1 as [| a rest Ha _ IH]; cbn; [reflexivity |].
  assert (Hsame : js_replace text (ann_text a) "" = text).
  { destruct Ha as [-> | Ha];
      [apply js_replace_empty_pattern | now apply js_replace_absent]. }
  rewrite Hsame. exact IH.
Qed.

(** *** What [replace] does with a string pattern *)

Lemma string_length_append (a b : string) :
  String.length (a ++ b) = (String.length a + String.length b)%nat.
Proof. induction a as [| c a IH]; cbn; [reflexivity | now rewrite IH]. Qed.




Lemma substring_nothing (s : string) : String.substring 0 0 s = "".
Proof. destruct s; reflexivity. Qed.


(** Cutting a string at a position. *)
Lemma substring_cut_front (l : nat) :
  forall (s pat : string),
    String.substring 0 l s = pat -> String.length pat = l ->
    s = pat ++ String.substring l (String.length s - l) s.
Proof.
  induction l as [| l IH]; intros s pat Hsub Hlen.
  - rewrite substring_nothing in Hsub. subst pat. cbn.
    now rewrite Nat.sub_0_r, substring_whole.
  - destruct s as [| c s]; cbn in Hsub; subst pat; [discriminate Hlen |].
    cbn in Hlen. injection Hlen as Hlen. cbn. f_equal.
    now apply IH.
Qed.

Lemma substring_cut (i l : nat) :
  forall (s pat : string),
    String.substring i l s = pat -> String.length pat = l ->
    s = String.substring 0 i s ++ pat
        ++ String.substring (i + l) (String.length s - (i + l)) s.
Proof.
  induction i as [| i IH]; intros s pat Hsub Hlen.
  - rewrite substring_nothing. cbn [String.append Nat.add].
    now apply substring_cut_front.
  - destruct s as [| c s].
    + cbn in Hsub. subst pat. destruct l; [reflexivity | discriminate Hlen].
    + cbn in Hsub. cbn. f_equal. now apply IH.
Qed.

Lemma substring_length_le (i : nat) :
  forall s, (String.length (String.substring 0 i s) <= i)%nat.
Proof.
  induction i as [| i IH]; intros s.
  - rewrite substring_nothing. cbn. lia.
  - destruct s as [| c s]; cbn; [lia |]. specialize (IH s). lia.
Qed.

(** What [replace] does with a pattern that occurs: the text is cut at the
    first occurrence, and the replacement is put in its place. *)
Lemma js_replace_first_occurrence (s pat rep : string) :
  includes s pat = true ->
  exists before after,
    s = before ++ pat ++ after /\
    js_replace s pat rep = before ++ rep ++ after /\
    forall p, (p < String.length before)%nat ->
              String.substring p (String.length pat) s <> pat.
Proof.
  unfold includes, js_replace.
  destruct (String.index 0 pat s) as [i |] eqn:Hi; [intros _ | discriminate].
  exists (String.substring 0 i s),
         (String.substring (i + String.length pat)
            (String.length s - (i + String.length pat)) s).
  split; [| split; [reflexivity |]].
  - apply substring_cut; [| reflexivity].
    now apply String.index_correct1 with (n := 0%nat).
  - intros p Hp. apply (String.index_correct2 0 i pat s Hi); [lia |].
    pose proof (substring_length_le i s). lia.
Qed.

Lemma js_replace_length (s pat : string) :
  (String.length s - String.length pat
     <= String.length (js_replace s pat "") <= String.length s)%nat.
Proof.
  destruct (includes s pat) eqn:Hin.
  - destruct (js_replace_first_occurrence s pat "" Hin)
      as (before & after & Hs & -> & _).
    subst s. rewrite !string_length_append. cbn. lia.
  - rewrite (js_replace_absent s pat Hin). lia.
Qed.

Lemma js_replace_shortens (s pat : string) :
  includes s pat = true -> pat <> "" ->
  (String.length (js_replace s pat "") < String.length s)%nat.
Proof.
  intros Hin Hpat.
  destruct (js_replace_first_occurrence s pat "" Hin)
    as (before & after & Hs & -> & _).
  subst s. rewrite !string_length_append.
  destruct pat as [| c pat]; [contradiction | cbn; lia].
Qed.

(** A replacement leaves the text as it is exactly when the pattern is
    empty or does not occur. *)
Lemma js_replace_same_iff (s pat : string) :
  js_replace s pat "" = s <-> pat = "" \/ includes s pat = false.
Proof.
  split.
  - intros Hsame.
    destruct pat as [| c pat]; [now left | right].
    destruct (includes s (String c pat)) eqn:Hin; [| reflexivity].
    assert (Hne : String c pat <> "") by discriminate.
    pose proof (js_replace_shortens s Hin Hne) as Hlt.
    rewrite Hsame in Hlt. lia.
  - intros [-> | Hin];
      [apply js_replace_empty_pattern | now apply js_replace_absent].
Qed.

Lemma strip_annotations_not_longer (annotations : list Annotation) :
  forall text,
    (String.length (strip_annotations text annotations)
       <= String.length text)%nat.
Proof.
  unfold strip_annotations.
  induction annotations as [| a rest IH]; intros text; cbn; [lia |].
  pose proof (js_replace_length text (ann_text a)) as H1.
  pose proof (IH (js_replace text (ann_text a) "")) as H2.
  lia.
Qed.

(** A pass leaves a text as it is exactly when none of the markers that are
    not empty occurs in it. *)
Lemma strip_annotations_fixed_iff (annotations : list Annotation) :
  forall text,
    strip_annotations text annotations = text <->
    Forall (fun a => ann_text a = "" \/ includes text (ann_text a) = false)
           annotations.
Proof.
  induction annotations as [| a rest IH]; intros text.
  - split; [constructor | reflexivity].
  - split; [| apply strip_annotations_nothing].
    intros Hfix.
    assert (Hsame : js_replace text (ann_text a) "" = text).
    { apply js_replace_same_iff.
      destruct (ann_text a) as [| c pat] eqn:Ha; [now left | right].
      destruct (includes text (String c pat)) eqn:Hin; [| reflexivity].
      assert (Hne : String c pat <> "") by discriminate.
      pose proof (js_replace_shortens text Hin Hne) as Hlt.
      pose proof (strip_annotations_not_longer rest
                    (js_replace text (String c pat) "")) as Hle.
      unfold strip_annotations in Hfix, Hle. cbn in Hfix.
      rewrite Ha in Hfix. rewrite Hfix in Hle. lia. }
    constructor; [now apply js_replace_same_iff |].
    apply IH. unfold strip_annotations in *. cbn in Hfix.
    now rewrite Hsame in Hfix.
Qed.

(** C8, as the code has it.  The annotations are taken in order, and each
    one removes the first occurrence of its marker from the text reached so
    far: a marker that does not occur leaves the text as it is, a marker
    that occurs is cut out where it occurs first, and what stands before
    and after it is kept.  A second pass over the stripped text changes
    nothing exactly when none of the markers that are not empty occurs in
    the stripped text; so stripping is not idempotent in general. *)
Theorem strip_annotations_again (value : string)
    (annotations : list Annotation) :
  (forall a rest,
     annotations = a :: rest ->
     (includes value (ann_text a) = false /\
      strip_annotations value annotations = strip_annotations value rest) \/
     (exists before after,
        value = before ++ ann_text a ++ after /\
        (forall p, (p < String.length before)%nat ->
                   String.substring p (String.length (ann_text a)) value
                     <> ann_text a) /\
        strip_annotations value annotations
          = strip_annotations (before ++ after) rest)) /\
  (annotations = [] -> strip_annotations value annotations = value) /\
  (strip_annotations (strip_annotations value annotations) annotations
     = strip_annotations value annotations <->
   Forall (fun a =>
             ann_text a = "" \/
             includes (strip_annotations value annotations) (ann_text a) = false)
          annotations).
Proof.
  split; [| split].
  - intros a rest ->.
    destruct (includes value (ann_text a)) eqn:Hin.
    + right.
      destruct (js_replace_first_occurrence value (ann_text a) "" Hin)
        as (before & after & Hv & Hrep & Hfirst).
      exists before, after. split; [exact Hv |]. split; [exact Hfirst |].
      unfold strip_annotations. cbn. now rewrite Hrep.
    + left. split; [reflexivity |].
      unfold strip_annotations. cbn.
      now rewrite (js_replace_absent value (ann_text a) Hin).
  - intros ->. reflexivity.
  - apply strip_annotations_fixed_iff.
Qed.

Lemma strip_annotations_again_witness :
  strip_annotations "See [1] our page [2]." [cite "[1]"; cite "[2]"]
    = "See  our page ." /\
  strip_annotations
    (strip_annotations "See [1] our page [2]." [cite "[1]"; cite "[2]"])
    [cite "[1]"; cite "[2]"]
    = strip_annotations "See [1] our page [2]." [cite "[1]"; cite "[2]"] /\
  ~ Forall (fun a =>
              ann_text a = "" \/
              includes (strip_annotations "See [1][1]" [cite "[1]"]) (ann_text a)
                = false)
           [cite "[1]"].
Proof.
  split; [reflexivity |]. split.
  - apply (proj2 (proj2 (@strip_annotations_again "See [1] our page [2]."
                           [cite "[1]"; cite "[2]"]))).
    repeat constructor; right; reflexivity.
  - intros Hall.
    apply (proj2 (proj2 (@strip_annotations_again "See [1][1]" [cite "[1]"])))
      in Hall.
    vm_compute in Hall. discriminate Hall.
Defined.

(** C8 as stated fails: a marker that occurs twice under one annotation is
    removed once by each pass. *)
Lemma stripping_twice_differs :
  strip_annotations "See [1][1]" [cite "[1]"] = "See [1]" /\
  strip_annotations (strip_annotations "See [1][1]" [cite "[1]"]) [cite "[1]"]
    = "See " /\
  strip_annotations (strip_annotations "See [1][1]" [cite "[1]"]) [cite "[1]"]
    <> strip_annotations "See [1][1]" [cite "[1]"].
Proof.
  repeat split. vm_compute. discriminate.
Qed.

(** [processOpenAIMessage] answers with the stripped text under the
    provider's timestamp. *)
Remark processOpenAIMessage_text (w : World) (message : ThreadMessage)
    (conversation_id value : string) (annotations : list Annotation)
    (rest : list ContentBlock) (s : St) :
  tm_content message = TextBlock value annotations :: rest ->
  exists r s',
    processOpenAIMessage w message conversation_id s = (Ok (Some r), s') /\
    mr_message r = strip_annotations value annotations /\
    mr_created_at r = tm_created_at message * 1000 /\
    db s' = db s /\ calls s' = calls s.
Proof.
  intros Hc. unfold processOpenAIMessage, bind, defined. rewrite Hc. cbn.
  eexists; eexists. split; [reflexivity |]. cbn. repeat split.
Qed.

(** * Further properties of the flow *)

(** ** [sendMessage]: outcomes and composition *)

Section Outcomes.

Variable w : World.

(** The lookup after the conversations with id [id] have been changed by a
    function that keeps the id, the organisation and the contact. *)
Lemma select_after_change (id : string) (change : Conversation -> Conversation)
    (orgs : list Organisation) (cs : list Conversation)
    (flag : bool) (assistant_id : option string) (contact_id : string) :
  (forall c, conv_id (change c) = conv_id c) ->
  (forall c, conv_organisation_id (change c) = conv_organisation_id c) ->
  (forall c, conv_contact_id (change c) = conv_contact_id c) ->
  (forall c, conv_interrupted (change c) = true) ->
  hd_error
    (flat_map
       (fun c =>
          if String.eqb (conv_id c) id then
            map (fun o => (conv_interrupted c, org_assistant_id o, conv_contact_id c))
                (filter (fun o => String.eqb (org_id o) (conv_organisation_id c))
                        orgs)
          else [])
       cs) = Some (flag, assistant_id, contact_id) ->
  hd_error
    (flat_map
       (fun c =>
          if String.eqb (conv_id c) id then
            map (fun o => (conv_interrupted c, org_assistant_id o, conv_contact_id c))
                (filter (fun o => String.eqb (org_id o) (conv_organisation_id c))
                        orgs)
          else [])
       (map (fun c => if String.eqb (conv_id c) id then change c else c) cs))
    = Some (true, assistant_id, contact_id).
Proof.
  intros Hid Horg Hcontact Hflag.
  induction cs as [| c rest IH]; cbn; [discriminate |].
  destruct (String.eqb (conv_id c) id) eqn:E.
  - rewrite Hid, E, Horg, Hcontact, Hflag.
    destruct (filter (fun o => String.eqb (org_id o) (conv_organisation_id c)) orgs)
      as [| o os]; cbn.
    + exact IH.
    + intros [= _ <- <-]. reflexivity.
  - rewrite E. cbn. exact IH.
Qed.

Lemma select_after_gate (id : string) (d : Database) (rows : list NewMessage)
    (last : JsNumber) (flag : bool) (assistant_id : option string)
    (contact_id : string) :
  selectConversationForMessage d id = Some (flag, assistant_id, contact_id) ->
  selectConversationForMessage
    (updateConversations id (set_last_status_interrupted last)
       (insertMessages rows d)) id
    = Some (true, assistant_id, contact_id).
Proof.
  unfold selectConversationForMessage. cbn.
  apply select_after_change; reflexivity.
Qed.


(** The gate is sticky.  Once a message of creator USER has gone through for
    a conversation, the next message for it, whoever its creator, is taken
    by the gate: both are saved and the assistant is never asked. *)
Theorem sendMessage_after_user_message (first next : MessageRequest) (s : St)
    (interrupted : bool) (assistant_id : option string) (contact_id : string) :
  selectConversationForMessage (db s) (req_conversation_id first)
    = Some (interrupted, assistant_id, contact_id) ->
  req_creator first = USER ->
  req_conversation_id next = req_conversation_id first ->
  exists s1 s2,
    sendMessage w first s = (Ok {| status := 200; jsonBody := None |}, s1) /\
    sendMessage w next s1 = (Ok {| status := 200; jsonBody := None |}, s2) /\
    calls s2 = calls s /\
    messages (db s2)
      = (messages (db s)
           ++ [inbound_of w first s; inbound_of w next s1])%list.
Proof.
  intros Hsel Huser Hsame.
  pose proof (sendMessage_gate_run w first s Hsel (or_intror Huser)) as Hfirst.
  eexists; eexists. split; [exact Hfirst |].
  match goal with
  | |- sendMessage w next ?s1 = _ /\ _ =>
      assert (Hsel1 : selectConversationForMessage (db s1)
                        (req_conversation_id next)
                      = Some (true, assistant_id, contact_id))
  end.
  { rewrite Hsame. cbn. now apply select_after_gate with (flag := interrupted). }
  split.
  - exact (sendMessage_gate_run w next _ Hsel1 (or_introl eq_refl)).
  - cbn. split; [reflexivity |]. now rewrite <- app_assoc.
Qed.

End Outcomes.

Lemma sendMessage_after_user_message_witness :
  exists s1 s2,
    sendMessage world_hello (hi USER) (start (db_1 false OPEN))
      = (Ok {| status := 200; jsonBody := None |}, s1) /\
    sendMessage world_hello (hi CONTACT) s1
      = (Ok {| status := 200; jsonBody := None |}, s2) /\
    calls s2 = [] /\
    List.length (messages (db s2)) = 2%nat.
Proof.
  destruct (@sendMessage_after_user_message world_hello (hi USER) (hi CONTACT)
              (start (db_1 false OPEN)) false (Some "asst_1") "cont_1"
              eq_refl eq_refl eq_refl)
    as (s1 & s2 & H1 & H2 & Hc & Hm).
  exists s1, s2. split; [exact H1 |]. split; [exact H2 |].
  split; [exact Hc |]. rewrite Hm. reflexivity.
Defined.

(** ** What a tool round writes *)

Section ToolWrites.

Variable w : World.

Lemma same_contact_refl (contact_id : string) (cs : list Contact) :
  Forall2 (same_contact_but_details contact_id) cs cs.
Proof.
  induction cs as [| c cs IH]; constructor; [| exact IH].
  repeat split.
Qed.

Lemma same_contact_trans (contact_id : string) (xs ys zs : list Contact) :
  Forall2 (same_contact_but_details contact_id) xs ys ->
  Forall2 (same_contact_but_details contact_id) ys zs ->
  Forall2 (same_contact_but_details contact_id) xs zs.
Proof.
  intros H. revert zs.
  induction H as [| x y xs ys (Hi & Ho & Hs & Hn) _ IH]; intros zs Hz;
    inversion Hz as [| ? z ? zs' (Hi' & Ho' & Hs' & Hn') Hrest]; subst;
    constructor.
  - repeat split; try congruence.
    intros Hx. rewrite Hn' by congruence. now apply Hn.
  - now apply IH.
Qed.

Lemma updateContacts_frame (contact_id : string)
    (name email phone : option JsValue) (cs : list Contact) :
  Forall2 (same_contact_but_details contact_id) cs
    (map (fun c =>
            if String.eqb (cont_id c) contact_id then
              {| cont_id := cont_id c;
                 cont_organisation_id := cont_organisation_id c;
                 cont_name := column name (cont_name c);
                 cont_email := column email (cont_email c);
                 cont_phone := column phone (cont_phone c);
                 cont_slack_id := cont_slack_id c |}
            else c) cs).
Proof.
  induction cs as [| c cs IH]; cbn; constructor; [| exact IH].
  destruct (String.eqb (cont_id c) contact_id) eqn:E.
  - apply String.eqb_eq in E. repeat split. intros Hn. contradiction.
  - repeat split.
Qed.

Lemma updateContacts_nothing (contact_id : string) (d : Database) :
  updateContacts contact_id None None None d = d.
Proof.
  unfold updateContacts. destruct d as [orgs cs convs msgs]. cbn. f_equal.
  induction cs as [| c cs IH]; cbn; [reflexivity |].
  rewrite IH. f_equal.
  destruct (String.eqb (cont_id c) contact_id); [| reflexivity].
  destruct c; reflexivity.
Qed.

Lemma state_with_same_db (s : St) (d : Database) :
  d = db s ->
  {| db := d; calls := calls s; ids_drawn := ids_drawn s;
     clock_reads := clock_reads s |} = s.
Proof. intros ->. destruct s; reflexivity. Qed.

Lemma saveContactDetails_effect (contact_id data : string) (s : St) :
  exists out s',
    saveContactDetails w contact_id data s = (Ok out, s') /\
    only_contacts_changed s s' /\
    Forall2 (same_contact_but_details contact_id)
            (contacts (db s)) (contacts (db s')) /\
    (forall members,
       JSON_parse w data = Some (JObject members) ->
       Forall2 (details_saved contact_id members)
               (contacts (db s)) (contacts (db s'))) /\
    ((forall members, JSON_parse w data <> Some (JObject members)) ->
     db s' = db s).
Proof.
  unfold saveContactDetails, try_catch, bind, lift.
  destruct (JSON_parse w data) as [details |]; cbn -[updateContacts].
  - destruct details as [| b | r | t | items | members];
      cbn -[updateContacts];
      (eexists; eexists; split; [reflexivity |]); cbn -[updateContacts].
    1: { split; [repeat split |]. split; [apply same_contact_refl |].
         split; [discriminate | reflexivity]. }
    1-4: rewrite updateContacts_nothing.
    1-4: split; [repeat split |]; split; [apply same_contact_refl |];
         split; [discriminate | reflexivity].
    split; [repeat split |].
    split; [apply updateContacts_frame |]. split.
    + intros ms [= <-]. cbn.
      induction (contacts (db s)) as [| c cs IH]; cbn; constructor;
        [| exact IH].
      intros Hc. apply String.eqb_eq in Hc. rewrite Hc. cbn. repeat split.
    + intros Hnot. exfalso. now apply (Hnot members).
  - exists cant_parse_details, s. split; [reflexivity |].
    split; [repeat split |]. split; [apply same_contact_refl |].
    split; [discriminate | reflexivity].
Qed.

(** [saveContactDetails] writes nothing but the name, e-mail and phone of
    the contacts with the given id; a payload that does not parse, or that
    is not an object, leaves the database as it is; of an object, the
    members that are given replace the columns and the others are kept. *)
Theorem saveContactDetails_writes (contact_id data : string) (s : St) :
  exists out s',
    saveContactDetails w contact_id data s = (Ok out, s') /\
    only_contacts_changed s s' /\
    Forall2 (same_contact_but_details contact_id)
            (contacts (db s)) (contacts (db s')) /\
    (forall members,
       JSON_parse w data = Some (JObject members) ->
       Forall2 (details_saved contact_id members)
               (contacts (db s)) (contacts (db s'))) /\
    ((forall members, JSON_parse w data <> Some (JObject members)) ->
     db s' = db s).
Proof. apply saveContactDetails_effect. Qed.

Lemma tool_output_effect (contact_id : string) (tc : ToolCall) (s : St) :
  exists out s',
    tool_output w contact_id tc s = (Ok out, s') /\
    Forall2 (same_contact_but_details contact_id)
            (contacts (db s)) (contacts (db s')) /\
    (tc_name tc <> "save_contact_details" -> db s' = db s).
Proof.
  unfold tool_output, bind.
  destruct (String.eqb (tc_name tc) "save_contact_details") eqn:E.
  - destruct (saveContactDetails_effect contact_id (tc_arguments tc) s)
      as (out & s' & -> & _ & Hf & _).
    eexists; eexists. split; [reflexivity |]. split; [exact Hf |].
    apply String.eqb_eq in E. intros Hn. contradiction.
  - cbn. eexists; eexists. split; [reflexivity |].
    split; [apply same_contact_refl | reflexivity].
Qed.

Lemma tool_outputs_effect (contact_id : string) (tool_calls : list ToolCall) :
  forall s,
  exists outs s',
    tool_outputs w contact_id tool_calls s = (Ok outs, s') /\
    Forall2 (same_contact_but_details contact_id)
            (contacts (db s)) (contacts (db s')) /\
    (Forall (fun tc => tc_name tc <> "save_contact_details") tool_calls ->
     db s' = db s).
Proof.
  unfold tool_outputs.
  induction tool_calls as [| tc rest IH]; intros s; cbn.
  - exists [], s. split; [reflexivity |].
    split; [apply same_contact_refl | reflexivity].
  - unfold bind at 1.
    destruct (tool_output_effect contact_id tc s) as (out & s1 & -> & F1 & N1).
    unfold bind at 1.
    destruct (IH s1) as (outs & s2 & -> & F2 & N2).
    exists (out :: outs), s2. split; [reflexivity |].
    split; [eapply same_contact_trans; eassumption |].
    intros Hall. inversion Hall as [| ? ? Htc Hrest]; subst.
    rewrite (N2 Hrest). now apply N1.
Qed.

(** A tool round writes nothing but the name, e-mail and phone of the
    contacts with the conversation's contact id, whatever the tools asked
    for and however the resubmission ends; a round without a
    [save_contact_details] call writes nothing at all. *)
Theorem tool_round_writes (thread_id contact_id : string) (run : Run)
    (s s' : St) (r : Result Run) :
  resolve_required_action w thread_id contact_id run s = (r, s') ->
  same_exchange (db s) (db s') /\
  Forall2 (same_contact_but_details contact_id)
          (contacts (db s)) (contacts (db s')) /\
  (forall tool_calls,
     run_required_action run = Some tool_calls ->
     Forall (fun tc => tc_name tc <> "save_contact_details") tool_calls ->
     db s' = db s).
Proof.
  intros Hrun.
  split; [exact (proj1 (resolve_required_action_frame w _ _ _ _ Hrun)) |].
  revert Hrun. unfold resolve_required_action.
  destruct (status_eqb (run_status run) requires_action).
  - destruct (run_required_action run) as [tool_calls |]; cbn.
    + unfold bind at 1.
      destruct (tool_outputs_effect contact_id tool_calls s)
        as (outs & s1 & -> & Hf & Hn).
      unfold call. intros [= _ <-]. cbn. split; [exact Hf |].
      intros tcs [= <-]. exact Hn.
    + unfold bind, throw. cbn. intros [= _ <-].
      split; [apply same_contact_refl | discriminate].
  - unfold ret. intros [= _ <-].
    split; [apply same_contact_refl | reflexivity].
Qed.

End ToolWrites.

Lemma saveContactDetails_writes_witness :
  exists out s',
    saveContactDetails world_tool_then_failed "cont_1" email_payload
      (start (db_1 false OPEN)) = (Ok out, s') /\
    map cont_email (contacts (db s')) = [JString "a@b.com"] /\
    map cont_name (contacts (db s')) = [JNull].
Proof.
  destruct (@saveContactDetails_writes world_tool_then_failed "cont_1"
              email_payload (start (db_1 false OPEN)))
    as (out & s' & Hrun & _ & _ & Hsaved & _).
  exists out, s'. split; [exact Hrun |].
  specialize (Hsaved _ eq_refl). cbn in Hsaved.
  inversion Hsaved as [| c c' cs cs' Hc Hrest Hl Hr]; subst.
  inversion Hrest; subst.
  destruct (Hc eq_refl) as (Hname & Hemail & _).
  cbn. rewrite Hname, Hemail. split; reflexivity.
Defined.

Lemma tool_round_writes_witness :
  same_exchange (db (start (db_1 false OPEN)))
    (db (snd (resolve_required_action world_tool_then_failed "thread_1" "cont_1"
                (run_with requires_action
                   (Some [{| tc_id := "call_3"; tc_name := "lookup_order";
                             tc_arguments := "{}" |}]))
                (start (db_1 false OPEN))))) /\
  db (snd (resolve_required_action world_tool_then_failed "thread_1" "cont_1"
             (run_with requires_action
                (Some [{| tc_id := "call_3"; tc_name := "lookup_order";
                          tc_arguments := "{}" |}]))
             (start (db_1 false OPEN))))
    = db_1 false OPEN.
Proof.
  destruct (@tool_round_writes world_tool_then_failed "thread_1" "cont_1"
              (run_with requires_action
                 (Some [{| tc_id := "call_3"; tc_name := "lookup_order";
                           tc_arguments := "{}" |}]))
              (start (db_1 false OPEN)) _ _ eq_refl)
    as (Hx & _ & Hn).
  split; [exact Hx |].
  apply (Hn _ eq_refl). constructor; [discriminate | constructor].
Defined.

(** ** Selection of the replies when the user's message is in the list *)

Lemma findIndex_first {A : Type} (p : A -> bool) (pre post : list A) (x : A) :
  Forall (fun y => p y = false) pre -> p x = true ->
  findIndex p (pre ++ x :: post) = Z.of_nat (List.length pre).
Proof.
  intros Hpre Hx. induction Hpre as [| y pre Hy _ IH]; cbn -[Z.of_nat].
  - now rewrite Hx.
  - rewrite Hy, IH.
    destruct (Z.of_nat (List.length pre)) eqn:E; cbn -[Z.of_nat] in *; lia.
Qed.

Lemma js_slice_prefix {A : Type} (pre rest : list A) :
  js_slice 0 (Z.of_nat (List.length pre)) (pre ++ rest) = pre.
Proof.
  unfold js_slice.
  replace (Z.of_nat (List.length pre) <? 0) with false
    by (symmetry; apply Z.ltb_ge; lia).
  cbn [Z.ltb Z.compare].
  rewrite length_app.
  replace (Z.min 0 (Z.of_nat (List.length pre + List.length rest))) with 0
    by lia.
  replace (Z.min (Z.of_nat (List.length pre))
             (Z.of_nat (List.length pre + List.length rest)))
    with (Z.of_nat (List.length pre)) by lia.
  cbn [Z.to_nat skipn]. rewrite Z.sub_0_r, Nat2Z.id.
  rewrite firstn_app, Nat.sub_diag, firstn_all. cbn. apply app_nil_r.
Qed.

(** With the list most recent first, the replies selected are exactly the
    messages in front of the most recent user message: everything the
    assistant wrote since the user's last turn, and nothing older. *)
Theorem since_last_user_is_the_prefix (pre post : list ThreadMessage)
    (user_message : ThreadMessage) :
  Forall (fun m => is_user m = false) pre ->
  is_user user_message = true ->
  since_last_user (pre ++ user_message :: post) = pre.
Proof.
  intros Hpre Hu. unfold since_last_user.
  rewrite (@findIndex_first _ is_user pre post user_message Hpre Hu).
  apply js_slice_prefix.
Qed.

Lemma since_last_user_is_the_prefix_witness :
  since_last_user
    [text_message role_assistant "Anything else?" 1700000003;
     text_message role_assistant "Hello!" 1700000002;
     text_message role_user "hi" 1700000001;
     text_message role_assistant "older answer" 1700000000]
    = [text_message role_assistant "Anything else?" 1700000003;
       text_message role_assistant "Hello!" 1700000002].
Proof.
  apply (@since_last_user_is_the_prefix
           [text_message role_assistant "Anything else?" 1700000003;
            text_message role_assistant "Hello!" 1700000002]
           [text_message role_assistant "older answer" 1700000000]
           (text_message role_user "hi" 1700000001)).
  - repeat constructor.
  - reflexivity.
Defined.

(** ** The text of a reply with one citation *)

(** For a message with one annotation whose marker occurs in the text,
    [processOpenAIMessage] answers with the text cut at the first
    occurrence of the marker: what stands before and after it is kept as it
    is. *)
Theorem processOpenAIMessage_cuts_marker (w : World) (message : ThreadMessage)
    (conversation_id value : string) (annotation : Annotation)
    (rest : list ContentBlock) (s : St) :
  tm_content message = TextBlock value [annotation] :: rest ->
  includes value (ann_text annotation) = true ->
  exists before after r s',
    value = before ++ ann_text annotation ++ after /\
    (forall p, (p < String.length before)%nat ->
               String.substring p (String.length (ann_text annotation)) value
                 <> ann_text annotation) /\
    processOpenAIMessage w message conversation_id s = (Ok (Some r), s') /\
    mr_message r = before ++ after /\
    mr_creator r = AGENT /\
    mr_conversation_id r = conversation_id.
Proof.
  intros Hc Hin.
  destruct (js_replace_first_occurrence value (ann_text annotation) "" Hin)
    as (before & after & Hvalue & Hrep & Hfirst).
  exists before, after.
  unfold processOpenAIMessage, bind, defined. rewrite Hc. cbn.
  eexists; eexists. split; [exact Hvalue |]. split; [exact Hfirst |].
  split; [reflexivity |]. cbn. split; [exact Hrep |]. split; reflexivity.
Qed.

Lemma processOpenAIMessage_cuts_marker_witness :
  exists r s',
    processOpenAIMessage world_hello
      {| tm_role := role_assistant;
         tm_content := [TextBlock "We open at 9 [1] on weekdays." [cite "[1]"]];
         tm_created_at := 1700000002 |}
      "conv_1" (start (db_1 false OPEN)) = (Ok (Some r), s') /\
    exists before after,
      "We open at 9 [1] on weekdays." = before ++ "[1]" ++ after /\
      mr_message r = before ++ after.
Proof.
  destruct (@processOpenAIMessage_cuts_marker world_hello
              {| tm_role := role_assistant;
                 tm_content :=
                   [TextBlock "We open at 9 [1] on weekdays." [cite "[1]"]];
                 tm_created_at := 1700000002 |}
              "conv_1" "We open at 9 [1] on weekdays." (cite "[1]") []
              (start (db_1 false OPEN)) eq_refl eq_refl)
    as (before & after & r & s' & Hv & _ & Hrun & Hm & _).
  exists r, s'. split; [exact Hrun |]. now exists before, after.
Defined.

(** Stripping never lengthens the text, and takes away no more characters
    than the markers of the annotations hold together. *)
Theorem strip_annotations_length (annotations : list Annotation)
    (value : string) :
  (String.length value
     - list_sum (map (fun a => String.length (ann_text a)) annotations)
   <= String.length (strip_annotations value annotations)
   <= String.length value)%nat.
Proof.
  unfold strip_annotations. revert value.
  induction annotations as [| a rest IH]; intros value.
  - cbn. lia.
  - cbn [fold_left map].
    pose proof (js_replace_length value (ann_text a)) as H1.
    pose proof (IH (js_replace value (ann_text a) "")) as H2.
    change (list_sum
              (String.length (ann_text a)
               :: map (fun a0 => String.length (ann_text a0)) rest))
      with (String.length (ann_text a)
            + list_sum (map (fun a0 => String.length (ann_text a0)) rest))%nat.
    generalize dependent
      (list_sum (map (fun a0 => String.length (ann_text a0)) rest)).
    intros n _ H2.
    generalize dependent
      (String.length
         (fold_left
            (fun (messageTextContent : string) (annotation : Annotation) =>
               js_replace messageTextContent (ann_text annotation) "")
            rest (js_replace value (ann_text a) ""))).
    intros. lia.
Qed.

(** ** The requests of a successful exchange *)

Section Requests.

Variable w : World.



End Requests.


(** ** Reading conversations back *)


Lemma selectConversationWithContact_some (d : Database) (id : string) :
  (exists c, In c (conversations d) /\ conv_id c = id) ->
  exists c k,
    selectConversationWithContact d id = Some (c, k) /\
    In c (conversations d) /\ conv_id c = id /\
    match k with
    | Some contact => In contact (contacts d) /\ cont_id contact = conv_contact_id c
    | None => forall contact, In contact (contacts d) ->
                              cont_id contact <> conv_contact_id c
    end.
Proof.
  unfold selectConversationWithContact.
  induction (conversations d) as [| c cs IH]; intros (c0 & Hin & Hid);
    [destruct Hin |].
  cbn. destruct (String.eqb (conv_id c) id) eqn:E.
  - apply String.eqb_eq in E.
    destruct (filter (fun k => String.eqb (cont_id k) (conv_contact_id c))
                     (contacts d)) as [| k ks] eqn:Hf; cbn.
    + exists c, None. split; [reflexivity |]. split; [now left |].
      split; [exact E |].
      intros contact Hc Heq.
      assert (Hk : In contact
                     (filter (fun k => String.eqb (cont_id k) (conv_contact_id c))
                             (contacts d)))
        by (apply filter_In; split; [exact Hc | now apply String.eqb_eq]).
      rewrite Hf in Hk. destruct Hk.
    + exists c, (Some k). split; [reflexivity |]. split; [now left |].
      split; [exact E |].
      assert (Hk : In k (filter (fun k => String.eqb (cont_id k) (conv_contact_id c))
                                (contacts d)))
        by (rewrite Hf; now left).
      apply filter_In in Hk. destruct Hk as (Hk1 & Hk2).
      split; [exact Hk1 | now apply String.eqb_eq].
  - cbn. destruct Hin as [-> | Hin].
    + apply String.eqb_neq in E. contradiction.
    + destruct IH as (c' & k & Hsel & Hc' & Hid' & Hk);
        [now exists c0 |].
      exists c', k. split; [exact Hsel |]. split; [now right |].
      split; assumption.
Qed.



Lemma select_without_organisation (d : Database) (id : string) :
  (forall c o, In c (conversations d) -> conv_id c = id ->
               In o (organisations d) ->
               org_id o <> conv_organisation_id c) ->
  selectConversationForMessage d id = None.
Proof.
  unfold selectConversationForMessage.
  induction (conversations d) as [| c cs IH]; intros H; cbn; [reflexivity |].
  destruct (String.eqb (conv_id c) id) eqn:E.
  - apply String.eqb_eq in E.
    assert (Hf : filter (fun o => String.eqb (org_id o) (conv_organisation_id c))
                        (organisations d) = []).
    { destruct (filter _ (organisations d)) as [| o os] eqn:Hf; [reflexivity |].
      assert (Ho : In o (filter (fun o => String.eqb (org_id o)
                                            (conv_organisation_id c))
                                (organisations d)))
        by (rewrite Hf; now left).
      apply filter_In in Ho. destruct Ho as (Ho1 & Ho2).
      apply String.eqb_eq in Ho2. exfalso.
      exact (H c o (or_introl eq_refl) E Ho1 Ho2). }
    rewrite Hf. cbn. apply IH. intros c' o Hc'. apply H. now right.
  - cbn. apply IH. intros c' o Hc'. apply H. now right.
Qed.

(** The two lookups differ.  A conversation whose organisation row is
    missing is found by [getFullConversation], which joins nothing it
    needs, and is not found by [sendMessage], whose inner join with the
    organisations gives no row: the message is answered with 500 and not
    saved. *)
Theorem conversation_without_organisation (w : World)
    (messageRequest : MessageRequest) (s : St) :
  (exists c, In c (conversations (db s)) /\
             conv_id c = req_conversation_id messageRequest) ->
  (forall c o, In c (conversations (db s)) ->
               conv_id c = req_conversation_id messageRequest ->
               In o (organisations (db s)) ->
               org_id o <> conv_organisation_id c) ->
  (exists r, getFullConversation (req_conversation_id messageRequest) s
             = (Ok r, s)) /\
  sendMessage w messageRequest s = (Ok failed_to_send, s).
Proof.
  intros Hsome Hnoorg. split.
  - destruct (@selectConversationWithContact_some (db s) _ Hsome)
      as (c & k & Hsel & _).
    unfold getFullConversation, bind, get_db. rewrite Hsel. cbn.
    eexists. reflexivity.
  - apply sendMessage_unknown_run. now apply select_without_organisation.
Qed.

Lemma conversation_without_organisation_witness :
  (exists r,
     getFullConversation "conv_1"
       (start {| organisations := []; contacts := [cont_1];
                 conversations := [conv_1 false OPEN]; messages := [] |})
     = (Ok r, start {| organisations := []; contacts := [cont_1];
                       conversations := [conv_1 false OPEN];
                       messages := [] |})) /\
  sendMessage world_hello (hi CONTACT)
    (start {| organisations := []; contacts := [cont_1];
              conversations := [conv_1 false OPEN]; messages := [] |})
    = (Ok failed_to_send,
       start {| organisations := []; contacts := [cont_1];
                conversations := [conv_1 false OPEN]; messages := [] |}).
Proof.
  apply (@conversation_without_organisation world_hello (hi CONTACT)
           (start {| organisations := []; contacts := [cont_1];
                     conversations := [conv_1 false OPEN]; messages := [] |})).
  - exists (conv_1 false OPEN). split; [now left | reflexivity].
  - intros c o _ _ [].
Defined.

Section ReadBack.

Variable w : World.





End ReadBack.


(** ** [handleMessageForOpenAI] *)

Section Handler.

Variable w : World.

(** The run that [resolve_required_action] gives is the first run, or the
    answer to the resubmission of the outputs given to its tool calls. *)
Lemma resolve_required_action_submitted (thread_id contact_id : string)
    (first_run run : Run) (s s' : St) :
  resolve_required_action w thread_id contact_id first_run s = (Ok run, s') ->
  (run_status first_run <> requires_action /\ run = first_run) \/
  (run_status first_run = requires_action /\
   exists tool_calls outs,
     run_required_action first_run = Some tool_calls /\
     Forall2 (answers w) tool_calls outs /\
     runs_submitToolOutputsAndPoll w thread_id (run_id first_run) outs = Ok run).
Proof.
  unfold resolve_required_action.
  destruct (status_eqb (run_status first_run) requires_action) eqn:E.
  - apply status_eqb_eq in E. intros H. right. split; [exact E |].
    destruct (run_required_action first_run) as [tool_calls |]; cbn in H.
    + unfold bind at 1 in H.
      destruct (tool_outputs_returns w contact_id tool_calls s)
        as (outs & s1 & Heq & _ & Hans). rewrite Heq in H.
      unfold call in H. injection H as H _.
      exists tool_calls, outs. split; [reflexivity |]. now split.
    + discriminate H.
  - unfold ret. intros [= <- <-]. left. split; [| reflexivity].
    intros Hst. apply status_eqb_eq in Hst. congruence.
Qed.

(** [handleMessageForOpenAI] saves nothing itself: in every outcome the
    messages, conversations and organisations are as before.  It returns
    replies only when the run it ended in is completed: the first run, or,
    when that one required action, the run answering the resubmission of
    the outputs given to its tool calls.  In every other case it rejects;
    it never returns an empty list in place of a failure. *)
Theorem handleMessageForOpenAI_returns_only_when_completed
    (messageRequest : MessageRequest) (assistant_id contact_id : string)
    (s s' : St) (r : Result (list MessageResponse)) :
  handleMessageForOpenAI w messageRequest assistant_id contact_id s = (r, s') ->
  same_exchange (db s) (db s') /\
  forall out, r = Ok out ->
    exists first_run run,
      runs_createAndPoll w
        (js_replace (req_conversation_id messageRequest) "conv_" "thread_")
        (Some assistant_id) = Ok first_run /\
      ((run_status first_run <> requires_action /\ run = first_run) \/
       (run_status first_run = requires_action /\
        exists tool_calls outs,
          run_required_action first_run = Some tool_calls /\
          Forall2 (answers w) tool_calls outs /\
          runs_submitToolOutputsAndPoll w
            (js_replace (req_conversation_id messageRequest) "conv_" "thread_")
            (run_id first_run) outs = Ok run)) /\
      run_status run = completed.
Proof.
  unfold handleMessageForOpenAI.
  unfold bind at 1, call at 1.
  destruct (messages_create w _ _) as [[] | e1].
  2: { intros [= <- <-]. split; [apply same_exchange_refl | discriminate]. }
  unfold bind at 1, call at 1.
  destruct (runs_createAndPoll w _ _) as [first_run | e2] eqn:Hfirst.
  2: { intros [= <- <-]. split; [apply same_exchange_refl | discriminate]. }
  unfold bind at 1.
  destruct (resolve_required_action w _ contact_id first_run _)
    as [[run | e3] s3] eqn:Hres.
  all: pose proof (resolve_required_action_frame w _ _ _ _ Hres) as (Hx & _);
    cbn in Hx.
  2: { intros [= <- <-]. split; [exact Hx | discriminate]. }
  destruct (status_eqb (run_status run) completed) eqn:Hst.
  2: { unfold throw. intros [= <- <-]. split; [exact Hx | discriminate]. }
  unfold bind at 1, call at 1.
  destruct (messages_list w (run_thread_id run) (Some 5)) as [data | e4].
  2: { intros [= <- <-]. split; [exact Hx | discriminate]. }
  unfold bind at 1.
  destruct (mapM (push_processed_message w _) (since_last_user data) _)
    as [[pushed | e5] s5] eqn:Hpush;
    apply push_processed_messages in Hpush; cbn in Hpush;
    destruct Hpush as (Hd & _).
  2: { intros [= <- <-]. split; [| discriminate].
       unfold same_exchange. rewrite Hd. exact Hx. }
  unfold ret. intros [= <- <-]. split.
  - unfold same_exchange. rewrite Hd. exact Hx.
  - intros out _. exists first_run, run. split; [reflexivity |].
    split; [| now apply status_eqb_eq].
    exact (resolve_required_action_submitted _ _ _ _ Hres).
Qed.

End Handler.

Lemma handleMessageForOpenAI_returns_only_when_completed_witness :
  exists out s',
    handleMessageForOpenAI world_hello (hi CONTACT) "asst_1" "cont_1"
      (start (db_1 false OPEN)) = (Ok out, s') /\
    map mr_message out = ["Hello!"] /\
    messages (db s') = [] /\
    exists first_run,
      runs_createAndPoll world_hello "thread_1" (Some "asst_1") = Ok first_run /\
      run_status first_run = completed.
Proof.
  destruct (handleMessageForOpenAI world_hello (hi CONTACT) "asst_1" "cont_1"
              (start (db_1 false OPEN))) as [r s'] eqn:Hrun.
  destruct (@handleMessageForOpenAI_returns_only_when_completed
              world_hello (hi CONTACT) "asst_1" "cont_1"
              (start (db_1 false OPEN)) s' r Hrun)
    as ((Hm & _) & Hok).
  vm_compute in Hrun. injection Hrun as <- <-.
  eexists. eexists. split; [reflexivity |]. split; [reflexivity |].
  split; [reflexivity |].
  destruct (Hok _ eq_refl) as (first_run & run & Hfirst & Hcase & Hdone).
  exists first_run. split; [exact Hfirst |].
  destruct Hcase as [(_ & ->) | (Hreq & _)]; [exact Hdone |].
  injection Hfirst as <-. discriminate Hreq.
Defined.

(** ** The Slack lookups *)

Section SlackLookups.

Variable w : World.

Lemma find_app_none {A : Type} (p : A -> bool) (xs ys : list A) :
  find p xs = None -> find p (xs ++ ys) = find p ys.
Proof.
  induction xs as [| x xs IH]; cbn; [reflexivity |].
  destruct (p x); [discriminate | exact IH].
Qed.

Lemma find_app_some {A : Type} (p : A -> bool) (xs ys : list A) (x : A) :
  find p xs = Some x -> find p (xs ++ ys) = Some x.
Proof.
  induction xs as [| y xs IH]; cbn; [discriminate |].
  destruct (p y); [trivial | exact IH].
Qed.

(** The conversation that [checkGetConversation] finds for a thread: the
    first one with that channel id, when its id is not empty. *)
Lemma checkGetConversation_found (thread_ts organisation_id : string)
    (admin : bool) (contact_id : string) (s : St) (c : Conversation) :
  find (channel_id_is thread_ts) (conversations (db s)) = Some c ->
  truthy (conv_id c) = true ->
  checkGetConversation w thread_ts organisation_id admin contact_id s
    = (Ok (Some (conv_id c)),
       {| db := if admin
                then updateConversations (conv_id c) set_interrupted (db s)
                else db s;
          calls := calls s; ids_drawn := S (ids_drawn s);
          clock_reads := clock_reads s |}).
Proof.
  intros Hfind Hid.
  unfold checkGetConversation, bind, draw_id, get_db. cbn.
  rewrite Hfind, Hid. destruct admin; reflexivity.
Qed.




Lemma updated_conversations_each (id : string)
    (change : Conversation -> Conversation) (cs : list Conversation) :
  Forall2 (fun c c' => if String.eqb (conv_id c) id
                       then c' = change c else c' = c)
          cs
          (map (fun c => if String.eqb (conv_id c) id then change c else c) cs).
Proof.
  induction cs as [| x xs IH]; cbn; constructor; [| exact IH].
  destruct (String.eqb (conv_id x) id); reflexivity.
Qed.


Lemma slack_id_is_spec (slack_id : string) (c : Contact) :
  slack_id_is slack_id c = true <-> cont_slack_id c = Some slack_id.
Proof.
  unfold slack_id_is. destruct (cont_slack_id c) as [v |].
  - rewrite String.eqb_eq. split; congruence.
  - split; discriminate.
Qed.

Lemma checkGetContactID_found (slack_id : string)
    (slack_name slack_email slack_phone : option string)
    (organisation_id : string) (s : St) (c : Contact) :
  find (slack_id_is slack_id) (contacts (db s)) = Some c ->
  truthy (cont_id c) = true ->
  checkGetContactID w slack_id slack_name slack_email slack_phone
    organisation_id s
    = (Ok (cont_id c),
       {| db := db s; calls := calls s; ids_drawn := S (ids_drawn s);
          clock_reads := clock_reads s |}).
Proof.
  intros Hfind Hid.
  unfold checkGetContactID, bind, draw_id, get_db. cbn.
  now rewrite Hfind, Hid.
Qed.

Lemma checkGetContactID_created (slack_id : string)
    (slack_name slack_email slack_phone : option string)
    (organisation_id : string) (s : St) :
  find (slack_id_is slack_id) (contacts (db s)) = None ->
  checkGetContactID w slack_id slack_name slack_email slack_phone
    organisation_id s
    = (Ok (cont_id
             {| cont_id := createID w (ids_drawn s) "cont";
                cont_organisation_id := organisation_id;
                cont_name := text_column slack_name;
                cont_email := text_column slack_email;
                cont_phone := text_column slack_phone;
                cont_slack_id := Some slack_id |}),
       {| db :=
            insertContact
              {| cont_id := createID w (ids_drawn s) "cont";
                 cont_organisation_id := organisation_id;
                 cont_name := text_column slack_name;
                 cont_email := text_column slack_email;
                 cont_phone := text_column slack_phone;
                 cont_slack_id := Some slack_id |} (db s);
          calls := calls s; ids_drawn := S (ids_drawn s);
          clock_reads := clock_reads s |}).
Proof.
  intros Hfind.
  unfold checkGetContactID, bind, draw_id, get_db. cbn.
  now rewrite Hfind.
Qed.

(** A Slack user gets one contact.  When no contact has the Slack id, one
    is created with the name, e-mail and phone given and under the
    organisation of the event; when one has it, it is given and nothing is
    written.  Either way every later lookup for that Slack id, under
    whatever organisation, gives the same contact and writes nothing: the
    lookup goes by the Slack id alone. *)
Theorem checkGetContactID_creates_once (slack_id : string)
    (slack_name slack_email slack_phone : option string)
    (organisation_id : string) (s : St) :
  (forall c, find (slack_id_is slack_id) (contacts (db s)) = Some c ->
             cont_id c <> "") ->
  createID w (ids_drawn s) "cont" <> "" ->
  exists contact s1,
    checkGetContactID w slack_id slack_name slack_email slack_phone
      organisation_id s = (Ok (cont_id contact), s1) /\
    In contact (contacts (db s1)) /\
    cont_slack_id contact = Some slack_id /\
    (find (slack_id_is slack_id) (contacts (db s)) = None ->
     contacts (db s1) = (contacts (db s) ++ [contact])%list /\
     cont_id contact = createID w (ids_drawn s) "cont" /\
     cont_organisation_id contact = organisation_id /\
     cont_name contact = text_column slack_name /\
     cont_email contact = text_column slack_email /\
     cont_phone contact = text_column slack_phone) /\
    (find (slack_id_is slack_id) (contacts (db s)) <> None -> db s1 = db s) /\
    forall name' email' phone' organisation_id',
    exists s2,
      checkGetContactID w slack_id name' email' phone' organisation_id' s1
        = (Ok (cont_id contact), s2) /\
      db s2 = db s1.
Proof.
  intros Hexisting Hfresh.
  destruct (find (slack_id_is slack_id) (contacts (db s))) as [c |] eqn:Hfind.
  - assert (Hid : truthy (cont_id c) = true)
      by (unfold truthy; apply negb_true_iff; apply String.eqb_neq;
          now apply Hexisting).
    exists c. eexists.
    split; [exact (checkGetContactID_found _ slack_name slack_email slack_phone
                     organisation_id _ Hfind Hid) |].
    pose proof (find_some _ _ Hfind) as (Hin & Hs).
    split; [exact Hin |]. split; [now apply slack_id_is_spec |].
    split; [discriminate |]. split; [reflexivity |].
    intros name' email' phone' organisation_id'. eexists. split.
    + now apply checkGetContactID_found.
    + reflexivity.
  - eexists; eexists.
    split; [exact (checkGetContactID_created _ slack_name slack_email
                     slack_phone organisation_id _ Hfind) |].
    split; [cbn; apply in_or_app; right; now left |].
    split; [reflexivity |].
    split; [intros _; repeat split |].
    split; [intros Hn; now contradiction Hn |].
    intros name' email' phone' organisation_id'. eexists. split.
    + apply checkGetContactID_found.
      * cbn. rewrite (find_app_none _ _ _ Hfind). cbn.
        unfold slack_id_is. cbn. now rewrite String.eqb_refl.
      * cbn. unfold truthy. apply negb_true_iff. now apply String.eqb_neq.
    + reflexivity.
Qed.

End SlackLookups.


Lemma checkGetContactID_creates_once_witness :
  exists contact s1 s2,
    checkGetContactID world_slack "U2" (Some "Bob") None None "org_1"
      (start (db_1 false OPEN)) = (Ok (cont_id contact), s1) /\
    cont_name contact = JString "Bob" /\
    checkGetContactID world_slack "U2" None None None "org_2" s1
      = (Ok (cont_id contact), s2) /\
    db s2 = db s1.
Proof.
  destruct (@checkGetContactID_creates_once world_slack "U2" (Some "Bob")
              None None "org_1" (start (db_1 false OPEN)))
    as (contact & s1 & Hrun & _ & _ & Hnew & _ & Hagain).
  - intros c Hc. discriminate Hc.
  - discriminate.
  - destruct (Hnew eq_refl) as (_ & _ & _ & Hname & _).
    destruct (Hagain None None None "org_2") as (s2 & Hsecond & Hdb).
    exists contact, s1, s2. repeat split; assumption.
Defined.

(** ** The Slack bot event: failures and the admin's message *)

Section SlackEvent.

Variable w : World.

Lemma checkGetContactID_keeps (slack_id : string)
    (slack_name slack_email slack_phone : option string)
    (organisation_id : string) (s : St) :
  exists contact_id s1,
    checkGetContactID w slack_id slack_name slack_email slack_phone
      organisation_id s = (Ok contact_id, s1) /\
    calls s1 = calls s /\
    same_exchange (db s) (db s1).
Proof.
  destruct (checkGetContactID_returns w slack_id slack_name slack_email
              slack_phone organisation_id s)
    as (contact_id & s1 & Hrun & Hk & Ho & Hc & Hm).
  exists contact_id, s1. repeat split; assumption.
Qed.

Lemma checkGetConversation_keeps (thread_ts organisation_id : string)
    (admin : bool) (contact_id : string) (s : St) :
  exists conversation s1,
    checkGetConversation w thread_ts organisation_id admin contact_id s
      = (Ok conversation, s1) /\
    calls s1 = calls s /\
    messages (db s1) = messages (db s) /\
    organisations (db s1) = organisations (db s) /\
    contacts (db s1) = contacts (db s).
Proof.
  unfold checkGetConversation, bind, draw_id, get_db. cbn.
  destruct (find (channel_id_is thread_ts) (conversations (db s)))
    as [c |]; [destruct (truthy (conv_id c)) |]; destruct admin; cbn;
    eexists; eexists; (split; [reflexivity |]); cbn; repeat split.
Qed.

(** The event up to the two lookups. *)
Lemma bot_after_lookups (data : SlackBotMessageEvent) (s : St)
    (org : Organisation) (user : SlackUser) :
  find (fun o => String.eqb (org_id o) (ev_organisation_id data))
       (organisations (db s)) = Some org ->
  users_info w (ev_user_id data) = Ok user ->
  exists contact_id s1 conversation s2,
    checkGetContactID w (su_id user) (su_real_name user) (su_email user)
      (su_phone user) (ev_organisation_id data)
      {| db := db s; calls := calls s ++ [Slack_users_info (ev_user_id data)];
         ids_drawn := ids_drawn s; clock_reads := clock_reads s |}
      = (Ok contact_id, s1) /\
    checkGetConversation w (ev_thread_ts data) (ev_organisation_id data)
      (su_is_admin user) contact_id s1 = (Ok conversation, s2) /\
    processSlackBotMessage w data s
      = try_catch
          (messageResponse <-
             (if negb (su_is_admin user) then
                rs <- call (Assistant_handleSingleMessage (org_assistant_id org)
                              (ev_message data))
                           (handleSingleMessageForOpenAI w (org_assistant_id org)
                              (ev_message data)) ;;
                postBotResponseToSlack w (ev_channel_id data)
                  (bot_response_text rs) (ev_thread_ts data) ;;;
                ret (Some rs)
              else ret None) ;;
           match conversation with
           | Some conversation_id =>
               id <- draw_id w "msg" ;;
               created_at <- now w ;;
               modify_db
                 (insertMessages
                    [{| msg_id := id; msg_conversation_id := conversation_id;
                        msg_message := ev_message data;
                        msg_creator :=
                          if su_is_admin user then USER else CONTACT;
                        msg_version := Some 1;
                        msg_created_at := created_at |}]) ;;;
               match messageResponse with
               | Some rs =>
                   save_responses w
                     (stamp_responses conversation_id created_at rs) false
               | None => ret tt
               end
           | None => ret tt
           end)
          (fun _ => postBotResponseToSlack w (ev_channel_id data) apology
                      (ev_thread_ts data))
          s2.
Proof.
  intros Horg Huser.
  destruct (checkGetContactID_keeps (su_id user) (su_real_name user)
              (su_email user) (su_phone user) (ev_organisation_id data)
              {| db := db s;
                 calls := calls s ++ [Slack_users_info (ev_user_id data)];
                 ids_drawn := ids_drawn s;
                 clock_reads := clock_reads s |})
    as (contact_id & s1 & H1 & _).
  destruct (checkGetConversation_keeps (ev_thread_ts data)
              (ev_organisation_id data) (su_is_admin user) contact_id s1)
    as (conversation & s2 & H2 & _).
  exists contact_id, s1, conversation, s2.
  split; [exact H1 |]. split; [exact H2 |].
  unfold processSlackBotMessage, try_catch.
  unfold bind at 1, get_db. unfold bind at 1, defined. rewrite Horg. cbn.
  rewrite Huser.
  unfold bind at 1. rewrite H1.
  unfold bind at 1. rewrite H2.
  reflexivity.
Qed.

(** Before the Slack user is known nothing is written.  When the
    organisation of the event does not exist, or the Slack user cannot be
    fetched, the database stays as it is, the apology is posted to the
    thread, and the outcome of the event is that of this post. *)
Theorem bot_fails_before_lookups (data : SlackBotMessageEvent) (s : St) :
  find (fun o => String.eqb (org_id o) (ev_organisation_id data))
       (organisations (db s)) = None
  \/ (exists e, users_info w (ev_user_id data) = Thrown e) ->
  exists s' before,
    processSlackBotMessage w data s
      = (chat_postMessage w (ev_channel_id data) apology (ev_thread_ts data),
         s') /\
    db s' = db s /\
    (before = [] \/ before = [Slack_users_info (ev_user_id data)]) /\
    calls s'
      = (calls s ++ before
           ++ [Slack_chat_postMessage (ev_channel_id data) apology
                 (ev_thread_ts data)])%list.
Proof.
  intros Hfail. unfold processSlackBotMessage, try_catch.
  unfold bind at 1, get_db. unfold bind at 1, defined.
  destruct (find _ (organisations (db s))) as [org |] eqn:Horg.
  - destruct Hfail as [Hnone | (e & He)]; [discriminate Hnone |].
    cbn. rewrite He. cbn.
    eexists; exists [Slack_users_info (ev_user_id data)].
    split; [reflexivity |]. cbn. split; [reflexivity |].
    split; [now right |]. now rewrite <- app_assoc.
  - cbn. eexists; exists []. split; [reflexivity |]. cbn.
    split; [reflexivity |]. split; [now left | reflexivity].
Qed.

(** When the assistant cannot answer, or its answer cannot be posted, the
    inbound message is lost: no message is saved and no response either,
    the thread gets the apology, and the outcome of the event is that of
    this post.  The contact and the conversation made for the sender before
    the assistant was asked stay. *)
Theorem bot_assistant_failure (data : SlackBotMessageEvent) (s : St)
    (org : Organisation) (user : SlackUser) :
  find (fun o => String.eqb (org_id o) (ev_organisation_id data))
       (organisations (db s)) = Some org ->
  users_info w (ev_user_id data) = Ok user ->
  su_is_admin user = false ->
  (exists e,
     handleSingleMessageForOpenAI w (org_assistant_id org) (ev_message data)
       = Thrown e)
  \/ (exists rs e,
        handleSingleMessageForOpenAI w (org_assistant_id org) (ev_message data)
          = Ok rs /\
        chat_postMessage w (ev_channel_id data) (bot_response_text rs)
          (ev_thread_ts data) = Thrown e) ->
  exists s' before,
    processSlackBotMessage w data s
      = (chat_postMessage w (ev_channel_id data) apology (ev_thread_ts data),
         s') /\
    messages (db s') = messages (db s) /\
    organisations (db s') = organisations (db s) /\
    calls s'
      = (calls s ++ before
           ++ [Slack_chat_postMessage (ev_channel_id data) apology
                 (ev_thread_ts data)])%list /\
    Forall (fun c => match c with
                     | Db_saveMessageResponses _ _ => False
                     | _ => True
                     end) before.
Proof.
  intros Horg Huser Hadmin Hfail.
  destruct (bot_after_lookups data s Horg Huser)
    as (contact_id & s1 & conversation & s2 & H1 & H2 & ->).
  destruct (checkGetContactID_keeps (su_id user) (su_real_name user)
              (su_email user) (su_phone user) (ev_organisation_id data)
              {| db := db s;
                 calls := calls s ++ [Slack_users_info (ev_user_id data)];
                 ids_drawn := ids_drawn s;
                 clock_reads := clock_reads s |})
    as (k1 & t1 & E1 & Hk1 & (Hm1 & _ & Ho1)).
  rewrite H1 in E1. injection E1 as <- <-.
  destruct (checkGetConversation_keeps (ev_thread_ts data)
              (ev_organisation_id data) (su_is_admin user) contact_id s1)
    as (k2 & t2 & E2 & Hk2 & Hm2 & Ho2 & _).
  rewrite H2 in E2. injection E2 as <- <-.
  cbn in Hk1, Hm1, Ho1.
  rewrite Hadmin. cbn [negb].
  unfold try_catch, bind, call, postBotResponseToSlack.
  destruct Hfail as [(e & He) | (rs & e & Hrs & He)].
  - rewrite He. cbn.
    eexists; exists [Slack_users_info (ev_user_id data);
                     Assistant_handleSingleMessage (org_assistant_id org)
                       (ev_message data)].
    split; [reflexivity |]. cbn.
    split; [congruence |]. split; [congruence |].
    split; [rewrite Hk2, Hk1, <- !app_assoc; reflexivity |].
    repeat constructor.
  - rewrite Hrs, He. cbn.
    eexists; exists [Slack_users_info (ev_user_id data);
                     Assistant_handleSingleMessage (org_assistant_id org)
                       (ev_message data);
                     Slack_chat_postMessage (ev_channel_id data)
                       (bot_response_text rs) (ev_thread_ts data)].
    split; [reflexivity |]. cbn.
    split; [congruence |]. split; [congruence |].
    split; [rewrite Hk2, Hk1, <- !app_assoc; reflexivity |].
    repeat constructor.
Qed.

(** The event of an admin whose thread has a conversation. *)
Lemma bot_admin_run (data : SlackBotMessageEvent) (s : St)
    (org : Organisation) (user : SlackUser) (c : Conversation) :
  find (fun o => String.eqb (org_id o) (ev_organisation_id data))
       (organisations (db s)) = Some org ->
  users_info w (ev_user_id data) = Ok user ->
  su_is_admin user = true ->
  find (channel_id_is (ev_thread_ts data)) (conversations (db s)) = Some c ->
  truthy (conv_id c) = true ->
  exists s1,
    same_exchange (db s) (db s1) /\
    calls s1 = (calls s ++ [Slack_users_info (ev_user_id data)])%list /\
    processSlackBotMessage w data s
      = (Ok tt,
         {| db :=
              insertMessages
                [{| msg_id := createID w (S (ids_drawn s1)) "msg";
                    msg_conversation_id := conv_id c;
                    msg_message := ev_message data;
                    msg_creator := USER;
                    msg_version := Some 1;
                    msg_created_at := Date_now w (clock_reads s1) |}]
                (updateConversations (conv_id c) set_interrupted (db s1));
            calls := calls s1;
            ids_drawn := S (S (ids_drawn s1));
            clock_reads := S (clock_reads s1) |}).
Proof.
  intros Horg Huser Hadmin Hfind Hid.
  destruct (bot_after_lookups data s Horg Huser)
    as (contact_id & s1 & conversation & s2 & H1 & H2 & ->).
  destruct (checkGetContactID_keeps (su_id user) (su_real_name user)
              (su_email user) (su_phone user) (ev_organisation_id data)
              {| db := db s;
                 calls := calls s ++ [Slack_users_info (ev_user_id data)];
                 ids_drawn := ids_drawn s;
                 clock_reads := clock_reads s |})
    as (k1 & t1 & E1 & Hk1 & Hx1).
  rewrite H1 in E1. injection E1 as <- <-. cbn in Hk1, Hx1.
  assert (Hfind1 : find (channel_id_is (ev_thread_ts data))
                        (conversations (db s1)) = Some c)
    by (destruct Hx1 as (_ & -> & _); exact Hfind).
  rewrite Hadmin in H2.
  rewrite (checkGetConversation_found w _ (ev_organisation_id data) true
             contact_id _ Hfind1 Hid) in H2.
  injection H2 as <- <-.
  exists s1. split; [exact Hx1 |]. split; [exact Hk1 |].
  rewrite Hadmin. reflexivity.
Qed.

(** An admin's message in a thread that has a conversation is saved with
    creator USER, marks every row of that conversation interrupted, leaves
    the other conversations as they are and creates none; the assistant is
    not asked. *)
Theorem bot_admin_message_is_saved (data : SlackBotMessageEvent) (s : St)
    (org : Organisation) (user : SlackUser) (c : Conversation) :
  find (fun o => String.eqb (org_id o) (ev_organisation_id data))
       (organisations (db s)) = Some org ->
  users_info w (ev_user_id data) = Ok user ->
  su_is_admin user = true ->
  find (channel_id_is (ev_thread_ts data)) (conversations (db s)) = Some c ->
  conv_id c <> "" ->
  exists inbound s',
    processSlackBotMessage w data s = (Ok tt, s') /\
    messages (db s') = (messages (db s) ++ [inbound])%list /\
    msg_creator inbound = USER /\
    msg_conversation_id inbound = conv_id c /\
    msg_message inbound = ev_message data /\
    Forall2 (fun x x' => if String.eqb (conv_id x) (conv_id c)
                         then x' = set_interrupted x else x' = x)
            (conversations (db s)) (conversations (db s')) /\
    calls s' = (calls s ++ [Slack_users_info (ev_user_id data)])%list.
Proof.
  intros Horg Huser Hadmin Hfind Hid.
  assert (Htruthy : truthy (conv_id c) = true)
    by (unfold truthy; apply negb_true_iff; now apply String.eqb_neq).
  destruct (bot_admin_run data s Horg Huser Hadmin Hfind Htruthy)
    as (s1 & (Hm & Hc & _) & Hk & ->).
  eexists; eexists. split; [reflexivity |]. cbn.
  rewrite Hm, Hc. split; [reflexivity |].
  do 3 (split; [reflexivity |]).
  split; [apply updated_conversations_each | exact Hk].
Qed.

(** An admin's Slack message silences the assistant of the HTTP path too.
    After it, [sendMessage] for the thread's conversation takes the gate,
    whoever the creator: the message is saved and the assistant is not
    asked. *)
Theorem bot_admin_then_sendMessage (data : SlackBotMessageEvent) (s : St)
    (org : Organisation) (user : SlackUser) (c : Conversation)
    (messageRequest : MessageRequest) (interrupted : bool)
    (assistant_id : option string) (contact_id : string) :
  find (fun o => String.eqb (org_id o) (ev_organisation_id data))
       (organisations (db s)) = Some org ->
  users_info w (ev_user_id data) = Ok user ->
  su_is_admin user = true ->
  find (channel_id_is (ev_thread_ts data)) (conversations (db s)) = Some c ->
  conv_id c <> "" ->
  req_conversation_id messageRequest = conv_id c ->
  selectConversationForMessage (db s) (conv_id c)
    = Some (interrupted, assistant_id, contact_id) ->
  exists s1 s2,
    processSlackBotMessage w data s = (Ok tt, s1) /\
    sendMessage w messageRequest s1
      = (Ok {| status := 200; jsonBody := None |}, s2) /\
    calls s2 = (calls s ++ [Slack_users_info (ev_user_id data)])%list.
Proof.
  intros Horg Huser Hadmin Hfind Hid Hreq Hsel.
  assert (Htruthy : truthy (conv_id c) = true)
    by (unfold truthy; apply negb_true_iff; now apply String.eqb_neq).
  destruct (bot_admin_run data s Horg Huser Hadmin Hfind Htruthy)
    as (s1 & (_ & Hc & Ho) & Hk & ->).
  eexists; eexists. split; [reflexivity |].
  match goal with
  | |- sendMessage w messageRequest ?t = _ /\ _ =>
      assert (Hsel1 : selectConversationForMessage (db t)
                        (req_conversation_id messageRequest)
                      = Some (true, assistant_id, contact_id))
  end.
  { rewrite Hreq. unfold selectConversationForMessage. cbn.
    rewrite Hc, Ho. apply select_after_change with (flag := interrupted);
      try reflexivity. exact Hsel. }
  split.
  - exact (sendMessage_gate_run w messageRequest _ Hsel1 (or_introl eq_refl)).
  - cbn. exact Hk.
Qed.

End SlackEvent.

Lemma bot_fails_before_lookups_witness :
  exists s' before,
    processSlackBotMessage world_slack bot_event (start empty_db) = (Ok tt, s') /\
    db s' = empty_db /\
    calls s'
      = (before ++ [Slack_chat_postMessage "C1" apology "171.001"])%list.
Proof.
  destruct (@bot_fails_before_lookups world_slack bot_event (start empty_db))
    as (s' & before & Hrun & Hdb & _ & Hcalls).
  - left. reflexivity.
  - exists s', before. split; [exact Hrun |]. split; [exact Hdb | exact Hcalls].
Defined.

Lemma bot_assistant_failure_witness :
  exists s',
    processSlackBotMessage world_assistant_down bot_event
      (start (db_1 false OPEN)) = (Ok tt, s') /\
    messages (db s') = [].
Proof.
  destruct (@bot_assistant_failure world_assistant_down bot_event
              (start (db_1 false OPEN)) org_1 (some_user false)
              eq_refl eq_refl eq_refl)
    as (s' & before & Hrun & Hm & _).
  - left. eexists. reflexivity.
  - exists s'. split; [exact Hrun | exact Hm].
Defined.

Lemma bot_admin_message_is_saved_witness :
  exists inbound s',
    processSlackBotMessage world_admin bot_event (start (db_1 false OPEN))
      = (Ok tt, s') /\
    messages (db s') = [inbound] /\
    msg_creator inbound = USER /\
    map conv_interrupted (conversations (db s')) = [true].
Proof.
  destruct (@bot_admin_message_is_saved world_admin bot_event
              (start (db_1 false OPEN)) org_1 (some_user true)
              (conv_1 false OPEN) eq_refl eq_refl eq_refl eq_refl)
    as (inbound & s' & Hrun & Hm & Hc & _ & _ & Hconv & _).
  - discriminate.
  - exists inbound, s'. split; [exact Hrun |]. split; [exact Hm |].
    split; [exact Hc |].
    cbn in Hconv.
    inversion Hconv as [| x x' xs xs' Hx Hrest]; subst.
    inversion Hrest; subst. cbn in Hx. rewrite Hx. reflexivity.
Defined.

Lemma bot_admin_then_sendMessage_witness :
  exists s1 s2,
    processSlackBotMessage world_admin bot_event (start (db_1 false OPEN))
      = (Ok tt, s1) /\
    sendMessage world_admin (hi CONTACT) s1
      = (Ok {| status := 200; jsonBody := None |}, s2) /\
    calls s2 = [Slack_users_info "U1"].
Proof.
  destruct (@bot_admin_then_sendMessage world_admin bot_event
              (start (db_1 false OPEN)) org_1 (some_user true)
              (conv_1 false OPEN) (hi CONTACT) false (Some "asst_1") "cont_1"
              eq_refl eq_refl eq_refl eq_refl)
    as (s1 & s2 & H1 & H2 & Hk).
  - discriminate.
  - reflexivity.
  - reflexivity.
  - exists s1, s2. repeat split; assumption.
Defined.

(** ** The links of a Slack reply *)


(** ** [getConversations] *)

Section ConversationsListed.

Variable authenticateRequest : HttpRequest -> Result string.
Variable checkUserIsAdmin : string -> string -> Result bool.

(** The outcomes of [getConversations], by what the request carries. *)
Lemma getConversations_cases (request : HttpRequest) (s : St) :
  exists r,
    getConversations authenticateRequest checkUserIsAdmin request s = (Ok r, s) /\
    ((cs_status r = 400 /\
      cs_jsonBody r = Some (inr "Must supply a valid organisation ID") /\
      (params_org_id request = None \/ params_org_id request = Some "")) \/
     (cs_status r = 401 /\ cs_jsonBody r = None /\
      exists org_id,
        params_org_id request = Some org_id /\ org_id <> "" /\
        ((exists e, authenticateRequest request = Thrown e) \/
         (exists email e,
            authenticateRequest request = Ok email /\
            checkUserIsAdmin org_id email = Thrown e))) \/
     (cs_status r = 403 /\ cs_jsonBody r = None /\
      exists org_id email,
        params_org_id request = Some org_id /\ org_id <> "" /\
        authenticateRequest request = Ok email /\
        checkUserIsAdmin org_id email = Ok false) \/
     (cs_status r = 200 /\
      exists org_id email,
        params_org_id request = Some org_id /\ org_id <> "" /\
        authenticateRequest request = Ok email /\
        checkUserIsAdmin org_id email = Ok true /\
        cs_jsonBody r = Some (inl (selectConversationsOf (db s) org_id)))).
Proof.
  unfold getConversations.
  destruct (params_org_id request) as [org_id |] eqn:Horg.
  - destruct (String.eqb org_id "") eqn:E.
    + apply String.eqb_eq in E. subst org_id.
      eexists. split; [reflexivity |]. left.
      split; [reflexivity |]. split; [reflexivity | now right].
    + apply String.eqb_neq in E.
      unfold bind, authorise, try_catch, lift.
      destruct (authenticateRequest request) as [email | e] eqn:Hauth; cbn.
      * destruct (checkUserIsAdmin org_id email) as [[] | e] eqn:Hadmin; cbn.
        -- eexists. split; [destruct s; reflexivity |].
           right; right; right. split; [reflexivity |].
           exists org_id, email. repeat split; try assumption.
        -- eexists. split; [reflexivity |].
           right; right; left. split; [reflexivity |]. split; [reflexivity |].
           now exists org_id, email.
        -- eexists. split; [reflexivity |].
           right; left. split; [reflexivity |]. split; [reflexivity |].
           exists org_id. split; [reflexivity |]. split; [exact E |].
           right. now exists email, e.
      * eexists. split; [reflexivity |].
        right; left. split; [reflexivity |]. split; [reflexivity |].
        exists org_id. split; [reflexivity |]. split; [exact E |].
        left. now exists e.
  - eexists. split; [reflexivity |]. left.
    split; [reflexivity |]. split; [reflexivity | now left].
Qed.

(** Nothing is disclosed without authorisation.  [getConversations] answers
    with conversations only to a request that names an organisation, is
    authenticated, and comes from an admin of that organisation; then the
    status is 200 and the conversations are those selected for that
    organisation.  It never writes. *)
Theorem getConversations_discloses_to_admins_only (request : HttpRequest)
    (s s' : St) (r : ConversationsHttpResponse)
    (rows : list ConversationsResponse) :
  getConversations authenticateRequest checkUserIsAdmin request s = (Ok r, s') ->
  cs_jsonBody r = Some (inl rows) ->
  s' = s /\
  cs_status r = 200 /\
  exists org_id email,
    params_org_id request = Some org_id /\ org_id <> "" /\
    authenticateRequest request = Ok email /\
    checkUserIsAdmin org_id email = Ok true /\
    rows = selectConversationsOf (db s) org_id.
Proof.
  intros Hrun Hbody.
  destruct (getConversations_cases request s) as (r0 & Hr0 & Hcases).
  rewrite Hr0 in Hrun. injection Hrun as <- <-.
  split; [reflexivity |].
  destruct Hcases
    as [(_ & Hn & _) | [(_ & Hn & _) | [(_ & Hn & _) | (H200 & Hok)]]];
    try (rewrite Hn in Hbody; discriminate Hbody).
  split; [exact H200 |].
  destruct Hok as (org_id & email & Ho & Hne & Ha & Hadm & Hb).
  exists org_id, email. repeat split; try assumption.
  rewrite Hb in Hbody. now injection Hbody as <-.
Qed.

(** The refusals of [getConversations], in the order the code tries them:
    400 for a request without organisation id, whoever sends it; 401 when the
    request is not authenticated or the admin check throws; 403 for an
    authenticated sender who is no admin of the organisation.  A refusal
    carries no conversation, and every answer other than these is a 200. *)
Theorem getConversations_refusals (request : HttpRequest) (s : St) :
  exists r,
    getConversations authenticateRequest checkUserIsAdmin request s = (Ok r, s) /\
    (cs_status r = 400 \/ cs_status r = 401 \/ cs_status r = 403 \/
     cs_status r = 200) /\
    (cs_status r = 400 <->
     params_org_id request = None \/ params_org_id request = Some "") /\
    (cs_status r = 401 <->
     exists org_id,
       params_org_id request = Some org_id /\ org_id <> "" /\
       ((exists e, authenticateRequest request = Thrown e) \/
        (exists email e,
           authenticateRequest request = Ok email /\
           checkUserIsAdmin org_id email = Thrown e))) /\
    (cs_status r = 403 <->
     exists org_id email,
       params_org_id request = Some org_id /\ org_id <> "" /\
       authenticateRequest request = Ok email /\
       checkUserIsAdmin org_id email = Ok false) /\
    (cs_status r <> 200 -> forall rows, cs_jsonBody r <> Some (inl rows)).
Proof.
  destruct (getConversations_cases request s) as (r & Hr & Hcases).
  exists r. split; [exact Hr |].
  destruct Hcases
    as [(Hst & Hb & Hc) | [(Hst & Hb & Hc) | [(Hst & Hb & Hc) | (Hst & Hc)]]];
    rewrite Hst.
  - split; [now left |]. split; [tauto |].
    split.
    { split; [discriminate |].
      intros (o & Ho & Hne & _). destruct Hc as [Hc | Hc]; congruence. }
    split.
    { split; [discriminate |].
      intros (o & e & Ho & Hne & _). destruct Hc as [Hc | Hc]; congruence. }
    intros _ rows. rewrite Hb. discriminate.
  - destruct Hc as (o & Ho & Hne & Hc).
    split; [right; now left |].
    split.
    { split; [discriminate |]. intros [H | H]; congruence. }
    split.
    { split; [intros _ | reflexivity]. now exists o. }
    split.
    { split; [discriminate |].
      intros (o' & e' & Ho' & _ & Ha' & Hk').
      rewrite Ho in Ho'. injection Ho' as <-.
      destruct Hc as [(e & He) | (email & e & He & Hk)]; congruence. }
    intros _ rows. rewrite Hb. discriminate.
  - destruct Hc as (o & email & Ho & Hne & Ha & Hk).
    split; [right; right; now left |].
    split.
    { split; [discriminate |]. intros [H | H]; congruence. }
    split.
    { split; [discriminate |].
      intros (o' & Ho' & _ & Hc').
      rewrite Ho in Ho'. injection Ho' as <-.
      destruct Hc' as [(e & He) | (email' & e & He & Hk')]; congruence. }
    split.
    { split; [intros _ | reflexivity]. now exists o, email. }
    intros _ rows. rewrite Hb. discriminate.
  - destruct Hc as (o & email & Ho & Hne & Ha & Hk & Hb).
    split; [right; right; now right |].
    split.
    { split; [discriminate |]. intros [H | H]; congruence. }
    split.
    { split; [discriminate |].
      intros (o' & Ho' & _ & Hc').
      rewrite Ho in Ho'. injection Ho' as <-.
      destruct Hc' as [(e & He) | (email' & e & He & Hk')]; congruence. }
    split.
    { split; [discriminate |].
      intros (o' & e' & Ho' & _ & Ha' & Hk').
      rewrite Ho in Ho'. injection Ho' as <-. congruence. }
    intros Hn. contradiction.
Qed.

(** What the list holds: one line for every conversation of the
    organisation that is not a draft and for every contact row it points
    to.  So no draft is listed, no conversation of another organisation,
    and no conversation whose contact row is missing. *)
Theorem selectConversationsOf_lists (d : Database) (org_id : string)
    (line : ConversationsResponse) :
  In line (selectConversationsOf d org_id) <->
  exists c k,
    In c (conversations d) /\ In k (contacts d) /\
    conv_organisation_id c = org_id /\
    conv_status c <> DRAFT /\
    conv_contact_id c = cont_id k /\
    line = conversation_line c k.
Proof.
  unfold selectConversationsOf. rewrite in_flat_map. split.
  - intros (c & Hc & Hin).
    destruct (String.eqb (conv_organisation_id c) org_id) eqn:Eo;
      [| destruct Hin].
    destruct (conversation_status_eqb (conv_status c) DRAFT) eqn:Es;
      [destruct Hin |].
    cbn in Hin. apply in_map_iff in Hin. destruct Hin as (k & <- & Hk).
    apply filter_In in Hk. destruct Hk as (Hk & Ek).
    exists c, k. split; [exact Hc |]. split; [exact Hk |].
    split; [now apply String.eqb_eq |].
    split; [intros Hd; rewrite Hd in Es; discriminate Es |].
    split; [now apply String.eqb_eq | reflexivity].
  - intros (c & k & Hc & Hk & Ho & Hs & Hck & ->).
    exists c. split; [exact Hc |].
    apply String.eqb_eq in Ho. rewrite Ho.
    assert (Es : conversation_status_eqb (conv_status c) DRAFT = false)
      by (destruct (conv_status c); [reflexivity | reflexivity | congruence]).
    rewrite Es. cbn. apply in_map_iff. exists k. split; [reflexivity |].
    apply filter_In. split; [exact Hk | now apply String.eqb_eq].
Qed.

End ConversationsListed.

Lemma getConversations_discloses_to_admins_only_witness :
  exists r,
    getConversations
      (fun request => match authorization request with
                      | Some _ => Ok "ann@acme.test"
                      | None => Thrown (ServiceError "no token")
                      end)
      (fun org_id email => Ok (String.eqb org_id "org_1"))
      {| params_org_id := Some "org_1"; authorization := Some "Bearer t" |}
      (start (db_1 false OPEN)) = (Ok r, start (db_1 false OPEN)) /\
    cs_status r = 200 /\
    cs_jsonBody r
      = Some (inl [conversation_line (conv_1 false OPEN) cont_1]).
Proof.
  eexists. split; [reflexivity |].
  destruct (@getConversations_discloses_to_admins_only
              (fun request => match authorization request with
                              | Some _ => Ok "ann@acme.test"
                              | None => Thrown (ServiceError "no token")
                              end)
              (fun org_id email => Ok (String.eqb org_id "org_1"))
              {| params_org_id := Some "org_1";
                 authorization := Some "Bearer t" |}
              (start (db_1 false OPEN)) (start (db_1 false OPEN)) _
              [conversation_line (conv_1 false OPEN) cont_1]
              eq_refl eq_refl)
    as (_ & Hst & _).
  split; [exact Hst | reflexivity].
Defined.
